(** * Financial document analyzer: job orchestration core

    A shallow embedding of the request/worker/result logic of the
    repository (database.py, main_async.py, worker.py, main.py, tools.py)
    and the properties of its job life cycle. *)

From Stdlib Require Import String Ascii ZArith Lia.
From stdpp Require Import base decidable option numbers list.

Open Scope Z_scope.

(** ** Python values *)

(** A Python [str] is a sequence of Unicode code points; [len] counts code
    points, which is why a byte string would not do. *)
Abbreviation str := (list N).

Definition py (s : string) : str := map N_of_ascii (list_ascii_of_string s).
Arguments py s%_string.

(** A call that either returns a value or raises an [Exception] whose
    [str(e)] is [msg]. *)
Inductive attempt (A : Type) : Type :=
| Returned (a : A)
| Raised (msg : str).
Arguments Returned {A} a.
Arguments Raised {A} msg.

(** An exception as the web handlers see it: [HTTPException] is raised by the
    handlers themselves, every other exception is kept by its [str(e)]. *)
Inductive exn : Type :=
| HTTPException (status_code : Z) (detail : str)
| Exception (msg : str).

Inductive result (A : Type) : Type :=
| Return (a : A)
| Raise (e : exn).
Arguments Return {A} a.
Arguments Raise {A} e.

(** Truthiness of a string: [if s:] holds for the non-empty ones. *)
Definition truthy (s : str) : bool :=
  match s with [] => false | _ :: _ => true end.

(** [len(s)] *)
Definition len (s : str) : Z := Z.of_nat (length s).

(** [s[:n]], also for a negative [n] (which counts from the end). *)
Definition slice_to (s : str) (n : Z) : str :=
  if 0 <=? n then take (Z.to_nat n) s else take (Z.to_nat (len s + n)) s.

(** The characters [str.strip()] removes: those for which [str.isspace()]
    holds (CPython's [_PyUnicode_IsWhitespace]). *)
Definition isspace (c : N) : bool :=
  ((9 <=? c) && (c <=? 13) || (28 <=? c) && (c <=? 32) ||
   (c =? 133) || (c =? 160) || (c =? 5760) ||
   (8192 <=? c) && (c <=? 8202) || (c =? 8232) || (c =? 8233) ||
   (c =? 8239) || (c =? 8287) || (c =? 12288))%N.

Fixpoint lstrip (s : str) : str :=
  match s with
  | c :: rest => if isspace c then lstrip rest else s
  | [] => []
  end.

Definition rstrip (s : str) : str := rev (lstrip (rev s)).

Definition strip (s : str) : str := rstrip (lstrip s).

(** [content.replace("\n\n", "\n")]: occurrences are replaced from the left
    and do not overlap. *)
Fixpoint replace_nn (s : str) : str :=
  match s with
  | c :: rest =>
      match rest with
      | c' :: rest' =>
          if ((c =? 10) && (c' =? 10))%N then 10%N :: replace_nn rest'
          else c :: replace_nn rest
      | [] => [c]
      end
  | [] => []
  end.

(** [s.startswith(prefix)] and [needle in s]. *)
Fixpoint startswith (s prefix : str) {struct prefix} : bool :=
  match prefix, s with
  | [], _ => true
  | p :: prefix', c :: s' => (p =? c)%N && startswith s' prefix'
  | _ :: _, [] => false
  end.

Fixpoint contains (needle s : str) : bool :=
  startswith s needle ||
  match s with
  | _ :: s' => contains needle s'
  | [] => false
  end.

(** The test of [filter(column == k)] on a row, for the column [key]. *)
Definition has_key {A : Type} (key : A -> str) (k : str) (x : A) : bool :=
  bool_decide (key x = k).

(** [s.endswith(suffix)] *)
Definition endswith (s suffix : str) : bool :=
  startswith (rev s) (rev suffix).

(** ** tools.py *)

Module Tools.

(** What [read_financial_document] sees of the file system: a path that does
    not exist, or a file on which [PdfReader(path)] raises or gives pages;
    [page.extract_text()] raises or returns the page's text. *)
Definition pdf := attempt (list (attempt str)).
Definition filesystem := str -> option pdf.

Definition truncation_note : str :=
  [10; 10]%N ++
  py "[Note: Document truncated to fit token limits. Analysis based on first portion of document.]".

(** The [for page in reader.pages] loop, with its [break]. *)
Fixpoint read_pages (pages : list (attempt str)) (max_chars : Z)
    (full_report : str) : attempt str :=
  match pages with
  | [] => Returned full_report
  | page :: pages' =>
      match page with
      | Raised msg => Raised msg
      | Returned content =>
          let full_report :=
            if truthy content
            then full_report ++ (replace_nn content ++ [10%N])
            else full_report in
          if len full_report >=? max_chars then Returned full_report
          else read_pages pages' max_chars full_report
      end
  end.

(** The body of the [try] block. *)
Definition read_body (fs : filesystem) (path : str) (max_chars : Z)
    : attempt str :=
  match fs path with
  | None => Returned (py "Error: File not found at " ++ path)
  | Some (Raised msg) => Raised msg
  | Some (Returned pages) =>
      match read_pages pages max_chars [] with
      | Raised msg => Raised msg
      | Returned full_report =>
          let full_report :=
            if len full_report >? max_chars
            then slice_to full_report max_chars ++ truncation_note
            else full_report in
          Returned (if truthy full_report then full_report
                    else py "Error: No text content extracted from PDF")
      end
  end.

Definition read_financial_document (fs : filesystem) (path : str)
    (max_chars : Z) : attempt str :=
  match read_body fs path max_chars with
  | Returned text => Returned text
  | Raised msg => Returned (py "Error reading PDF: " ++ msg)
  end.

(** A document none of whose pages has extractable text. *)
Definition no_text (pages : list (attempt str)) : Prop :=
  Forall (fun page => page = Returned []) pages.

End Tools.

(** ** database.py *)

Module Database.

(** The values the [status] column takes ("pending, processing, completed,
    failed"); [status_str] is the text stored. *)
Inductive Status : Type := pending | processing | completed | failed.

Definition status_str (s : Status) : str :=
  match s with
  | pending => py "pending"
  | processing => py "processing"
  | completed => py "completed"
  | failed => py "failed"
  end.

#[global] Instance Status_eq_dec : EqDecision Status.
Proof. solve_decision. Defined.

(** Rows of [analysis_requests]. A [DateTime] is a clock reading; the
    surrogate key [id] is left out, rows are addressed through the unique
    index on [request_id]. *)
Module AnalysisRequest.
Record t : Type := mk {
  request_id : str;
  filename : str;
  file_size_bytes : Z;
  query : str;
  status : Status;
  created_at : Z;
  started_at : option Z;
  completed_at : option Z;
  error_message : option str
}.
End AnalysisRequest.

(** Rows of [analysis_results]. *)
Module AnalysisResult.
Record t : Type := mk {
  request_id : str;
  analysis_text : str;
  processing_time_seconds : Z;
  created_at : Z
}.
End AnalysisResult.

Record DB : Type := mkDB {
  analysis_requests : list AnalysisRequest.t;
  analysis_results : list AnalysisResult.t
}.

Definition empty_db : DB := mkDB [] [].

(** [db.query(AnalysisRequest).filter(request_id == rid).first()] *)
Definition query_request (rid : str) (d : DB) : option AnalysisRequest.t :=
  List.find (fun r => bool_decide (AnalysisRequest.request_id r = rid))
            (analysis_requests d).

(** [db.query(AnalysisResult).filter(request_id == rid).first()] *)
Definition query_result (rid : str) (d : DB) : option AnalysisResult.t :=
  List.find (fun r => bool_decide (AnalysisResult.request_id r = rid))
            (analysis_results d).

(** The rows of [analysis_results] for a request. *)
Definition results_of (rid : str) (d : DB) : list AnalysisResult.t :=
  List.filter (fun r => bool_decide (AnalysisResult.request_id r = rid))
              (analysis_results d).

(** INSERT at commit; [None] is the IntegrityError of the unique index on
    [request_id], which leaves the table as it was. *)
Definition insert_request (r : AnalysisRequest.t) (d : DB) : option DB :=
  match query_request (AnalysisRequest.request_id r) d with
  | Some _ => None
  | None => Some (mkDB (analysis_requests d ++ [r]) (analysis_results d))
  end.

Definition insert_result (r : AnalysisResult.t) (d : DB) : option DB :=
  match query_result (AnalysisResult.request_id r) d with
  | Some _ => None
  | None => Some (mkDB (analysis_requests d) (analysis_results d ++ [r]))
  end.

(** UPDATE at commit of the attributes changed on the loaded row. *)
Definition update_request (rid : str)
    (f : AnalysisRequest.t -> AnalysisRequest.t) (d : DB) : DB :=
  mkDB (map (fun r => if bool_decide (AnalysisRequest.request_id r = rid)
                      then f r else r) (analysis_requests d))
       (analysis_results d).

End Database.

Import Database.

(** ** worker.py *)

Module Worker.

(** The keyword arguments a job is enqueued with. *)
Record Job : Type := mkJob {
  request_id : str;
  file_path : str;
  query : str;
  filename : str;
  file_size : Z
}.

(** [inputs] of [financial_crew.kickoff]; the synchronous path adds the
    document's text. *)
Record Inputs : Type := mkInputs {
  inputs_query : str;
  inputs_file_path : str;
  document_content : option str
}.

(** The work unit: building the crew and [kickoff(inputs)], as the outcome of
    its n-th invocation (from 0) on the given inputs. *)
Definition Crew := nat -> Inputs -> attempt str.

(** The dictionary the job returns. *)
Record Output : Type := mkOutput {
  out_request_id : str;
  out_result : str;
  out_processing_time : Z
}.

(** What a run holds between its two commits: its arguments, the row
    [request] it loaded (if any) and [start_time]. *)
Record Frame : Type := mkFrame {
  job : Job;
  request : bool;
  start_time : Z
}.

Definition set_processing (now : Z) (r : AnalysisRequest.t) : AnalysisRequest.t :=
  AnalysisRequest.mk (AnalysisRequest.request_id r) (AnalysisRequest.filename r)
    (AnalysisRequest.file_size_bytes r) (AnalysisRequest.query r)
    processing (AnalysisRequest.created_at r)
    (Some now) (AnalysisRequest.completed_at r) (AnalysisRequest.error_message r).

Definition set_completed (now : Z) (r : AnalysisRequest.t) : AnalysisRequest.t :=
  AnalysisRequest.mk (AnalysisRequest.request_id r) (AnalysisRequest.filename r)
    (AnalysisRequest.file_size_bytes r) (AnalysisRequest.query r)
    completed (AnalysisRequest.created_at r)
    (AnalysisRequest.started_at r) (Some now) (AnalysisRequest.error_message r).

Definition set_failed (msg : str) (now : Z) (r : AnalysisRequest.t)
    : AnalysisRequest.t :=
  AnalysisRequest.mk (AnalysisRequest.request_id r) (AnalysisRequest.filename r)
    (AnalysisRequest.file_size_bytes r) (AnalysisRequest.query r)
    failed (AnalysisRequest.created_at r)
    (AnalysisRequest.started_at r) (Some now) (Some msg).

(** Lines 53-65: load the row; if there is one, mark it processing and
    commit. [now] is the clock at that point. *)
Definition pickup (j : Job) (now : Z) (d : DB) : DB * Frame :=
  match query_request (request_id j) d with
  | Some _ =>
      (update_request (request_id j) (set_processing now) d, mkFrame j true now)
  | None => (d, mkFrame j false now)
  end.

(** Lines 112-122: the [except] clause, which re-raises. *)
Definition on_exception (fr : Frame) (msg : str) (now : Z) (d : DB)
    : DB * attempt Output :=
  (if request fr
   then update_request (request_id (job fr)) (set_failed msg now) d
   else d,
   Raised msg).

(** Lines 85-110 and the [except] clause: what the run does with the outcome
    of the work unit. The result row and the status change are one commit.
    A commit the unique index refuses raises, with [integrity_error] for its
    text, and rolls back, so the [except] clause then works on the database
    as the first commit left it. *)
Definition finish (integrity_error : str) (fr : Frame) (outcome : attempt str)
    (now : Z) (d : DB) : DB * attempt Output :=
  match outcome with
  | Returned result =>
      let processing_time := now - start_time fr in
      let analysis_result :=
        AnalysisResult.mk (request_id (job fr)) result processing_time now in
      match insert_result analysis_result d with
      | Some d' =>
          (if request fr
           then update_request (request_id (job fr)) (set_completed now) d'
           else d',
           Returned (mkOutput (request_id (job fr)) result processing_time))
      | None => on_exception fr integrity_error now d
      end
  | Raised msg => on_exception fr msg now d
  end.

(** A whole run: the database after it, what the job returns or raises, and
    the invocations of the work unit it made. The [finally] clause removes
    the uploaded file and closes the session; it leaves the tables alone and
    is not modelled. *)
Definition process_financial_document (integrity_error : str) (crew : Crew)
    (j : Job) (t0 t1 : Z) (d : DB) : DB * attempt Output * list Inputs :=
  let '(d1, fr) := pickup j t0 d in
  let inputs := mkInputs (query j) (file_path j) None in
  let '(d2, out) := finish integrity_error fr (crew 0%nat inputs) t1 d1 in
  (d2, out, [inputs]).

End Worker.

(** ** main_async.py *)

Module MainAsync.

Definition default_query : str :=
  py "Provide a comprehensive financial analysis of this document".

(** "Clean query" (lines 129-132; main.py has the same lines, 157-161). *)
Definition clean_query (query : str) : str :=
  let query :=
    if negb (truthy query) || bool_decide (strip query = [])
    then default_query else query in
  strip query.

(** A form field that is not sent takes [Form(default=...)]. *)
Definition form_query (query : option str) : str :=
  match query with
  | Some q => q
  | None => default_query
  end.

(** The upload: its file name and its bytes. *)
Record UploadFile : Type := mkUpload {
  filename : str;
  content : list N
}.

(** What a call takes from its environment: the value of [uuid.uuid4()],
    the clock, and whether [task_queue.enqueue] returns or raises. *)
Record Env : Type := mkEnv {
  uuid4 : str;
  utcnow : Z;
  enqueue : attempt unit
}.

(** The two tables and the queue of enqueued jobs. *)
Record Stores : Type := mkStores {
  db : DB;
  task_queue : list Worker.Job
}.

(** Content of the 202 response. *)
Record Accepted : Type := mkAccepted {
  acc_request_id : str;
  status_endpoint : str;
  result_endpoint : str
}.

Definition submit_error (msg : str) : exn :=
  HTTPException 500 (py "Error submitting document for analysis: " ++ msg).

Definition analyze_document_async (QUEUE_AVAILABLE : bool)
    (integrity_error : str) (file : UploadFile) (query : option str)
    (env : Env) (s : Stores) : result Accepted * Stores :=
  if negb QUEUE_AVAILABLE then
    (Raise (HTTPException 503
       (py "Background processing not available. Use /analyze endpoint instead.")),
     s)
  else if negb (endswith (filename file) (py ".pdf")) then
    (Raise (HTTPException 400 (py "Only PDF files are supported.")), s)
  else
    let request_id := uuid4 env in
    let file_path := py "data/queue_" ++ request_id ++ py ".pdf" in
    let file_size := Z.of_nat (length (content file)) in
    if file_size =? 0 then
      (Raise (HTTPException 400 (py "Uploaded file is empty")), s)
    else
      let query := clean_query (form_query query) in
      let analysis_request :=
        AnalysisRequest.mk request_id (filename file) file_size query pending
                           (utcnow env) None None None in
      match insert_request analysis_request (db s) with
      | None => (Raise (submit_error integrity_error), s)
      | Some d =>
          match enqueue env with
          | Raised msg => (Raise (submit_error msg), mkStores d (task_queue s))
          | Returned _ =>
              let j := Worker.mkJob request_id file_path query (filename file)
                                    file_size in
              (Return (mkAccepted request_id
                         (py "/analyze/status/" ++ request_id)
                         (py "/analyze/result/" ++ request_id)),
               mkStores d (task_queue s ++ [j]))
          end
      end.

(** The dictionary [get_analysis_status] returns; a key that is only
    sometimes there is an [option]. The two GET handlers are given a session
    like the POST handler, so they return the database beside their
    response. *)
Record StatusResponse : Type := mkStatus {
  st_request_id : str;
  st_status : str;
  st_filename : str;
  st_query : str;
  st_created_at : Z;
  st_started_at : option Z;
  st_completed_at : option Z;
  st_error : option (option str);
  st_result_endpoint : option str
}.

Definition not_found : exn := HTTPException 404 (py "Request not found").

Definition get_analysis_status (request_id : str) (d : DB)
    : result StatusResponse * DB :=
  (match query_request request_id d with
  | None => Raise not_found
  | Some request =>
      Return (mkStatus (AnalysisRequest.request_id request)
                (status_str (AnalysisRequest.status request))
                (AnalysisRequest.filename request)
                (AnalysisRequest.query request)
                (AnalysisRequest.created_at request)
                (AnalysisRequest.started_at request)
                (AnalysisRequest.completed_at request)
                (if bool_decide (AnalysisRequest.status request = failed)
                 then Some (AnalysisRequest.error_message request) else None)
                (if bool_decide (AnalysisRequest.status request = completed)
                 then Some (py "/analyze/result/" ++ request_id) else None))
  end, d).

(** The dictionary [get_analysis_result] returns. *)
Record ResultResponse : Type := mkResult {
  res_request_id : str;
  res_query : str;
  res_filename : str;
  res_analysis : str;
  res_processing_time_seconds : Z;
  res_completed_at : Z
}.

(** [f"{x}"] of a nullable text column. *)
Definition format_optional (x : option str) : str :=
  match x with
  | Some text => text
  | None => py "None"
  end.

Definition get_analysis_result (request_id : str) (d : DB)
    : result ResultResponse * DB :=
  (match query_request request_id d with
  | None => Raise not_found
  | Some request =>
      match AnalysisRequest.status request with
      | pending => Raise (HTTPException 202 (py "Analysis is pending"))
      | processing => Raise (HTTPException 202 (py "Analysis is in progress"))
      | failed =>
          Raise (HTTPException 500
                   (py "Analysis failed: " ++
                    format_optional (AnalysisRequest.error_message request)))
      | completed =>
          match query_result request_id d with
          | None => Raise (HTTPException 404 (py "Result not found"))
          | Some result =>
              match AnalysisRequest.completed_at request with
              | None =>
                  Raise (Exception
                    (py "'NoneType' object has no attribute 'isoformat'"))
              | Some completed_at =>
                  Return (mkResult request_id
                            (AnalysisRequest.query request)
                            (AnalysisRequest.filename request)
                            (AnalysisResult.analysis_text result)
                            (AnalysisResult.processing_time_seconds result)
                            completed_at)
              end
          end
      end
  end, d).

End MainAsync.

(** ** main.py *)

Module Main.

(** What a call does besides returning: the invocations of the work unit and
    the [time.sleep] calls, in order. *)
Record Trace : Type := mkTrace {
  calls : list Worker.Inputs;
  sleeps : list Z
}.

Definition rate_limit_exceeded : exn :=
  HTTPException 429
    (py "Rate limit exceeded. Please wait 60 seconds and try again. Groq free tier has strict limits.").

Section Retry.

(** [str.lower] is Python's; the retry logic only applies it to [str(e)]. *)
Variable lower : str -> str.
Variable fs : Tools.filesystem.
Variable crew : Worker.Crew.

Definition is_rate_limit (e : str) : bool :=
  let error_msg := lower e in
  contains (py "rate_limit") error_msg || contains (py "rate limit") error_msg.

(** The invocations [from] to [from + k - 1] of the work unit on [inputs]
    raise an error the loop takes for a rate limit. *)
Definition limited (inputs : Worker.Inputs) (from k : nat) : Prop :=
  forall i, (from <= i < from + k)%nat ->
    exists e, crew i inputs = Raised e /\ is_rate_limit e = true.

(** The [except] clause of an iteration; [continue] is the next
    iteration. *)
Definition handle (max_retries attempt : Z) (e : str) (tr : Trace)
    (continue : Trace -> result str * Trace) : result str * Trace :=
  if is_rate_limit e then
    if attempt <? max_retries - 1 then
      let wait_time := 15 * (attempt + 1) in
      continue (mkTrace (calls tr) (sleeps tr ++ [wait_time]))
    else (Raise rate_limit_exceeded, tr)
  else (Raise (Exception e), tr).

(** [for attempt in range(max_retries)], at iteration [attempt] with
    [remaining] iterations to go. *)
Fixpoint retry_loop (query file_path : str) (max_retries : Z)
    (remaining : nat) (attempt : Z) (tr : Trace) : result str * Trace :=
  match remaining with
  | O => (Raise (HTTPException 500 (py "Analysis failed after all retries")), tr)
  | S remaining' =>
      let continue :=
        retry_loop query file_path max_retries remaining' (attempt + 1) in
      match Tools.read_financial_document fs file_path 5000 with
      | Raised e => handle max_retries attempt e tr continue
      | Returned document_content =>
          let inputs := Worker.mkInputs query file_path (Some document_content) in
          let tr' := mkTrace (calls tr ++ [inputs]) (sleeps tr) in
          match crew (length (calls tr)) inputs with
          | Returned result => (Return result, tr')
          | Raised e => handle max_retries attempt e tr' continue
          end
      end
  end.

Definition run_financial_crew_with_retry (query file_path : str)
    (max_retries : Z) : result str * Trace :=
  retry_loop query file_path max_retries (Z.to_nat max_retries) 0
             (mkTrace [] []).

(** Content of the 200 response of [/analyze]. *)
Record Analysis : Type := mkAnalysis {
  an_query : str;
  an_analysis : str;
  an_file_processed : str;
  an_file_size_bytes : Z
}.

Definition analyze_document (file : MainAsync.UploadFile)
    (query : option str) (uuid : str) : result Analysis * Trace :=
  if negb (endswith (MainAsync.filename file) (py ".pdf")) then
    (Raise (HTTPException 400
       (py "Only PDF files are supported. Please upload a PDF document.")),
     mkTrace [] [])
  else
    let file_path := py "data/financial_document_" ++ uuid ++ py ".pdf" in
    let file_size := Z.of_nat (length (MainAsync.content file)) in
    if file_size =? 0 then
      (Raise (HTTPException 400 (py "Uploaded file is empty")), mkTrace [] [])
    else
      let query := MainAsync.clean_query (MainAsync.form_query query) in
      match run_financial_crew_with_retry query file_path 3 with
      | (Return result, tr) =>
          (Return (mkAnalysis query result (MainAsync.filename file) file_size),
           tr)
      | (Raise (HTTPException code detail), tr) =>
          (Raise (HTTPException code detail), tr)
      | (Raise (Exception e), tr) =>
          (Raise (HTTPException 500
                    (py "Error processing financial document: " ++ e)), tr)
      end.

End Retry.

End Main.

(** ** The running system *)

Module System.

Import MainAsync.

(** The stores, and the runs of [process_financial_document] that have made
    their first commit and wait for the work unit. *)
Record State : Type := mkState {
  stores : Stores;
  running : list Worker.Frame
}.

Definition initial : State := mkState (mkStores empty_db []) [].

Section Steps.

(** [QUEUE_AVAILABLE] is set when main_async.py is loaded. *)
Variable QUEUE_AVAILABLE : bool.
Variable integrity_error : str.

(** One commit at a time: a POST to /analyze/async; a worker that takes the
    job at the head of the queue and runs up to its first commit; a run
    whose work unit has returned or raised and which commits the outcome.
    The queue hands each enqueued job to one run. Exceptions come from the
    work unit, not from the clock of the queue, and the database refuses a
    commit only for a unique index. *)
Inductive step : State -> State -> Prop :=
| step_submit (file : UploadFile) (query : option str) (env : Env) (s : State) :
    step s
      (mkState
         (snd (analyze_document_async QUEUE_AVAILABLE integrity_error
                 file query env (stores s)))
         (running s))
| step_pickup (j : Worker.Job) (q : list Worker.Job) (now : Z) (s : State) :
    task_queue (stores s) = j :: q ->
    step s
      (mkState
         (mkStores (fst (Worker.pickup j now (db (stores s)))) q)
         (snd (Worker.pickup j now (db (stores s))) :: running s))
| step_finish (fr : Worker.Frame) (before after : list Worker.Frame)
    (outcome : attempt str) (now : Z) (s : State) :
    running s = before ++ fr :: after ->
    step s
      (mkState
         (mkStores
            (fst (Worker.finish integrity_error fr outcome now (db (stores s))))
            (task_queue (stores s)))
         (before ++ after)).

Inductive reachable : State -> Prop :=
| reachable_initial : reachable initial
| reachable_step (s s' : State) : reachable s -> step s s' -> reachable s'.

End Steps.

(** The order of the life cycle: one move along
    pending -> processing -> completed | failed. *)
Inductive next : Status -> Status -> Prop :=
| next_processing : next pending processing
| next_completed : next processing completed
| next_failed : next processing failed.

(** The invariant of section 3 of the specification on a row. *)
Definition lifecycle_fields (r : AnalysisRequest.t) : Prop :=
  (is_Some (AnalysisRequest.started_at r) <->
     AnalysisRequest.status r = processing \/
     AnalysisRequest.status r = completed \/
     AnalysisRequest.status r = failed) /\
  (is_Some (AnalysisRequest.completed_at r) <->
     AnalysisRequest.status r = completed \/
     AnalysisRequest.status r = failed) /\
  (is_Some (AnalysisRequest.error_message r) <->
     AnalysisRequest.status r = failed).

Definition request_ids (d : DB) : list str :=
  map AnalysisRequest.request_id (analysis_requests d).

Definition result_ids (d : DB) : list str :=
  map AnalysisResult.request_id (analysis_results d).

Definition has_status (d : DB) (rid : str) (st : Status) : Prop :=
  exists r, r ∈ analysis_requests d /\
            AnalysisRequest.request_id r = rid /\
            AnalysisRequest.status r = st.

(** What holds of every reachable state. *)
Record invariant (s : State) : Prop := mkInvariant {
  inv_requests : NoDup (request_ids (db (stores s)));
  inv_results : NoDup (result_ids (db (stores s)));
  inv_completed :
    forall rid, rid ∈ result_ids (db (stores s)) <->
                has_status (db (stores s)) rid completed;
  inv_queue :
    forall j, j ∈ task_queue (stores s) ->
              has_status (db (stores s)) (Worker.request_id j) pending;
  inv_queue_ids : NoDup (map Worker.request_id (task_queue (stores s)));
  inv_running :
    forall fr, fr ∈ running s ->
               Worker.request fr = true /\
               has_status (db (stores s))
                          (Worker.request_id (Worker.job fr)) processing;
  inv_running_ids :
    NoDup (map (fun fr => Worker.request_id (Worker.job fr)) (running s));
  inv_fields :
    forall r, r ∈ analysis_requests (db (stores s)) -> lifecycle_fields r
}.

End System.

(** ** The specification's words *)

Module Spec.

(** A string that is empty or consists only of whitespace. *)
Definition blank (s : str) : Prop := Forall (fun c => isspace c = true) s.

(** [t] is [q] without its leading and trailing whitespace. *)
Definition stripped_of (q t : str) : Prop :=
  exists before after,
    q = before ++ t ++ after /\ blank before /\ blank after /\
    (forall c t', t = c :: t' -> isspace c = false) /\
    (forall c t', t = t' ++ [c] -> isspace c = false).

(** The query a job is created with, for the query of a submission. *)
Definition job_query (query : option str) (stored : str) : Prop :=
  match query with
  | None => stored = MainAsync.default_query
  | Some q =>
      (blank q -> stored = MainAsync.default_query) /\
      (~ blank q -> stripped_of q stored)
  end.

(** The delays before attempts 2 to [k + 1]: [base_delay * attempt_number]
    for the attempts 1 to [k] that failed. *)
Definition backoff (base_delay : Z) (k : nat) : list Z :=
  map (fun attempt_number => base_delay * Z.of_nat attempt_number) (seq 1 k).

End Spec.

(** ** Sample inputs *)

Module Sample.

Import MainAsync System.

Definition integrity_error : str :=
  py "UNIQUE constraint failed: analysis_results.request_id".

Definition report : UploadFile := mkUpload (py "report.pdf") [37; 80; 68; 70]%N.

Definition empty_report : UploadFile := mkUpload (py "report.pdf") [].

Definition env1 : Env := mkEnv (py "job-1") 100 (Returned tt).

Definition job1 : Worker.Job :=
  Worker.mkJob (py "job-1") (py "data/queue_job-1.pdf") (py "revenue trend")
               (py "report.pdf") 4.

(** A run of the system: a submission, its pickup, its success. *)
Definition submitted : State :=
  mkState
    (snd (analyze_document_async true integrity_error report
            (Some (py "  revenue trend ")) env1 (stores initial)))
    (running initial).

Definition frame1 : Worker.Frame :=
  snd (Worker.pickup job1 110 (db (stores submitted))).

Definition picked : State :=
  mkState
    (mkStores (fst (Worker.pickup job1 110 (db (stores submitted)))) [])
    (frame1 :: running submitted).

Definition finished : State :=
  mkState
    (mkStores
       (fst (Worker.finish integrity_error frame1 (Returned (py "analysis"))
               170 (db (stores picked))))
       (task_queue (stores picked)))
    ([] ++ []).

Definition errored : State :=
  mkState
    (mkStores
       (fst (Worker.finish integrity_error frame1 (Raised (py "boom"))
               170 (db (stores picked))))
       (task_queue (stores picked)))
    ([] ++ []).

(** A work unit that is rate limited [n] times and then succeeds, and one
    that is rate limited for ever. *)
Definition rate_limited : str := py "Rate limit reached for model".

Definition flaky (n : nat) : Worker.Crew :=
  fun i _ => if (i <? n)%nat then Raised rate_limited
             else Returned (py "analysis").

Definition throttled : Worker.Crew := fun _ _ => Raised rate_limited.

(** Lower case of the ASCII letters, enough for the sample messages. *)
Definition lower (s : str) : str :=
  map (fun c => if ((65 <=? c) && (c <=? 90))%N then (c + 32)%N else c) s.

(** A file system with one two-page document, and nothing else. *)
Definition fs : Tools.filesystem :=
  fun path =>
    if bool_decide (path = py "data/queue_job-1.pdf")
    then Some (Returned [Returned (py "Revenue"); Returned []])
    else None.

(** A document whose only page has no text. *)
Definition scanned : Tools.filesystem :=
  fun _ => Some (Returned [Returned []]).

(** The arguments of a job that was never submitted. *)
Definition job2 : Worker.Job :=
  Worker.mkJob (py "job-2") (py "data/queue_job-2.pdf") (py "revenue trend")
               (py "report.pdf") 4.

End Sample.

(** ** The text of a document *)

Module Document.

(** What a page adds to [full_report]: its text, double newlines replaced,
    and a newline; nothing for a page without text. *)
Definition page_text (page : attempt str) : str :=
  match page with
  | Returned content =>
      if truthy content then replace_nn content ++ [10%N] else []
  | Raised _ => []
  end.

(** The report of all the pages. *)
Definition document_text (pages : list (attempt str)) : str :=
  concat (map page_text pages).

(** No page raises when its text is extracted. *)
Definition readable (pages : list (attempt str)) : Prop :=
  Forall (fun page => exists content, page = Returned content) pages.


End Document.

(** ** main_async.py: the health endpoints *)

Module Health.

Record Features : Type := mkFeatures {
  background_processing : bool;
  database : bool;
  agents : list str
}.

Record Report : Type := mkReport {
  status : str;
  service : str;
  version : str;
  features : Features
}.

(** [GET /health] *)
Definition health_check (QUEUE_AVAILABLE : bool) : Report :=
  mkReport (py "healthy") (py "Financial Document Analyzer") (py "2.0.0")
    (mkFeatures QUEUE_AVAILABLE true
       [py "financial_analyst"; py "verifier"; py "investment_advisor";
        py "risk_assessor"]).

End Health.

(** ** Runs of the system *)

Module Runs.

Import MainAsync System.

Section Later.

Variable QUEUE_AVAILABLE : bool.
Variable integrity_error : str.

(** [later s s']: the system gets from [s] to [s'] in some steps. *)
Inductive later : State -> State -> Prop :=
| later_now (s : State) : later s s
| later_step (s s' s'' : State) :
    later s s' -> step QUEUE_AVAILABLE integrity_error s' s'' -> later s s''.

End Later.

(** The ids of the jobs in the queue and of the jobs being run. *)
Definition queued_ids (s : State) : list str :=
  map Worker.request_id (task_queue (stores s)).

Definition running_ids (s : State) : list str :=
  map (fun fr => Worker.request_id (Worker.job fr)) (running s).

(** The job carries what the row of its request holds, and the path the
    upload was saved at. *)
Definition job_of_row (j : Worker.Job) (r : AnalysisRequest.t) : Prop :=
  AnalysisRequest.request_id r = Worker.request_id j /\
  AnalysisRequest.query r = Worker.query j /\
  AnalysisRequest.filename r = Worker.filename j /\
  AnalysisRequest.file_size_bytes r = Worker.file_size j /\
  Worker.file_path j = py "data/queue_" ++ Worker.request_id j ++ py ".pdf".

End Runs.

(** ** The uploaded files *)

Module Disk.

Import MainAsync System.

(** The files: the bytes at each path that exists. Writing and removing do
    not fail; directories are not modelled. *)
Definition disk := str -> option (list N).

(** [open(path, "wb")] and [f.write(content)] *)
Definition write (path : str) (content : list N) (dk : disk) : disk :=
  fun p => if bool_decide (p = path) then Some content else dk p.

(** [os.remove(path)] *)
Definition remove (path : str) (dk : disk) : disk :=
  fun p => if bool_decide (p = path) then None else dk p.

(** [if os.path.exists(path): os.remove(path)] *)
Definition remove_if_exists (path : str) (dk : disk) : disk :=
  match dk path with
  | Some _ => remove path dk
  | None => dk
  end.

(** [f"data/queue_{request_id}.pdf"] and
    [f"data/financial_document_{file_id}.pdf"] *)
Definition queue_path (request_id : str) : str :=
  py "data/queue_" ++ request_id ++ py ".pdf".

Definition document_path (file_id : str) : str :=
  py "data/financial_document_" ++ file_id ++ py ".pdf".

(** [analyze_document_async] of main_async.py with what it does to the
    files: the upload is saved before its size is tested, and removed by the
    [except Exception] clause only. *)
Definition analyze_document_async (QUEUE_AVAILABLE : bool)
    (integrity_error : str) (file : UploadFile) (query : option str)
    (env : Env) (s : Stores) (dk : disk) : result Accepted * Stores * disk :=
  if negb QUEUE_AVAILABLE then
    (Raise (HTTPException 503
       (py "Background processing not available. Use /analyze endpoint instead.")),
     s, dk)
  else if negb (endswith (filename file) (py ".pdf")) then
    (Raise (HTTPException 400 (py "Only PDF files are supported.")), s, dk)
  else
    let request_id := uuid4 env in
    let file_path := py "data/queue_" ++ request_id ++ py ".pdf" in
    let dk := write file_path (content file) dk in
    let file_size := Z.of_nat (length (content file)) in
    if file_size =? 0 then
      (Raise (HTTPException 400 (py "Uploaded file is empty")), s, dk)
    else
      let query := clean_query (form_query query) in
      let analysis_request :=
        AnalysisRequest.mk request_id (filename file) file_size query pending
                           (utcnow env) None None None in
      match insert_request analysis_request (db s) with
      | None =>
          (Raise (submit_error integrity_error), s,
           remove_if_exists file_path dk)
      | Some d =>
          match enqueue env with
          | Raised msg =>
              (Raise (submit_error msg), mkStores d (task_queue s),
               remove_if_exists file_path dk)
          | Returned _ =>
              let j := Worker.mkJob request_id file_path query (filename file)
                                    file_size in
              (Return (mkAccepted request_id
                         (py "/analyze/status/" ++ request_id)
                         (py "/analyze/result/" ++ request_id)),
               mkStores d (task_queue s ++ [j]), dk)
          end
      end.

(** The [finally] clause of [process_financial_document]. *)
Definition process_financial_document (integrity_error : str)
    (crew : Worker.Crew) (j : Worker.Job) (t0 t1 : Z) (d : DB) (dk : disk)
    : DB * attempt Worker.Output * list Worker.Inputs * disk :=
  (Worker.process_financial_document integrity_error crew j t0 t1 d,
   remove_if_exists (Worker.file_path j) dk).

(** [analyze_document] of main.py with what it does to the files: the
    [finally] clause runs on every way out of the [try] block. *)
Definition analyze_document (lower : str -> str) (fs : Tools.filesystem)
    (crew : Worker.Crew) (file : UploadFile) (query : option str)
    (uuid : str) (dk : disk) : result Main.Analysis * Main.Trace * disk :=
  if negb (endswith (filename file) (py ".pdf")) then
    (Raise (HTTPException 400
       (py "Only PDF files are supported. Please upload a PDF document.")),
     Main.mkTrace [] [], dk)
  else
    let file_path := py "data/financial_document_" ++ uuid ++ py ".pdf" in
    let dk := write file_path (content file) dk in
    let file_size := Z.of_nat (length (content file)) in
    if file_size =? 0 then
      (Raise (HTTPException 400 (py "Uploaded file is empty")),
       Main.mkTrace [] [], remove_if_exists file_path dk)
    else
      let query := clean_query (form_query query) in
      match Main.run_financial_crew_with_retry lower fs crew query file_path 3
      with
      | (Return result, tr) =>
          (Return (Main.mkAnalysis query result (filename file) file_size),
           tr, remove_if_exists file_path dk)
      | (Raise (HTTPException code detail), tr) =>
          (Raise (HTTPException code detail), tr,
           remove_if_exists file_path dk)
      | (Raise (Exception e), tr) =>
          (Raise (HTTPException 500
                    (py "Error processing financial document: " ++ e)),
           tr, remove_if_exists file_path dk)
      end.

(** The system with its files. *)
Record State : Type := mkState {
  sys : System.State;
  files : disk
}.

Section Steps.

Variable QUEUE_AVAILABLE : bool.
Variable integrity_error : str.

(** The steps of [System.step], with the files, a run ending with its
    [finally] clause; and a POST to the synchronous [/analyze]. *)
Inductive step : State -> State -> Prop :=
| step_submit (file : UploadFile) (query : option str) (env : Env) (s : State) :
    step s
      (mkState
         (System.mkState
            (snd (fst (analyze_document_async QUEUE_AVAILABLE integrity_error
                         file query env (stores (sys s)) (files s))))
            (running (sys s)))
         (snd (analyze_document_async QUEUE_AVAILABLE integrity_error
                 file query env (stores (sys s)) (files s))))
| step_pickup (j : Worker.Job) (q : list Worker.Job) (now : Z) (s : State) :
    task_queue (stores (sys s)) = j :: q ->
    step s
      (mkState
         (System.mkState
            (mkStores (fst (Worker.pickup j now (db (stores (sys s))))) q)
            (snd (Worker.pickup j now (db (stores (sys s)))) :: running (sys s)))
         (files s))
| step_finish (fr : Worker.Frame) (before after : list Worker.Frame)
    (outcome : attempt str) (now : Z) (s : State) :
    running (sys s) = before ++ fr :: after ->
    step s
      (mkState
         (System.mkState
            (mkStores
               (fst (Worker.finish integrity_error fr outcome now
                       (db (stores (sys s)))))
               (task_queue (stores (sys s))))
            (before ++ after))
         (remove_if_exists (Worker.file_path (Worker.job fr)) (files s)))
| step_sync (lower : str -> str) (fs : Tools.filesystem) (crew : Worker.Crew)
    (file : UploadFile) (query : option str) (uuid : str) (s : State) :
    step s
      (mkState (sys s)
         (snd (analyze_document lower fs crew file query uuid (files s)))).

(** The states reached from the initial stores and the files [dk0]. *)
Inductive reachable (dk0 : disk) : State -> Prop :=
| reachable_initial : reachable dk0 (mkState System.initial dk0)
| reachable_step (s s' : State) :
    reachable dk0 s -> step s s' -> reachable dk0 s'.

End Steps.

End Disk.

(** * Properties *)

(** ** Rows addressed by a key *)

Section Keyed.

Context {A : Type} (key : A -> str).

Lemma find_key_Some (k : str) (l : list A) (x : A) :
  List.find (has_key key k) l = Some x -> x ∈ l /\ key x = k.
Proof.
  induction l as [|y l IH]; simpl; [discriminate|].
  unfold has_key at 1. case_bool_decide as Hk.
  - intros [= <-]. split; [left | exact Hk].
  - intros Hf. destruct (IH Hf) as [Hin Hx]. split; [by right | exact Hx].
Qed.

Lemma find_key_None (k : str) (l : list A) :
  List.find (has_key key k) l = None <-> k ∉ map key l.
Proof.
  induction l as [|y l IH]; simpl.
  - split; [intros _ Hin; inversion Hin | done].
  - unfold has_key at 1. case_bool_decide as Hk.
    + split; [discriminate | intros Hn; exfalso; apply Hn; subst k; left].
    + rewrite IH. rewrite not_elem_of_cons. split; [by split | by intros [_ ?]].
Qed.

Lemma find_key_is_Some (k : str) (l : list A) :
  k ∈ map key l -> exists x, List.find (has_key key k) l = Some x.
Proof.
  intros Hin. destruct (List.find (has_key key k) l) as [x|] eqn:Hf; [eauto|].
  apply find_key_None in Hf. contradiction.
Qed.

Lemma find_key_NoDup (l : list A) (x : A) :
  NoDup (map key l) -> x ∈ l -> List.find (has_key key (key x)) l = Some x.
Proof.
  induction l as [|y l IH]; simpl; intros Hnd Hin; [inversion Hin|].
  apply NoDup_cons in Hnd as [Hy Hnd].
  unfold has_key at 1. case_bool_decide as Hk.
  - apply elem_of_cons in Hin as [->|Hin]; [done|].
    exfalso. apply Hy. rewrite Hk. by apply list_elem_of_fmap_2.
  - apply elem_of_cons in Hin as [->|Hin]; [done|]. by apply IH.
Qed.

Lemma filter_key_absent (k : str) (l : list A) :
  k ∉ map key l -> List.filter (has_key key k) l = [].
Proof.
  induction l as [|y l IH]; simpl; [done|].
  rewrite not_elem_of_cons. intros [Hne Hl].
  unfold has_key at 1. rewrite bool_decide_eq_false_2; [by apply IH | done].
Qed.

Lemma filter_key_NoDup (k : str) (l : list A) :
  NoDup (map key l) -> k ∈ map key l ->
  exists x, List.filter (has_key key k) l = [x].
Proof.
  induction l as [|y l IH]; simpl; intros Hnd Hin; [inversion Hin|].
  apply NoDup_cons in Hnd as [Hy Hnd].
  unfold has_key at 1. case_bool_decide as Hk.
  - exists y. subst k. by rewrite filter_key_absent.
  - apply elem_of_cons in Hin as [->|Hin]; [done|]. by apply IH.
Qed.

Lemma find_key_app (k : str) (l : list A) (x : A) :
  List.find (has_key key k) (l ++ [x]) =
  match List.find (has_key key k) l with
  | Some y => Some y
  | None => if has_key key k x then Some x else None
  end.
Proof.
  induction l as [|y l IH]; simpl; [done|].
  destruct (has_key key k y); [done | exact IH].
Qed.

Lemma find_key_map (k : str) (f : A -> A) (l : list A) :
  (forall x, key (f x) = key x) ->
  List.find (has_key key k) (map (fun x => if has_key key k x then f x else x) l) =
  f <$> List.find (has_key key k) l.
Proof.
  intros Hf. induction l as [|y l IH]; simpl; [done|].
  destruct (has_key key k y) eqn:Hy.
  - unfold has_key in *. rewrite Hf, Hy. done.
  - rewrite Hy. exact IH.
Qed.

Lemma find_key_map_other (k k' : str) (f : A -> A) (l : list A) :
  (forall x, key (f x) = key x) -> k <> k' ->
  List.find (has_key key k') (map (fun x => if has_key key k x then f x else x) l) =
  List.find (has_key key k') l.
Proof.
  intros Hf Hne. induction l as [|y l IH]; simpl; [done|].
  destruct (has_key key k y) eqn:Hy.
  - unfold has_key in *. apply bool_decide_eq_true in Hy.
    rewrite !bool_decide_eq_false_2 by (rewrite ?Hf; congruence). exact IH.
  - destruct (has_key key k' y); [done | exact IH].
Qed.

Lemma key_inj_NoDup (l : list A) (x y : A) :
  NoDup (map key l) -> x ∈ l -> y ∈ l -> key x = key y -> x = y.
Proof.
  intros Hnd Hx Hy Hk.
  pose proof (find_key_NoDup l x Hnd Hx) as Fx.
  pose proof (find_key_NoDup l y Hnd Hy) as Fy.
  rewrite Hk in Fx. congruence.
Qed.

Lemma elem_of_map_if (k : str) (f : A -> A) (l : list A) (y : A) :
  y ∈ map (fun x => if has_key key k x then f x else x) l <->
  exists x, x ∈ l /\ y = if has_key key k x then f x else x.
Proof.
  change (map ?g l) with (g <$> l). rewrite list_elem_of_fmap.
  split; intros (x & H1 & H2); exists x; by split.
Qed.

Lemma map_key_map_if (k : str) (f : A -> A) (l : list A) :
  (forall x, key (f x) = key x) ->
  map key (map (fun x => if has_key key k x then f x else x) l) = map key l.
Proof.
  intros Hf. induction l as [|y l IH]; simpl; [done|].
  rewrite IH. destruct (has_key key k y); by rewrite ?Hf.
Qed.

End Keyed.

(** ** The stores *)

Section Stores.

Import System.

Lemma query_request_Some rid d r :
  query_request rid d = Some r ->
  r ∈ analysis_requests d /\ AnalysisRequest.request_id r = rid.
Proof. apply (find_key_Some AnalysisRequest.request_id). Qed.

Lemma query_request_None rid d :
  query_request rid d = None <-> rid ∉ request_ids d.
Proof. apply (find_key_None AnalysisRequest.request_id). Qed.

Lemma query_request_unique d r :
  NoDup (request_ids d) -> r ∈ analysis_requests d ->
  query_request (AnalysisRequest.request_id r) d = Some r.
Proof. apply (find_key_NoDup AnalysisRequest.request_id). Qed.

Lemma query_result_Some rid d r :
  query_result rid d = Some r ->
  r ∈ analysis_results d /\ AnalysisResult.request_id r = rid.
Proof. apply (find_key_Some AnalysisResult.request_id). Qed.

Lemma query_result_None rid d :
  query_result rid d = None <-> rid ∉ result_ids d.
Proof. apply (find_key_None AnalysisResult.request_id). Qed.

Lemma has_status_unique d rid st st' :
  NoDup (request_ids d) ->
  has_status d rid st -> has_status d rid st' -> st = st'.
Proof.
  intros Hnd (r & Hr & Hid & Hst) (r' & Hr' & Hid' & Hst').
  assert (r = r') as ->; [|congruence].
  apply (key_inj_NoDup AnalysisRequest.request_id (analysis_requests d));
    [exact Hnd | done | done | congruence].
Qed.

Lemma has_status_query d rid st :
  NoDup (request_ids d) -> has_status d rid st ->
  exists r, query_request rid d = Some r /\ AnalysisRequest.status r = st.
Proof.
  intros Hnd (r & Hr & <- & Hst). exists r. split; [|done].
  by apply query_request_unique.
Qed.

Lemma has_status_id d rid st : has_status d rid st -> rid ∈ request_ids d.
Proof.
  intros (r & Hr & <- & _). unfold request_ids.
  by apply (list_elem_of_fmap_2 AnalysisRequest.request_id).
Qed.

(** Updating the row of [k]: the ids stay, the rows of other requests stay,
    and the row of [k] is changed by [f]. *)
Lemma request_ids_update k f d :
  (forall x, AnalysisRequest.request_id (f x) = AnalysisRequest.request_id x) ->
  request_ids (update_request k f d) = request_ids d.
Proof. intros Hf. apply (map_key_map_if AnalysisRequest.request_id), Hf. Qed.

Lemma elem_of_update k f d r' :
  r' ∈ analysis_requests (update_request k f d) <->
  exists r, r ∈ analysis_requests d /\
            r' = if bool_decide (AnalysisRequest.request_id r = k) then f r else r.
Proof. apply (elem_of_map_if AnalysisRequest.request_id). Qed.

Lemma has_status_update_other k f d rid st :
  (forall x, AnalysisRequest.request_id (f x) = AnalysisRequest.request_id x) ->
  rid <> k ->
  has_status (update_request k f d) rid st <-> has_status d rid st.
Proof.
  intros Hf Hne. unfold has_status. split.
  - intros (r' & Hr' & Hid & Hst).
    apply elem_of_update in Hr' as (r & Hr & ->).
    case_bool_decide as Hk.
    + rewrite Hf in Hid. congruence.
    + eauto.
  - intros (r & Hr & Hid & Hst). exists r. split; [|done].
    apply elem_of_update. exists r.
    rewrite bool_decide_eq_false_2; [done | congruence].
Qed.

Lemma has_status_update_same k f d st b :
  (forall x, AnalysisRequest.request_id (f x) = AnalysisRequest.request_id x) ->
  (forall x, AnalysisRequest.status (f x) = b) ->
  k ∈ request_ids d ->
  has_status (update_request k f d) k st <-> st = b.
Proof.
  intros Hf Hb Hk. unfold has_status. split.
  - intros (r' & Hr' & Hid & Hst).
    apply elem_of_update in Hr' as (r & Hr & ->).
    case_bool_decide as Hkr.
    + by rewrite Hb in Hst.
    + congruence.
  - intros ->. unfold request_ids in Hk.
    apply (list_elem_of_fmap_1 AnalysisRequest.request_id) in Hk
      as (r & -> & Hr).
    exists (f r). split; [|by rewrite Hf, Hb].
    apply elem_of_update. exists r. by rewrite bool_decide_eq_true_2.
Qed.

Lemma has_status_rows d d' rid st :
  analysis_requests d' = analysis_requests d ->
  has_status d' rid st <-> has_status d rid st.
Proof. unfold has_status. by intros ->. Qed.

Lemma has_status_app d r rid st :
  has_status d rid st ->
  has_status (mkDB (analysis_requests d ++ [r]) (analysis_results d)) rid st.
Proof.
  intros (x & Hx & Hid & Hst). exists x. split; [|done].
  simpl. apply elem_of_app. by left.
Qed.

Lemma has_status_app_inv d r rid st :
  has_status (mkDB (analysis_requests d ++ [r]) (analysis_results d)) rid st ->
  has_status d rid st \/
  (AnalysisRequest.request_id r = rid /\ AnalysisRequest.status r = st).
Proof.
  intros (x & Hx & Hid & Hst). simpl in Hx.
  apply elem_of_app in Hx as [Hx|Hx].
  - left. by exists x.
  - apply list_elem_of_singleton in Hx as ->. by right.
Qed.

(** The rows of a request in [analysis_results]. *)
Lemma results_of_one rid d :
  NoDup (result_ids d) -> rid ∈ result_ids d ->
  exists res, results_of rid d = [res].
Proof. apply (filter_key_NoDup AnalysisResult.request_id). Qed.

Lemma results_of_none rid d : rid ∉ result_ids d -> results_of rid d = [].
Proof. apply (filter_key_absent AnalysisResult.request_id). Qed.

Lemma results_of_query rid d res :
  results_of rid d = [res] -> query_result rid d = Some res.
Proof.
  unfold results_of, query_result.
  induction (analysis_results d) as [|y l IH]; simpl; [discriminate|].
  destruct (bool_decide (AnalysisResult.request_id y = rid)).
  - by intros [= ->].
  - exact IH.
Qed.

End Stores.

(** ** The invariant of the running system *)

Section Invariant.

Import System MainAsync.

Variable QUEUE_AVAILABLE : bool.
Variable integrity_error : str.

Lemma lifecycle_fields_pending rid fn size q now :
  lifecycle_fields (AnalysisRequest.mk rid fn size q pending now None None None).
Proof.
  unfold lifecycle_fields; simpl.
  repeat split; intros H;
    solve [ by apply is_Some_None in H
          | by destruct H as [H|[H|H]]
          | by destruct H as [H|H]
          | discriminate ].
Qed.

Lemma invariant_initial : invariant initial.
Proof.
  split; simpl; try apply NoDup_nil_2.
  - intros rid. split; [intros H; inversion H|].
    intros (r & Hr & _). inversion Hr.
  - intros j H. inversion H.
  - intros fr H. inversion H.
  - intros r H. inversion H.
Qed.

Lemma invariant_insert_request d q run r :
  invariant (mkState (mkStores d q) run) ->
  AnalysisRequest.request_id r ∉ request_ids d ->
  AnalysisRequest.status r = pending ->
  lifecycle_fields r ->
  forall q',
    (q' = q \/
     exists j, q' = q ++ [j] /\
               Worker.request_id j = AnalysisRequest.request_id r) ->
    invariant
      (mkState (mkStores (mkDB (analysis_requests d ++ [r]) (analysis_results d)) q')
               run).
Proof.
  intros [I1 I2 I3 I4 I5 I6 I7 I8] Hfresh Hst Hlf q' Hq'; simpl in *.
  split; simpl.
  - unfold request_ids; simpl. rewrite map_app; simpl.
    apply NoDup_app. split; [exact I1|]. split; [|apply NoDup_singleton].
    intros x Hx Hx'. apply list_elem_of_singleton in Hx'. by subst x.
  - exact I2.
  - intros rid. rewrite I3. split; [apply has_status_app|].
    intros H. apply has_status_app_inv in H as [H|[_ H]]; [done|congruence].
  - intros j Hj. destruct Hq' as [->|(j' & -> & Hid)].
    + by apply has_status_app, I4.
    + apply elem_of_app in Hj as [Hj|Hj]; [by apply has_status_app, I4|].
      apply list_elem_of_singleton in Hj as ->.
      exists r. split; [|by rewrite Hid].
      simpl. apply elem_of_app. right. by apply list_elem_of_singleton.
  - destruct Hq' as [->|(j' & -> & Hid)]; [exact I5|].
    rewrite map_app; simpl. apply NoDup_app.
    split; [exact I5|]. split; [|apply NoDup_singleton].
    intros x Hx Hx'. apply list_elem_of_singleton in Hx'. subst x.
    apply (list_elem_of_fmap_1 Worker.request_id) in Hx as (j & Hj & Hin).
    apply Hfresh. rewrite <- Hid, Hj. eapply has_status_id, I4, Hin.
  - intros fr Hfr. destruct (I6 fr Hfr) as [Hreq Hs].
    split; [exact Hreq | by apply has_status_app].
  - exact I7.
  - intros x Hx. apply elem_of_app in Hx as [Hx|Hx]; [by apply I8|].
    by apply list_elem_of_singleton in Hx as ->.
Qed.

Lemma invariant_submit file query env s :
  invariant s ->
  invariant
    (mkState
       (snd (analyze_document_async QUEUE_AVAILABLE integrity_error
               file query env (stores s)))
       (running s)).
Proof.
  destruct s as [[d q] run]. intros Hinv. unfold analyze_document_async; simpl.
  destruct QUEUE_AVAILABLE; simpl; [|exact Hinv].
  destruct (endswith _ _); simpl; [|exact Hinv].
  destruct (_ =? 0); [exact Hinv|].
  unfold insert_request; simpl.
  destruct (query_request (uuid4 env) d) eqn:Hq; simpl; [exact Hinv|].
  apply query_request_None in Hq.
  destruct (enqueue env); simpl.
  - apply (invariant_insert_request d q); try done.
    + apply lifecycle_fields_pending.
    + right. eexists. split; reflexivity.
  - apply (invariant_insert_request d q); try done.
    + apply lifecycle_fields_pending.
    + by left.
Qed.

(** Moving the row of [k] from status [a] to status [b]: what the queue, the
    runs and the result table must do for the invariant to be kept. *)
Lemma invariant_move d q run k f a b results' q' run' :
  invariant (mkState (mkStores d q) run) ->
  (forall x, AnalysisRequest.request_id (f x) = AnalysisRequest.request_id x) ->
  (forall x, AnalysisRequest.status (f x) = b) ->
  has_status d k a ->
  a <> completed ->
  (forall x, AnalysisRequest.status x = a -> lifecycle_fields x ->
             lifecycle_fields (f x)) ->
  (b = completed /\
   exists res, results' = analysis_results d ++ [res] /\
               AnalysisResult.request_id res = k) \/
  (b <> completed /\ results' = analysis_results d) ->
  (forall j, j ∈ q' -> j ∈ q /\ Worker.request_id j <> k) ->
  NoDup (map Worker.request_id q') ->
  (forall fr, fr ∈ run' ->
     (fr ∈ run /\ Worker.request_id (Worker.job fr) <> k) \/
     (Worker.request fr = true /\ Worker.request_id (Worker.job fr) = k /\
      b = processing)) ->
  NoDup (map (fun fr => Worker.request_id (Worker.job fr)) run') ->
  invariant
    (mkState
       (mkStores (mkDB (analysis_requests (update_request k f d)) results') q')
       run').
Proof.
  intros [I1 I2 I3 I4 I5 I6 I7 I8] Hid Hb Hk Ha Hlf Hres Hq' Hq'nd Hrun' Hrun'nd.
  cbn [stores db task_queue running] in *.
  assert (Hkd : k ∈ request_ids d) by (eapply has_status_id, Hk).
  assert (Hkr : k ∉ result_ids d).
  { intros Hin. apply I3 in Hin. apply Ha.
    eapply has_status_unique; [exact I1 | exact Hk | exact Hin]. }
  set (d' := mkDB (analysis_requests (update_request k f d)) results').
  assert (Hrows : forall rid st,
             has_status d' rid st <-> has_status (update_request k f d) rid st).
  { intros. by apply has_status_rows. }
  split; cbn [stores db task_queue running]; fold d'.
  - change (NoDup (request_ids (update_request k f d))).
    by rewrite request_ids_update.
  - destruct Hres as [(_ & res & -> & Hr)|[_ ->]]; [|exact I2].
    unfold result_ids, d'; simpl. rewrite map_app; simpl.
    apply NoDup_app. split; [exact I2|]. split; [|apply NoDup_singleton].
    intros x Hx Hx'. apply list_elem_of_singleton in Hx'. subst x.
    apply Hkr. by rewrite <- Hr.
  - intros rid. rewrite Hrows. destruct (decide (rid = k)) as [->|Hne].
    + rewrite (has_status_update_same k f d completed b) by done.
      destruct Hres as [(-> & res & -> & Hr)|[Hbc ->]].
      * split; [done|]. intros _. unfold result_ids, d'; simpl.
        rewrite map_app. apply elem_of_app. right. simpl.
        apply list_elem_of_singleton. done.
      * split; [intros Hin; by apply Hkr in Hin | intros E; by subst b].
    + rewrite has_status_update_other by done. rewrite <- I3.
      destruct Hres as [(_ & res & -> & Hr)|[_ ->]]; [|done].
      unfold result_ids, d'; simpl. rewrite map_app, elem_of_app; simpl.
      rewrite list_elem_of_singleton. split; [|by left].
      intros [H|H]; [done | congruence].
  - intros j Hj. destruct (Hq' j Hj) as [Hin Hne].
    apply Hrows, has_status_update_other; [done | done | by apply I4].
  - exact Hq'nd.
  - intros fr Hfr. destruct (Hrun' fr Hfr) as [[Hin Hne]|(Hreq & Hfk & Hbp)].
    + destruct (I6 fr Hin) as [Hreq Hs]. split; [exact Hreq|].
      apply Hrows, has_status_update_other; done.
    + split; [exact Hreq|]. rewrite Hfk.
      apply Hrows, (has_status_update_same k f d processing b); done.
  - exact Hrun'nd.
  - intros r' Hr'. apply elem_of_update in Hr' as (r & Hr & ->).
    case_bool_decide as Hrk; [|by apply I8].
    apply Hlf; [|by apply I8].
    eapply has_status_unique; [exact I1 | | exact Hk].
    by exists r.
Qed.

Lemma lifecycle_fields_processing now r :
  AnalysisRequest.status r = pending -> lifecycle_fields r ->
  lifecycle_fields (Worker.set_processing now r).
Proof.
  unfold lifecycle_fields; simpl. intros Hst (H1 & H2 & H3).
  rewrite Hst in *. unfold is_Some in *.
  intuition (try discriminate; eauto).
Qed.

Lemma lifecycle_fields_completed now r :
  AnalysisRequest.status r = processing -> lifecycle_fields r ->
  lifecycle_fields (Worker.set_completed now r).
Proof.
  unfold lifecycle_fields; simpl. intros Hst (H1 & H2 & H3).
  rewrite Hst in *. unfold is_Some in *.
  intuition (try discriminate; eauto).
Qed.

Lemma lifecycle_fields_failed msg now r :
  AnalysisRequest.status r = processing -> lifecycle_fields r ->
  lifecycle_fields (Worker.set_failed msg now r).
Proof.
  unfold lifecycle_fields; simpl. intros Hst (H1 & H2 & H3).
  rewrite Hst in *. unfold is_Some in *.
  intuition (try discriminate; eauto).
Qed.

(** A queued job is pending and a run is processing, so their ids differ
    from those of rows in another status. *)
Lemma status_differs d rid rid' st st' :
  NoDup (request_ids d) ->
  has_status d rid st -> has_status d rid' st' -> st <> st' -> rid <> rid'.
Proof.
  intros Hnd H H' Hne ->. apply Hne. by eapply has_status_unique.
Qed.

Lemma invariant_pickup j q now s :
  invariant s ->
  task_queue (stores s) = j :: q ->
  invariant
    (mkState
       (mkStores (fst (Worker.pickup j now (db (stores s)))) q)
       (snd (Worker.pickup j now (db (stores s))) :: running s)).
Proof.
  destruct s as [[d q0] run]. cbn [stores db task_queue running].
  intros Hinv ->. pose proof Hinv as [I1 I2 I3 I4 I5 I6 I7 I8].
  cbn [stores db task_queue running] in *.
  assert (Hj : has_status d (Worker.request_id j) pending)
    by (apply I4; left).
  destruct (has_status_query _ _ _ I1 Hj) as (r & Hq & Hst).
  unfold Worker.pickup. rewrite Hq. cbn [fst snd].
  simpl in I5. apply NoDup_cons in I5 as [Hjq I5].
  apply (invariant_move d (j :: q) run (Worker.request_id j)
           (Worker.set_processing now) pending processing);
    try done.
  - intros x. apply lifecycle_fields_processing.
  - right. done.
  - intros j' Hj'. split; [by right|]. intros E. apply Hjq. rewrite <- E.
    by apply (list_elem_of_fmap_2 Worker.request_id).
  - intros fr Hfr. apply elem_of_cons in Hfr as [->|Hfr].
    + right. done.
    + left. split; [done|]. destruct (I6 fr Hfr) as [_ Hp].
      by eapply status_differs.
  - simpl. apply NoDup_cons. split; [|exact I7].
    intros Hin.
    apply (list_elem_of_fmap_1
             (fun fr => Worker.request_id (Worker.job fr))) in Hin
      as (fr & Hid & Hfr).
    destruct (I6 fr Hfr) as [_ Hp]. rewrite <- Hid in Hp.
    by pose proof (has_status_unique _ _ _ _ I1 Hj Hp).
Qed.

Lemma invariant_finish fr before after outcome now s :
  invariant s ->
  running s = before ++ fr :: after ->
  invariant
    (mkState
       (mkStores
          (fst (Worker.finish integrity_error fr outcome now (db (stores s))))
          (task_queue (stores s)))
       (before ++ after)).
Proof.
  destruct s as [[d q] run]. cbn [stores db task_queue running].
  intros Hinv ->. pose proof Hinv as [I1 I2 I3 I4 I5 I6 I7 I8].
  cbn [stores db task_queue running] in *.
  destruct (I6 fr) as [Hreq Hp]; [apply elem_of_app; right; left|].
  set (k := Worker.request_id (Worker.job fr)) in *.
  assert (Hq : forall j, j ∈ q -> j ∈ q /\ Worker.request_id j <> k).
  { intros j Hj. split; [done|]. eapply status_differs; eauto. }
  rewrite map_app in I7; simpl in I7. fold k in I7.
  apply NoDup_app in I7 as (Hb & Hba & Ha).
  apply NoDup_cons in Ha as [Hka Ha].
  assert (Hrun : forall fr', fr' ∈ before ++ after ->
            (fr' ∈ before ++ fr :: after /\
             Worker.request_id (Worker.job fr') <> k) \/
            (Worker.request fr' = true /\
             Worker.request_id (Worker.job fr') = k /\ failed = processing)).
  { intros fr' Hfr'. left. apply elem_of_app in Hfr' as [Hfr'|Hfr'].
    - split; [apply elem_of_app; by left|]. intros E.
      apply (Hba k); [|left]. rewrite <- E.
      by apply (list_elem_of_fmap_2
                  (fun fr => Worker.request_id (Worker.job fr))).
    - split; [apply elem_of_app; right; by right|]. intros E.
      apply Hka. rewrite <- E.
      by apply (list_elem_of_fmap_2
                  (fun fr => Worker.request_id (Worker.job fr))). }
  assert (Hnd : NoDup (map (fun fr => Worker.request_id (Worker.job fr))
                           (before ++ after))).
  { rewrite map_app. apply NoDup_app. split; [exact Hb|]. split; [|exact Ha].
    intros x Hx Hx'. apply (Hba x Hx). by right. }
  assert (Hexc : forall msg,
            invariant
              (mkState
                 (mkStores (fst (Worker.on_exception fr msg now d)) q)
                 (before ++ after))).
  { intros msg. unfold Worker.on_exception. rewrite Hreq. cbn [fst].
    apply (invariant_move d q (before ++ fr :: after) k
             (Worker.set_failed msg now) processing failed); try done.
    - intros x. apply lifecycle_fields_failed.
    - right. done. }
  unfold Worker.finish. destruct outcome as [result|msg]; [|apply Hexc].
  destruct (insert_result _ d) as [d'|] eqn:Hins; [|apply Hexc].
  unfold insert_result in Hins.
  destruct (query_result _ d); [discriminate|]. injection Hins as <-.
  rewrite Hreq. cbn [fst].
  apply (invariant_move d q (before ++ fr :: after) k
           (Worker.set_completed now) processing completed); try done.
  - intros x. apply lifecycle_fields_completed.
  - left. split; [done|]. eexists. split; reflexivity.
  - intros fr' Hfr'. destruct (Hrun fr' Hfr') as [H|(_ & _ & [=])].
    by left.
Qed.

Theorem reachable_invariant s :
  reachable QUEUE_AVAILABLE integrity_error s -> invariant s.
Proof.
  induction 1 as [|s s' _ IH Hstep]; [apply invariant_initial|].
  destruct Hstep.
  - by apply invariant_submit.
  - by apply invariant_pickup.
  - by eapply invariant_finish.
Qed.

End Invariant.

(** ** A sample run *)

Section SampleRun.

Import System MainAsync Sample.

Lemma submitted_reachable : reachable true integrity_error submitted.
Proof.
  apply (reachable_step _ _ initial); [apply reachable_initial|].
  apply step_submit.
Qed.

Lemma picked_reachable : reachable true integrity_error picked.
Proof.
  apply (reachable_step _ _ submitted); [apply submitted_reachable|].
  apply (step_pickup true integrity_error job1 [] 110 submitted).
  reflexivity.
Qed.

Lemma finished_reachable : reachable true integrity_error finished.
Proof.
  apply (reachable_step _ _ picked); [apply picked_reachable|].
  apply (step_finish true integrity_error frame1 [] []). reflexivity.
Qed.

Lemma errored_reachable : reachable true integrity_error errored.
Proof.
  apply (reachable_step _ _ picked); [apply picked_reachable|].
  apply (step_finish true integrity_error frame1 [] []). reflexivity.
Qed.

End SampleRun.

(** ** Results and terminal states *)

Section Lifecycle.

Import System MainAsync.

(** C1. In every reachable state of the stores, a request is completed if
    and only if [analysis_results] holds exactly one row with its id, and
    every row of [analysis_results] belongs to a completed request: the
    result row and the move to completed are one commit. *)
Theorem result_iff_completed (QUEUE_AVAILABLE : bool) (integrity_error : str)
    (s : State) :
  reachable QUEUE_AVAILABLE integrity_error s ->
  (forall r, r ∈ analysis_requests (db (stores s)) ->
     AnalysisRequest.status r = completed <->
     length (results_of (AnalysisRequest.request_id r) (db (stores s))) = 1%nat)
  /\
  (forall res, res ∈ analysis_results (db (stores s)) ->
     has_status (db (stores s)) (AnalysisResult.request_id res) completed).
Proof.
  intros Hreach. apply reachable_invariant in Hreach as [I1 I2 I3 _ _ _ _ _].
  set (d := db (stores s)) in *. split.
  - intros r Hr. split.
    + intros Hst.
      assert (Hin : AnalysisRequest.request_id r ∈ result_ids d).
      { apply I3. by exists r. }
      destruct (results_of_one _ _ I2 Hin) as [res ->]. reflexivity.
    + intros Hlen.
      destruct (decide (AnalysisRequest.request_id r ∈ result_ids d))
        as [Hin|Hin].
      * apply I3 in Hin. eapply has_status_unique; [exact I1| |exact Hin].
        by exists r.
      * rewrite results_of_none in Hlen by done. discriminate.
  - intros res Hres. apply I3.
    by apply (list_elem_of_fmap_2 AnalysisResult.request_id).
Qed.

Lemma result_iff_completed_witness :
  reachable true Sample.integrity_error Sample.finished /\
  ((forall r, r ∈ analysis_requests (db (stores Sample.finished)) ->
      AnalysisRequest.status r = completed <->
      length (results_of (AnalysisRequest.request_id r)
                         (db (stores Sample.finished))) = 1%nat)
   /\
   (forall res, res ∈ analysis_results (db (stores Sample.finished)) ->
      has_status (db (stores Sample.finished))
                 (AnalysisResult.request_id res) completed)).
Proof.
  split; [apply finished_reachable|].
  apply (result_iff_completed true Sample.integrity_error Sample.finished).
  apply finished_reachable.
Defined.

(** C8. On every row of a reachable state, [started_at] is set exactly when
    the status is processing, completed or failed, [completed_at] exactly
    when it is completed or failed, and [error_message] is not null exactly
    when it is failed. *)
Theorem timestamps_follow_status (QUEUE_AVAILABLE : bool)
    (integrity_error : str) (s : State) (r : AnalysisRequest.t) :
  reachable QUEUE_AVAILABLE integrity_error s ->
  r ∈ analysis_requests (db (stores s)) ->
  (is_Some (AnalysisRequest.started_at r) <->
     AnalysisRequest.status r = processing \/
     AnalysisRequest.status r = completed \/
     AnalysisRequest.status r = failed) /\
  (is_Some (AnalysisRequest.completed_at r) <->
     AnalysisRequest.status r = completed \/
     AnalysisRequest.status r = failed) /\
  (is_Some (AnalysisRequest.error_message r) <->
     AnalysisRequest.status r = failed).
Proof.
  intros Hreach Hr. apply reachable_invariant in Hreach.
  exact (inv_fields s Hreach r Hr).
Qed.

Lemma timestamps_follow_status_witness :
  reachable true Sample.integrity_error Sample.errored /\
  (AnalysisRequest.mk (py "job-1") (py "report.pdf") 4 (py "revenue trend")
     failed 100 (Some 110) (Some 170) (Some (py "boom")))
    ∈ analysis_requests (db (stores Sample.errored)) /\
  (is_Some (Some 110) <-> failed = processing \/ failed = completed \/ failed = failed) /\
  (is_Some (Some 170) <-> failed = completed \/ failed = failed) /\
  (is_Some (Some (py "boom")) <-> failed = failed).
Proof.
  split; [apply errored_reachable|].
  split; [vm_compute; left|].
  apply (timestamps_follow_status true Sample.integrity_error Sample.errored
           (AnalysisRequest.mk (py "job-1") (py "report.pdf") 4
              (py "revenue trend") failed 100 (Some 110) (Some 170)
              (Some (py "boom")))).
  - apply errored_reachable.
  - vm_compute. left.
Defined.

End Lifecycle.

(** ** Reading a result *)

Section ResultAPI.

Import System MainAsync.

(** C7. In every reachable state, [get_analysis_result] answers 404 when no
    request has the id, 202 with a message only while the request is pending
    or processing, 500 with the stored [error_message] when it is failed, and
    the result row's content when it is completed; the database it leaves is
    the one it was given. *)
Theorem get_analysis_result_by_status (QUEUE_AVAILABLE : bool)
    (integrity_error : str) (s : State) (request_id : str) :
  reachable QUEUE_AVAILABLE integrity_error s ->
  let d := db (stores s) in
  snd (get_analysis_result request_id d) = d /\
  match query_request request_id d with
  | None =>
      (request_id ∉ request_ids d) /\
      fst (get_analysis_result request_id d) =
        Raise (HTTPException 404 (py "Request not found"))
  | Some request =>
      match AnalysisRequest.status request with
      | pending =>
          fst (get_analysis_result request_id d) =
            Raise (HTTPException 202 (py "Analysis is pending"))
      | processing =>
          fst (get_analysis_result request_id d) =
            Raise (HTTPException 202 (py "Analysis is in progress"))
      | failed =>
          exists msg,
            AnalysisRequest.error_message request = Some msg /\
            fst (get_analysis_result request_id d) =
              Raise (HTTPException 500 (py "Analysis failed: " ++ msg))
      | completed =>
          exists res completed_at,
            results_of request_id d = [res] /\
            AnalysisRequest.completed_at request = Some completed_at /\
            fst (get_analysis_result request_id d) =
              Return (mkResult request_id
                        (AnalysisRequest.query request)
                        (AnalysisRequest.filename request)
                        (AnalysisResult.analysis_text res)
                        (AnalysisResult.processing_time_seconds res)
                        completed_at)
      end
  end.
Proof.
  intros Hreach d. split; [reflexivity|].
  apply reachable_invariant in Hreach as [I1 I2 I3 _ _ _ _ I8]. fold d in I1, I2, I3, I8.
  unfold get_analysis_result. cbn [fst].
  destruct (query_request request_id d) as [request|] eqn:Hq.
  - apply query_request_Some in Hq as [Hin Hid].
    destruct (I8 request Hin) as (_ & Hc & He).
    destruct (AnalysisRequest.status request) eqn:Hst; try reflexivity.
    + assert (Hres : request_id ∈ result_ids d).
      { apply I3. by exists request. }
      destruct (results_of_one _ _ I2 Hres) as [res Hone].
      destruct Hc as [_ Hc]. destruct Hc as [t Ht]; [by left|].
      exists res, t. split; [exact Hone|]. split; [exact Ht|].
      by rewrite (results_of_query _ _ _ Hone), Ht.
    + destruct He as [_ He]. destruct He as [msg Hmsg]; [done|].
      exists msg. split; [exact Hmsg|]. by rewrite Hmsg.
  - split; [by apply query_request_None | reflexivity].
Qed.

Lemma get_analysis_result_by_status_witness :
  reachable true Sample.integrity_error Sample.finished /\
  fst (get_analysis_result (py "job-1") (db (stores Sample.finished))) =
    Return (mkResult (py "job-1") (py "revenue trend") (py "report.pdf")
                     (py "analysis") 60 170).
Proof.
  split; [apply finished_reachable|].
  destruct (get_analysis_result_by_status true Sample.integrity_error
              Sample.finished (py "job-1") finished_reachable)
    as [_ (res & t & Hres & Ht & ->)].
  injection Hres as <-. injection Ht as <-. reflexivity.
Defined.

End ResultAPI.

(** ** The worker's run *)

Section WorkerRun.

Import System MainAsync.

Lemma set_processing_id now r :
  AnalysisRequest.request_id (Worker.set_processing now r) =
  AnalysisRequest.request_id r.
Proof. reflexivity. Qed.

Lemma query_request_update k f d :
  (forall x, AnalysisRequest.request_id (f x) = AnalysisRequest.request_id x) ->
  query_request k (update_request k f d) = f <$> query_request k d.
Proof. apply (find_key_map AnalysisRequest.request_id). Qed.

Lemma query_request_update_other k k' f d :
  (forall x, AnalysisRequest.request_id (f x) = AnalysisRequest.request_id x) ->
  k <> k' ->
  query_request k' (update_request k f d) = query_request k' d.
Proof. apply (find_key_map_other AnalysisRequest.request_id). Qed.

(** Whatever the stores hold, a run invokes the work unit, once. *)
Lemma process_financial_document_calls integrity_error crew j t0 t1 d :
  snd (Worker.process_financial_document integrity_error crew j t0 t1 d) =
  [Worker.mkInputs (Worker.query j) (Worker.file_path j) None].
Proof.
  unfold Worker.process_financial_document.
  destruct (Worker.pickup j t0 d) as [d1 fr].
  by destruct (Worker.finish _ _ _ _ _).
Qed.

(** The job at the head of the queue has a pending row. *)
Lemma queued_job_is_pending QUEUE_AVAILABLE integrity_error s j q :
  reachable QUEUE_AVAILABLE integrity_error s ->
  task_queue (stores s) = j :: q ->
  exists r, query_request (Worker.request_id j) (db (stores s)) = Some r /\
            AnalysisRequest.status r = pending.
Proof.
  intros Hreach Hq. apply reachable_invariant in Hreach.
  apply has_status_query; [apply (inv_requests s Hreach)|].
  apply (inv_queue s Hreach). rewrite Hq. left.
Qed.

(** C2 (as stated, refuted). A second run of a job whose row is completed,
    and the run of a job that has no row, both invoke the work unit and write
    to the stores: the first, its work unit failing, leaves the completed row
    failed; the second, its work unit succeeding, adds a row to
    [analysis_results]. *)
Lemma runner_does_not_abort :
  let d := db (stores Sample.finished) in
  let again :=
    Worker.process_financial_document Sample.integrity_error Sample.throttled
      Sample.job1 200 260 d in
  let unknown :=
    Worker.process_financial_document Sample.integrity_error (Sample.flaky 0)
      Sample.job2 200 260 d in
  AnalysisRequest.status <$> query_request (py "job-1") d = Some completed /\
  length (snd again) = 1%nat /\
  AnalysisRequest.status <$> query_request (py "job-1") (fst (fst again))
    = Some failed /\
  query_request (py "job-2") d = None /\
  length (snd unknown) = 1%nat /\
  result_ids d = [py "job-1"] /\
  result_ids (fst (fst unknown)) = [py "job-1"; py "job-2"].
Proof. vm_compute. repeat split. Qed.

(** C2 (amended). The job a worker takes from the queue has a pending row,
    and the run's first commit makes it processing and sets [started_at],
    leaving [analysis_results] alone. The run has no way out before the work
    unit: on any database it marks the row it finds, whatever its status,
    writes nothing at that point when there is none, and invokes the work unit
    once. *)
Theorem pickup_marks_processing (QUEUE_AVAILABLE : bool)
    (integrity_error : str) (s : State) (j : Worker.Job)
    (q : list Worker.Job) (now : Z) :
  reachable QUEUE_AVAILABLE integrity_error s ->
  task_queue (stores s) = j :: q ->
  let d := db (stores s) in
  (exists r,
     query_request (Worker.request_id j) d = Some r /\
     AnalysisRequest.status r = pending /\
     query_request (Worker.request_id j) (fst (Worker.pickup j now d)) =
       Some (Worker.set_processing now r)) /\
  analysis_results (fst (Worker.pickup j now d)) = analysis_results d /\
  (forall (crew : Worker.Crew) (t1 : Z) (d0 : DB),
     match query_request (Worker.request_id j) d0 with
     | Some r =>
         query_request (Worker.request_id j) (fst (Worker.pickup j now d0)) =
           Some (Worker.set_processing now r)
     | None => fst (Worker.pickup j now d0) = d0
     end /\
     snd (Worker.process_financial_document integrity_error crew j now t1 d0) =
       [Worker.mkInputs (Worker.query j) (Worker.file_path j) None]).
Proof.
  intros Hreach Hq d.
  assert (Hany : forall d0,
            match query_request (Worker.request_id j) d0 with
            | Some r =>
                query_request (Worker.request_id j)
                              (fst (Worker.pickup j now d0)) =
                  Some (Worker.set_processing now r)
            | None => fst (Worker.pickup j now d0) = d0
            end).
  { intros d0. unfold Worker.pickup.
    destruct (query_request (Worker.request_id j) d0) as [r|] eqn:Hr;
      [|reflexivity].
    cbn [fst]. rewrite query_request_update by apply set_processing_id.
    by rewrite Hr. }
  destruct (queued_job_is_pending _ _ _ _ _ Hreach Hq) as (r & Hr & Hst).
  fold d in Hr. split; [|split].
  - exists r. split; [exact Hr|]. split; [exact Hst|].
    specialize (Hany d). by rewrite Hr in Hany.
  - unfold Worker.pickup. by rewrite Hr.
  - intros crew t1 d0. split; [apply Hany|].
    apply process_financial_document_calls.
Qed.

Lemma pickup_marks_processing_witness :
  reachable true Sample.integrity_error Sample.submitted /\
  task_queue (stores Sample.submitted) = Sample.job1 :: [] /\
  AnalysisRequest.status <$>
    query_request (Worker.request_id Sample.job1)
      (fst (Worker.pickup Sample.job1 110 (db (stores Sample.submitted)))) =
  Some processing.
Proof.
  split; [apply submitted_reachable|]. split; [reflexivity|].
  destruct (pickup_marks_processing true Sample.integrity_error
              Sample.submitted Sample.job1 [] 110
              submitted_reachable eq_refl) as [(r & _ & _ & ->) _].
  reflexivity.
Defined.

(** Updating the row of [k] from status [a] to the next one moves no row
    backwards. *)
Lemma update_moves k f a b d :
  NoDup (request_ids d) ->
  has_status d k a ->
  (forall x, AnalysisRequest.request_id (f x) = AnalysisRequest.request_id x) ->
  (forall x, AnalysisRequest.status (f x) = b) ->
  next a b ->
  forall r, r ∈ analysis_requests d ->
    exists r', r' ∈ analysis_requests (update_request k f d) /\
               AnalysisRequest.request_id r' = AnalysisRequest.request_id r /\
               (AnalysisRequest.status r' = AnalysisRequest.status r \/
                next (AnalysisRequest.status r) (AnalysisRequest.status r')).
Proof.
  intros Hnd Hk Hid Hb Hnext r Hr.
  exists (if bool_decide (AnalysisRequest.request_id r = k) then f r else r).
  split; [apply elem_of_update; by exists r|].
  case_bool_decide as Hrk; [|by split; [|left]].
  split; [apply Hid|]. right. rewrite Hb.
  assert (AnalysisRequest.status r = a) as ->; [|exact Hnext].
  eapply has_status_unique; [exact Hnd| |exact Hk]. by exists r.
Qed.

(** C3 (as stated, refuted). The row of a completed request is set back to
    processing by the update a second run asks for: the store applies it. *)
Lemma completed_row_is_overwritten :
  let d := db (stores Sample.finished) in
  AnalysisRequest.status <$> query_request (py "job-1") d = Some completed /\
  AnalysisRequest.status <$>
    query_request (py "job-1") (fst (Worker.pickup Sample.job1 200 d)) =
  Some processing.
Proof. vm_compute. split; reflexivity. Qed.

(** C3 (amended). Along every step of a run of the system each request keeps
    its status or moves once along pending, processing, completed or failed.
    The order is kept by the queue handing each job to one run, not by the
    store: the three updates a run asks for are applied to the row whatever
    its status. *)
Theorem status_moves_forward (QUEUE_AVAILABLE : bool)
    (integrity_error : str) (s s' : State) :
  reachable QUEUE_AVAILABLE integrity_error s ->
  step QUEUE_AVAILABLE integrity_error s s' ->
  (forall r, r ∈ analysis_requests (db (stores s)) ->
     exists r', r' ∈ analysis_requests (db (stores s')) /\
                AnalysisRequest.request_id r' = AnalysisRequest.request_id r /\
                (AnalysisRequest.status r' = AnalysisRequest.status r \/
                 next (AnalysisRequest.status r) (AnalysisRequest.status r')))
  /\
  (forall (k msg : str) (now : Z) (d : DB),
     query_request k (update_request k (Worker.set_processing now) d) =
       Worker.set_processing now <$> query_request k d /\
     query_request k (update_request k (Worker.set_completed now) d) =
       Worker.set_completed now <$> query_request k d /\
     query_request k (update_request k (Worker.set_failed msg now) d) =
       Worker.set_failed msg now <$> query_request k d).
Proof.
  intros Hreach Hstep. split.
  2:{ intros. repeat split; by apply query_request_update. }
  apply reachable_invariant in Hreach. pose proof Hreach as [I1 _ _ I4 _ I6 _ _].
  destruct Hstep as [file query env s|j q now s Hq|fr before after outcome now s Hrun];
    cbn [stores db]; intros r Hr.
  - exists r. split; [|by split; [|left]].
    unfold analyze_document_async.
    destruct QUEUE_AVAILABLE; simpl; [|done].
    destruct (endswith _ _); simpl; [|done].
    destruct (_ =? 0); [done|]. unfold insert_request.
    destruct (query_request _ _); simpl; [done|].
    destruct (enqueue env); simpl; apply elem_of_app; by left.
  - assert (Hj : has_status (db (stores s)) (Worker.request_id j) pending).
    { apply I4. rewrite Hq. left. }
    destruct (has_status_query _ _ _ I1 Hj) as (r0 & Hr0 & _).
    unfold Worker.pickup. rewrite Hr0. cbn [fst].
    eapply (update_moves _ _ pending processing); try done. constructor.
  - destruct (I6 fr) as [Hreq Hp]; [rewrite Hrun; apply elem_of_app; right; left|].
    assert (Hexc : forall msg,
              exists r', r' ∈ analysis_requests
                           (fst (Worker.on_exception fr msg now (db (stores s)))) /\
                AnalysisRequest.request_id r' = AnalysisRequest.request_id r /\
                (AnalysisRequest.status r' = AnalysisRequest.status r \/
                 next (AnalysisRequest.status r) (AnalysisRequest.status r'))).
    { intros msg. unfold Worker.on_exception. rewrite Hreq. cbn [fst].
      eapply (update_moves _ _ processing failed); try done. constructor. }
    unfold Worker.finish. destruct outcome as [result|msg]; [|apply Hexc].
    destruct (insert_result _ _) as [d'|] eqn:Hins; [|apply Hexc].
    unfold insert_result in Hins.
    destruct (query_result _ _); [discriminate|]. injection Hins as <-.
    rewrite Hreq. cbn [fst].
    eapply (update_moves _ _ processing completed); try done.
    constructor.
Qed.

Lemma status_moves_forward_witness :
  reachable true Sample.integrity_error Sample.picked /\
  step true Sample.integrity_error Sample.picked Sample.finished /\
  exists r', r' ∈ analysis_requests (db (stores Sample.finished)) /\
             AnalysisRequest.request_id r' = py "job-1" /\
             (AnalysisRequest.status r' = processing \/
              next processing (AnalysisRequest.status r')).
Proof.
  assert (Hstep : step true Sample.integrity_error Sample.picked Sample.finished).
  { apply (step_finish true Sample.integrity_error Sample.frame1 [] []).
    reflexivity. }
  split; [apply picked_reachable|]. split; [exact Hstep|].
  destruct (status_moves_forward true Sample.integrity_error Sample.picked
              Sample.finished picked_reachable Hstep) as [Hmove _].
  apply (Hmove (AnalysisRequest.mk (py "job-1") (py "report.pdf") 4
                  (py "revenue trend") processing 100 (Some 110) None None)).
  vm_compute. left.
Defined.

End WorkerRun.

(** ** Submission *)

Section Submission.

Import System MainAsync.

Lemma query_request_new d r :
  query_request (AnalysisRequest.request_id r) d = None ->
  query_request (AnalysisRequest.request_id r)
    (mkDB (analysis_requests d ++ [r]) (analysis_results d)) = Some r.
Proof.
  intros Hnone. unfold query_request in *. simpl.
  pose proof (find_key_app AnalysisRequest.request_id
                (AnalysisRequest.request_id r) (analysis_requests d) r) as Happ.
  unfold has_key in Happ. rewrite Happ, Hnone.
  by rewrite bool_decide_eq_true_2.
Qed.

(** Only a submission that passes every check is accepted. *)
Lemma accepted_is_valid QUEUE_AVAILABLE integrity_error file query env s acc :
  fst (analyze_document_async QUEUE_AVAILABLE integrity_error file query env s)
    = Return acc ->
  QUEUE_AVAILABLE = true /\
  endswith (filename file) (py ".pdf") = true /\
  content file <> [] /\
  (uuid4 env ∉ request_ids (db s)) /\
  (exists u, enqueue env = Returned u) /\
  acc_request_id acc = uuid4 env.
Proof.
  unfold analyze_document_async.
  destruct QUEUE_AVAILABLE; simpl; [|discriminate].
  destruct (endswith _ _); simpl; [|discriminate].
  destruct (content file) as [|b bs] eqn:Hc; [discriminate|].
  destruct (Z.of_nat (length (b :: bs)) =? 0); [discriminate|].
  unfold insert_request. simpl.
  destruct (query_request (uuid4 env) (db s)) eqn:Hq; [discriminate|].
  destruct (enqueue env) as [u|msg]; simpl; [|discriminate].
  intros [= <-]. repeat split; try done.
  - by apply query_request_None.
  - by exists u.
Qed.

(** What a submission that passes every check returns and leaves. *)
Lemma valid_submission integrity_error file query env s :
  endswith (filename file) (py ".pdf") = true ->
  content file <> [] ->
  uuid4 env ∉ request_ids (db s) ->
  (exists u, enqueue env = Returned u) ->
  let q := clean_query (form_query query) in
  let size := Z.of_nat (length (content file)) in
  let r := AnalysisRequest.mk (uuid4 env) (filename file) size q pending
                              (utcnow env) None None None in
  let j := Worker.mkJob (uuid4 env) (py "data/queue_" ++ uuid4 env ++ py ".pdf")
                        q (filename file) size in
  analyze_document_async true integrity_error file query env s =
    (Return (mkAccepted (uuid4 env) (py "/analyze/status/" ++ uuid4 env)
                        (py "/analyze/result/" ++ uuid4 env)),
     mkStores (mkDB (analysis_requests (db s) ++ [r]) (analysis_results (db s)))
              (task_queue s ++ [j])).
Proof.
  intros Hpdf Hcontent Hfresh [u Hu]. cbv zeta.
  apply query_request_None in Hfresh.
  unfold analyze_document_async. rewrite Hpdf. cbn [negb].
  destruct (content file) as [|b bs] eqn:Hc; [done|].
  replace (Z.of_nat (length (b :: bs)) =? 0) with false
    by (symmetry; apply Z.eqb_neq; simpl; lia).
  unfold insert_request. cbn [AnalysisRequest.request_id].
  by rewrite Hfresh, Hu.
Qed.

(** C6. A valid submission (the queue is there, a PDF name, a non-empty
    payload, a fresh id, the job enqueued) returns its [request_id] with the
    stores holding a pending row for it, which [get_analysis_status] reports
    as pending. Nothing else has happened: no row of [analysis_results] is
    written, the job only stands at the end of the queue. *)
Theorem submit_returns_pending_job (integrity_error : str)
    (file : UploadFile) (query : option str) (env : Env) (s : Stores) :
  endswith (filename file) (py ".pdf") = true ->
  content file <> [] ->
  uuid4 env ∉ request_ids (db s) ->
  (exists u, enqueue env = Returned u) ->
  exists acc r j,
    analyze_document_async true integrity_error file query env s =
      (Return acc,
       mkStores (mkDB (analysis_requests (db s) ++ [r])
                      (analysis_results (db s)))
                (task_queue s ++ [j])) /\
    acc_request_id acc = uuid4 env /\
    AnalysisRequest.request_id r = uuid4 env /\
    AnalysisRequest.status r = pending /\
    Worker.request_id j = uuid4 env /\
    let d' := mkDB (analysis_requests (db s) ++ [r]) (analysis_results (db s)) in
    query_request (uuid4 env) d' = Some r /\
    exists response,
      get_analysis_status (uuid4 env) d' = (Return response, d') /\
      st_status response = py "pending" /\
      st_started_at response = None /\
      st_completed_at response = None.
Proof.
  intros Hpdf Hcontent Hfresh Hu.
  rewrite (valid_submission integrity_error file query env s) by done.
  apply query_request_None in Hfresh.
  eexists _, _, _. split; [reflexivity|].
  repeat (split; [reflexivity|]). cbv zeta.
  match goal with
  | |- query_request _ (mkDB (_ ++ [?r]) _) = _ /\ _ =>
      pose proof (query_request_new (db s) r Hfresh) as Hnew
  end.
  cbn [AnalysisRequest.request_id] in Hnew. split; [exact Hnew|].
  unfold get_analysis_status. rewrite Hnew.
  eexists. split; [reflexivity|]. repeat split.
Qed.

Lemma submit_returns_pending_job_witness :
  endswith (filename Sample.report) (py ".pdf") = true /\
  content Sample.report <> [] /\
  (uuid4 Sample.env1 ∉ request_ids (db (stores initial))) /\
  (exists u, enqueue Sample.env1 = Returned u) /\
  exists acc,
    fst (analyze_document_async true Sample.integrity_error Sample.report
           (Some (py "  revenue trend ")) Sample.env1 (stores initial)) =
    Return acc.
Proof.
  assert (H1 : endswith (filename Sample.report) (py ".pdf") = true)
    by reflexivity.
  assert (H2 : content Sample.report <> []) by discriminate.
  assert (H3 : uuid4 Sample.env1 ∉ request_ids (db (stores initial)))
    by (intros H; inversion H).
  assert (H4 : exists u, enqueue Sample.env1 = Returned u)
    by (exists tt; reflexivity).
  repeat (split; [assumption|]).
  destruct (submit_returns_pending_job Sample.integrity_error Sample.report
              (Some (py "  revenue trend ")) Sample.env1 (stores initial)
              H1 H2 H3 H4) as (acc & r & j & -> & _).
  by exists acc.
Defined.

(** C5 (as stated, refuted). With the queue not available an empty upload is
    answered 503, not 400. *)
Lemma empty_payload_unavailable :
  content Sample.empty_report = [] /\
  fst (analyze_document_async false Sample.integrity_error Sample.empty_report
         None Sample.env1 (stores initial)) =
  Raise (HTTPException 503
    (py "Background processing not available. Use /analyze endpoint instead.")).
Proof. split; reflexivity. Qed.

(** C5 (amended). A submission whose payload has no bytes fails, with 400
    when the queue is available and with 503 when it is not, and leaves the
    stores as they were, so [get_analysis_status] answers 404 for the id the
    attempt generated. *)
Theorem empty_payload_rejected (QUEUE_AVAILABLE : bool)
    (integrity_error : str) (file : UploadFile) (query : option str)
    (env : Env) (s : Stores) :
  content file = [] ->
  uuid4 env ∉ request_ids (db s) ->
  let answer :=
    analyze_document_async QUEUE_AVAILABLE integrity_error file query env s in
  (exists detail,
     fst answer =
       Raise (HTTPException (if QUEUE_AVAILABLE then 400 else 503) detail)) /\
  snd answer = s /\
  fst (get_analysis_status (uuid4 env) (db (snd answer))) = Raise not_found.
Proof.
  intros Hc Hfresh answer.
  assert (Hs : snd answer = s /\
               exists detail,
                 fst answer =
                   Raise (HTTPException (if QUEUE_AVAILABLE then 400 else 503)
                                        detail)).
  { unfold answer, analyze_document_async.
    destruct QUEUE_AVAILABLE; cbn [negb]; [|split; [done|by eexists]].
    destruct (endswith _ _); cbn [negb]; [|split; [done|by eexists]].
    rewrite Hc. simpl. split; [done|by eexists]. }
  destruct Hs as [Hs Hd]. split; [exact Hd|]. split; [exact Hs|].
  rewrite Hs. unfold get_analysis_status.
  apply query_request_None in Hfresh. by rewrite Hfresh.
Qed.

Lemma empty_payload_rejected_witness :
  content Sample.empty_report = [] /\
  (uuid4 Sample.env1 ∉ request_ids (db (stores initial))) /\
  snd (analyze_document_async true Sample.integrity_error Sample.empty_report
         None Sample.env1 (stores initial)) = stores initial.
Proof.
  assert (H1 : content Sample.empty_report = []) by reflexivity.
  assert (H2 : uuid4 Sample.env1 ∉ request_ids (db (stores initial)))
    by (intros H; inversion H).
  repeat (split; [assumption|]).
  apply (empty_payload_rejected true Sample.integrity_error
           Sample.empty_report None Sample.env1 (stores initial) H1 H2).
Defined.

End Submission.

(** ** Cleaning the query *)

Section Query.

Import Spec MainAsync.

Lemma blank_app (s t : str) : blank (s ++ t) <-> blank s /\ blank t.
Proof. apply Forall_app. Qed.

Lemma blank_rev (s : str) : blank (rev s) <-> blank s.
Proof.
  unfold blank. rewrite !Forall_forall. split; intros H c Hc; apply H.
  - apply list_elem_of_In. apply -> in_rev. by apply list_elem_of_In.
  - apply list_elem_of_In. apply in_rev. by apply list_elem_of_In.
Qed.

Lemma lstrip_split (s : str) :
  exists before, s = before ++ lstrip s /\ blank before.
Proof.
  induction s as [|c s (before & Hs & Hb)]; simpl.
  - exists []. split; [done | constructor].
  - destruct (isspace c) eqn:Hc.
    + exists (c :: before). split; [by rewrite Hs at 1 | by constructor].
    + exists []. split; [done | constructor].
Qed.

Lemma lstrip_head (s : str) c t : lstrip s = c :: t -> isspace c = false.
Proof.
  induction s as [|c' s IH]; simpl; [discriminate|].
  destruct (isspace c') eqn:Hc; [exact IH|]. by intros [= <- _].
Qed.

Lemma lstrip_nil (s : str) : lstrip s = [] <-> blank s.
Proof.
  induction s as [|c s IH]; simpl.
  - split; [constructor | done].
  - destruct (isspace c) eqn:Hc.
    + rewrite IH. split; [by constructor | by inversion 1].
    + split; [discriminate|]. inversion 1; congruence.
Qed.

Lemma rstrip_split (s : str) :
  exists after, s = rstrip s ++ after /\ blank after.
Proof.
  unfold rstrip. destruct (lstrip_split (rev s)) as (before & Hs & Hb).
  exists (rev before). split; [|by apply blank_rev].
  rewrite <- rev_app_distr, <- Hs. by rewrite rev_involutive.
Qed.

Lemma rstrip_last (s : str) c t : rstrip s = t ++ [c] -> isspace c = false.
Proof.
  unfold rstrip. intros H. apply (f_equal (@rev N)) in H.
  rewrite rev_involutive, rev_app_distr in H. simpl in H.
  by apply lstrip_head in H.
Qed.

Lemma rstrip_nil (s : str) : rstrip s = [] <-> blank s.
Proof.
  unfold rstrip. rewrite <- blank_rev, <- lstrip_nil. split.
  - intros H. apply (f_equal (@rev N)) in H. by rewrite rev_involutive in H.
  - by intros ->.
Qed.

(** [strip] takes away the leading and the trailing whitespace, and nothing
    else. *)
Lemma strip_stripped (q : str) : stripped_of q (strip q).
Proof.
  unfold strip.
  destruct (lstrip_split q) as (before & Hq & Hb).
  destruct (rstrip_split (lstrip q)) as (after & Hl & Ha).
  exists before, after. split; [by rewrite <- Hl|].
  split; [exact Hb|]. split; [exact Ha|]. split.
  - intros c t' Ht. rewrite Ht in Hl. simpl in Hl.
    by apply lstrip_head in Hl.
  - intros c t' Ht. by apply rstrip_last in Ht.
Qed.

Lemma strip_nil (q : str) : strip q = [] <-> blank q.
Proof.
  unfold strip. rewrite rstrip_nil. split.
  - intros Hl. destruct (lstrip q) as [|c t] eqn:E; [by apply lstrip_nil|].
    apply lstrip_head in E. inversion Hl; congruence.
  - intros Hq. apply lstrip_nil in Hq. rewrite Hq. constructor.
Qed.

Lemma clean_query_blank (q : str) : blank q -> clean_query q = default_query.
Proof.
  intros Hq. unfold clean_query. apply strip_nil in Hq. rewrite Hq.
  rewrite bool_decide_eq_true_2 by done. rewrite orb_true_r. reflexivity.
Qed.

Lemma clean_query_strip (q : str) : ~ blank q -> clean_query q = strip q.
Proof.
  intros Hq. unfold clean_query.
  destruct q as [|c q]; [exfalso; apply Hq; constructor|]. cbn [truthy negb orb].
  rewrite bool_decide_eq_false_2; [done|]. by rewrite strip_nil.
Qed.

Lemma clean_query_spec (query : option str) :
  job_query query (clean_query (form_query query)).
Proof.
  destruct query as [q|]; simpl; [|reflexivity]. split.
  - apply clean_query_blank.
  - intros Hq. rewrite clean_query_strip by done. apply strip_stripped.
Qed.

End Query.

Section QueryUse.

Import Spec MainAsync.

Lemma handle_calls lower max_retries attempt e tr continue (P : Worker.Inputs -> Prop) :
  Forall P (Main.calls tr) ->
  (forall tr', Forall P (Main.calls tr') ->
               Forall P (Main.calls (snd (continue tr')))) ->
  Forall P (Main.calls
              (snd (Main.handle lower max_retries attempt e tr continue))).
Proof.
  intros Htr Hcont. unfold Main.handle.
  destruct (Main.is_rate_limit lower e); [|exact Htr].
  destruct (attempt <? max_retries - 1); [|exact Htr].
  apply Hcont. exact Htr.
Qed.

(** Every invocation the retry loop makes is on the query it was given. *)
Lemma retry_loop_calls lower fs crew query file_path max_retries remaining :
  forall attempt tr,
    Forall (fun c => Worker.inputs_query c = query) (Main.calls tr) ->
    Forall (fun c => Worker.inputs_query c = query)
           (Main.calls
              (snd (Main.retry_loop lower fs crew query file_path max_retries
                      remaining attempt tr))).
Proof.
  induction remaining as [|remaining IH]; intros attempt tr Htr; simpl;
    [exact Htr|].
  destruct (Tools.read_financial_document fs file_path 5000) as [text|e].
  - assert (Htr' : Forall (fun c => Worker.inputs_query c = query)
                     (Main.calls tr ++
                        [Worker.mkInputs query file_path (Some text)])).
    { apply Forall_app. split; [exact Htr|]. by constructor. }
    destruct (crew _ _) as [result|e]; [exact Htr'|].
    apply handle_calls; [exact Htr'|]. intros tr' H. by apply IH.
  - apply handle_calls; [exact Htr|]. intros tr' H. by apply IH.
Qed.

(** C9. The query a job is created with is the default one when the
    submission has no query or a blank one, and otherwise the submitted query
    without its leading and trailing whitespace. That query is the one stored
    in the row and handed to the work unit, by the worker for an accepted
    asynchronous submission and by every attempt of the synchronous path. *)
Theorem query_default_or_stripped (query : option str) :
  job_query query (clean_query (form_query query)) /\
  (forall QUEUE_AVAILABLE integrity_error file env s acc,
     fst (analyze_document_async QUEUE_AVAILABLE integrity_error file query
            env s) = Return acc ->
     exists r j,
       let s' := snd (analyze_document_async QUEUE_AVAILABLE integrity_error
                        file query env s) in
       query_request (uuid4 env) (db s') = Some r /\
       AnalysisRequest.query r = clean_query (form_query query) /\
       task_queue s' = task_queue s ++ [j] /\
       forall crew t0 t1 d,
         snd (Worker.process_financial_document integrity_error crew j t0 t1 d)
         = [Worker.mkInputs (clean_query (form_query query))
                            (Worker.file_path j) None]) /\
  (forall lower fs crew file uuid,
     Forall (fun c => Worker.inputs_query c = clean_query (form_query query))
            (Main.calls
               (snd (Main.analyze_document lower fs crew file query uuid)))).
Proof.
  split; [apply clean_query_spec|]. split.
  - intros QA ie file env s acc Hacc.
    apply accepted_is_valid in Hacc as (-> & Hpdf & Hc & Hfresh & Hu & _).
    rewrite (valid_submission ie file query env s) by done.
    eexists _, _. cbn [snd db task_queue]. split.
    { match goal with
      | |- query_request _ (mkDB (_ ++ [?r]) _) = _ =>
          apply (query_request_new (db s) r)
      end.
      by apply query_request_None. }
    split; [reflexivity|]. split; [reflexivity|].
    intros crew t0 t1 d. apply process_financial_document_calls.
  - intros lower fs crew file uuid. unfold Main.analyze_document.
    destruct (endswith _ _); cbn [negb]; [|constructor].
    destruct (_ =? 0); [constructor|].
    match goal with
    | |- context [Main.run_financial_crew_with_retry ?l ?f ?c ?q ?p ?m] =>
        pose proof (retry_loop_calls l f c q p m (Z.to_nat m) 0
                      (Main.mkTrace [] []) (Forall_nil_2 _)) as Hcalls;
        change (Main.retry_loop l f c q p m (Z.to_nat m) 0 (Main.mkTrace [] []))
          with (Main.run_financial_crew_with_retry l f c q p m) in Hcalls;
        destruct (Main.run_financial_crew_with_retry l f c q p m)
          as [[result|[code detail|e]] tr]
    end; exact Hcalls.
Qed.

Lemma query_default_or_stripped_witness :
  fst (analyze_document_async true Sample.integrity_error Sample.report
         (Some (py "  revenue trend ")) Sample.env1
         (System.stores System.initial)) =
    Return (mkAccepted (py "job-1") (py "/analyze/status/job-1")
                       (py "/analyze/result/job-1")) /\
  exists r,
    query_request (py "job-1") (db (System.stores Sample.submitted)) = Some r /\
    AnalysisRequest.query r = py "revenue trend".
Proof.
  split; [reflexivity|].
  destruct (query_default_or_stripped (Some (py "  revenue trend ")))
    as (_ & Hasync & _).
  destruct (Hasync true Sample.integrity_error Sample.report Sample.env1
              (System.stores System.initial) _ eq_refl)
    as (r & j & Hr & Hq & _).
  exists r. split; [exact Hr | exact Hq].
Defined.

End QueryUse.

(** ** Reading the document *)

Section ReadDocument.

Import Tools.

Lemma startswith_app (p s : str) : startswith (p ++ s) p = true.
Proof.
  induction p as [|c p IH]; simpl; [done|].
  by rewrite N.eqb_refl, IH.
Qed.

Lemma read_pages_no_text pages max_chars :
  no_text pages -> read_pages pages max_chars [] = Returned [].
Proof.
  induction 1 as [|page pages -> _ IH]; simpl; [done|].
  by destruct (len [] >=? max_chars).
Qed.

(** C10 (as stated, refuted). With a negative [max_chars] a document without
    text gives the truncation note, not the error text. *)
Lemma no_text_negative_max_chars :
  Sample.scanned (py "scan.pdf") = Some (Returned [Returned []]) /\
  no_text [Returned []] /\
  read_financial_document Sample.scanned (py "scan.pdf") (-1) =
    Returned truncation_note /\
  truncation_note <> py "Error: No text content extracted from PDF".
Proof.
  split; [reflexivity|]. split; [by repeat constructor|].
  split; [reflexivity|]. discriminate.
Qed.

(** C10 (amended). [read_financial_document] returns a string for every path
    and every [max_chars]: the not-found text with the path when the file
    does not exist, a text that begins "Error reading PDF:" and carries the
    exception's message when opening the file or extracting a page raises,
    and, for a [max_chars] that is not negative, the no-text error when no
    page of the document has text. *)
Theorem read_financial_document_returns (fs : filesystem) (path : str)
    (max_chars : Z) :
  exists text,
    read_financial_document fs path max_chars = Returned text /\
    (fs path = None -> text = py "Error: File not found at " ++ path) /\
    (forall msg,
       fs path = Some (Raised msg) \/
       (exists pages, fs path = Some (Returned pages) /\
                      read_pages pages max_chars [] = Raised msg) ->
       text = py "Error reading PDF: " ++ msg /\
       startswith text (py "Error reading PDF:") = true) /\
    (forall pages,
       fs path = Some (Returned pages) -> no_text pages -> 0 <= max_chars ->
       text = py "Error: No text content extracted from PDF").
Proof.
  unfold read_financial_document, read_body.
  destruct (fs path) as [[pages|msg]|] eqn:Hfs.
  - destruct (read_pages pages max_chars []) as [full|msg] eqn:Hread.
    + eexists. split; [reflexivity|]. split; [discriminate|]. split.
      * intros msg [[=]|(pages' & [= <-] & Hr)]. congruence.
      * intros pages' [= <-] Hno Hmax.
        rewrite read_pages_no_text in Hread by done. injection Hread as <-.
        replace (len [] >? max_chars) with false; [reflexivity|].
        symmetry. rewrite Z.gtb_ltb. apply Z.ltb_ge. exact Hmax.
    + eexists. split; [reflexivity|]. split; [discriminate|]. split.
      * intros msg' [[=]|(pages' & [= <-] & Hr)].
        rewrite Hread in Hr. injection Hr as <-. split; [reflexivity|].
        change (py "Error reading PDF: " ++ msg)
          with (py "Error reading PDF:" ++ (32%N :: msg)).
        apply startswith_app.
      * intros pages' [= <-] Hno _.
        rewrite read_pages_no_text in Hread by done. discriminate.
  - eexists. split; [reflexivity|]. split; [discriminate|]. split.
    + intros msg' [[= <-]|(pages' & [=] & _)]. split; [reflexivity|].
      change (py "Error reading PDF: " ++ msg)
        with (py "Error reading PDF:" ++ (32%N :: msg)).
      apply startswith_app.
    + intros pages [=].
  - eexists. split; [reflexivity|]. split; [reflexivity|]. split.
    + intros msg [[=]|(pages & [=] & _)].
    + intros pages [=].
Qed.

Lemma read_financial_document_returns_witness :
  Sample.scanned (py "scan.pdf") = Some (Returned [Returned []]) /\
  no_text [Returned []] /\ 0 <= 30000 /\
  read_financial_document Sample.scanned (py "scan.pdf") 30000 =
    Returned (py "Error: No text content extracted from PDF").
Proof.
  assert (H1 : Sample.scanned (py "scan.pdf") = Some (Returned [Returned []]))
    by reflexivity.
  assert (H2 : no_text [Returned []]) by (by repeat constructor).
  assert (H3 : 0 <= 30000) by lia.
  repeat (split; [assumption|]).
  destruct (read_financial_document_returns Sample.scanned (py "scan.pdf") 30000)
    as (text & -> & _ & _ & Hno).
  by rewrite (Hno _ H1 H2 H3).
Defined.

End ReadDocument.

(** ** Rate limits: the retry loop and the worker *)

Section RetryLoop.

Import Spec.

Variable lower : str -> str.
Variable fs : Tools.filesystem.
Variable crew : Worker.Crew.
Variables query file_path text : str.
Variable max_retries : Z.

Hypothesis document :
  Tools.read_financial_document fs file_path 5000 = Returned text.

Local Abbreviation inputs := (Worker.mkInputs query file_path (Some text)).
Local Abbreviation limited := (Main.limited lower crew inputs).

(** [k] rate limited attempts, each with attempts left after it, are [k]
    invocations and [k] sleeps, and the loop goes on. *)
Lemma retry_loop_retries (k remaining : nat) :
  forall (a : nat) (tr : Main.Trace),
    length (Main.calls tr) = a ->
    limited a k ->
    Z.of_nat (a + k) <= max_retries - 1 ->
    Main.retry_loop lower fs crew query file_path max_retries
      (k + remaining) (Z.of_nat a) tr =
    Main.retry_loop lower fs crew query file_path max_retries
      remaining (Z.of_nat (a + k))
      (Main.mkTrace
         (Main.calls tr ++ replicate k inputs)
         (Main.sleeps tr ++ map (fun n => 15 * Z.of_nat n) (seq (S a) k))).
Proof.
  induction k as [|k IH]; intros a tr Hlen Hlim Hmax.
  - simpl. rewrite Nat.add_0_r, !app_nil_r. by destruct tr.
  - cbn [Nat.add Main.retry_loop]. rewrite document, Hlen.
    destruct (Hlim a) as (e & -> & He); [lia|].
    unfold Main.handle. rewrite He.
    replace (Z.of_nat a <? max_retries - 1) with true
      by (symmetry; apply Z.ltb_lt; lia).
    cbn [Main.calls Main.sleeps].
    replace (Z.of_nat a + 1) with (Z.of_nat (S a)) by lia.
    rewrite IH; cbn [Main.calls Main.sleeps].
    + replace (S a + k)%nat with (a + S k)%nat by lia.
      rewrite <- !app_assoc. reflexivity.
    + rewrite length_app. simpl. lia.
    + intros i Hi. apply Hlim. lia.
    + lia.
Qed.

(** X1. The synchronous path on a work unit that is rate limited [k] times
    and then succeeds, with attempts to spare: [k + 1] invocations, a sleep of
    [15 * n] after the n-th, and the result. *)
Lemma retry_until_success (k : nat) (result : str) :
  (k < Z.to_nat max_retries)%nat ->
  limited 0 k ->
  crew k inputs = Returned result ->
  Main.run_financial_crew_with_retry lower fs crew query file_path max_retries
  = (Return result, Main.mkTrace (replicate (S k) inputs) (backoff 15 k)).
Proof.
  intros Hk Hlim Hok. unfold Main.run_financial_crew_with_retry.
  replace (Z.to_nat max_retries)
    with (k + S (Z.to_nat max_retries - S k))%nat by lia.
  rewrite (retry_loop_retries k _ 0%nat); [|done|done|lia].
  cbn [Main.retry_loop Main.calls Main.sleeps app].
  rewrite document, length_replicate. cbn [Nat.add]. rewrite Hok.
  unfold backoff. by rewrite replicate_S_end.
Qed.

(** X2. The synchronous path on a work unit that is rate limited at every
    attempt: [max_retries] invocations, a sleep after all but the last, and
    the 429 answer. *)
Lemma retry_exhausted :
  0 < max_retries ->
  limited 0 (Z.to_nat max_retries) ->
  Main.run_financial_crew_with_retry lower fs crew query file_path max_retries
  = (Raise Main.rate_limit_exceeded,
     Main.mkTrace (replicate (Z.to_nat max_retries) inputs)
                  (backoff 15 (Z.to_nat max_retries - 1))).
Proof.
  intros Hmax Hlim. unfold Main.run_financial_crew_with_retry.
  set (n := Z.to_nat max_retries) in *.
  replace n with ((n - 1) + 1)%nat at 1 by lia.
  rewrite (retry_loop_retries (n - 1) _ 0%nat); [|done| |lia].
  2:{ intros i Hi. apply Hlim. lia. }
  cbn [Main.retry_loop Main.calls Main.sleeps app].
  rewrite document, length_replicate. cbn [Nat.add].
  destruct (Hlim (n - 1)%nat) as (e & -> & He); [lia|].
  unfold Main.handle. rewrite He.
  replace (Z.of_nat (n - 1) <? max_retries - 1) with false
    by (symmetry; apply Z.ltb_ge; lia).
  unfold backoff. rewrite <- replicate_S_end.
  by replace (S (n - 1)) with n by lia.
Qed.

End RetryLoop.

Section RetrySamples.

Lemma sample_document :
  Tools.read_financial_document Sample.fs (py "data/queue_job-1.pdf") 5000 =
  Returned (py "Revenue" ++ [10%N]).
Proof. reflexivity. Qed.

(** Rate limited twice, then a success: three invocations and a total
    back-off of 15 * 1 + 15 * 2. *)
Example retry_twice_then_success :
  exists tr,
    Main.run_financial_crew_with_retry Sample.lower Sample.fs (Sample.flaky 2)
      (py "revenue trend") (py "data/queue_job-1.pdf") 3 =
    (Return (py "analysis"), tr) /\
    length (Main.calls tr) = 3%nat /\
    foldr Z.add 0 (Main.sleeps tr) = 15 * 1 + 15 * 2.
Proof.
  eexists. split.
  - apply (retry_until_success Sample.lower Sample.fs (Sample.flaky 2)
             (py "revenue trend") (py "data/queue_job-1.pdf") _ 3
             sample_document 2%nat (py "analysis")); [simpl; lia| |reflexivity].
    intros i Hi. exists Sample.rate_limited.
    destruct i as [|[|i]]; [by split|by split|lia].
  - split; reflexivity.
Defined.

(** Rate limited at every attempt: three invocations, then the 429 answer. *)
Example retry_always_limited :
  exists tr,
    Main.run_financial_crew_with_retry Sample.lower Sample.fs Sample.throttled
      (py "revenue trend") (py "data/queue_job-1.pdf") 3 =
    (Raise Main.rate_limit_exceeded, tr) /\
    length (Main.calls tr) = 3%nat /\
    Main.sleeps tr = [15; 30].
Proof.
  eexists. split.
  - apply (retry_exhausted Sample.lower Sample.fs Sample.throttled
             (py "revenue trend") (py "data/queue_job-1.pdf") _ 3
             sample_document); [lia|].
    intros i _. exists Sample.rate_limited. by split.
  - split; reflexivity.
Defined.

End RetrySamples.

Section WorkerRetry.

Import System MainAsync.

(** The worker on a work unit whose first invocation raises: the row is
    failed with that message after this one invocation, whatever the
    message. *)
Lemma worker_fails_at_once integrity_error crew j t0 t1 d r e :
  query_request (Worker.request_id j) d = Some r ->
  crew 0%nat (Worker.mkInputs (Worker.query j) (Worker.file_path j) None) =
    Raised e ->
  Worker.process_financial_document integrity_error crew j t0 t1 d =
  (update_request (Worker.request_id j) (Worker.set_failed e t1)
     (update_request (Worker.request_id j) (Worker.set_processing t0) d),
   Raised e,
   [Worker.mkInputs (Worker.query j) (Worker.file_path j) None]).
Proof.
  intros Hr He. unfold Worker.process_financial_document, Worker.pickup.
  rewrite Hr, He. reflexivity.
Qed.

(** C4 (the code at the failing input). A work unit that is rate limited
    twice and would then succeed: the worker invokes it once and leaves the
    job failed with the rate limit message, where the synchronous path, on
    the same work unit, invokes it three times, sleeps 15 and 30, and
    returns the analysis. *)
Theorem worker_does_not_retry :
  let d := db (stores Sample.submitted) in
  let run :=
    Worker.process_financial_document Sample.integrity_error (Sample.flaky 2)
      Sample.job1 110 170 d in
  let retried :=
    Main.run_financial_crew_with_retry Sample.lower Sample.fs (Sample.flaky 2)
      (py "revenue trend") (py "data/queue_job-1.pdf") 3 in
  Main.is_rate_limit Sample.lower Sample.rate_limited = true /\
  AnalysisRequest.status <$> query_request (py "job-1") d = Some pending /\
  length (snd run) = 1%nat /\
  snd (fst run) = Raised Sample.rate_limited /\
  query_request (py "job-1") (fst (fst run)) =
    Some (AnalysisRequest.mk (py "job-1") (py "report.pdf") 4
            (py "revenue trend") failed 100 (Some 110) (Some 170)
            (Some Sample.rate_limited)) /\
  fst retried = Return (py "analysis") /\
  length (Main.calls (snd retried)) = 3%nat /\
  Main.sleeps (snd retried) = [15 * 1; 15 * 2].
Proof. vm_compute. repeat split. Qed.

End WorkerRetry.

(** ** The shape of every run of the retry loop *)

Section RetryShape.

Import Spec.

Variable lower : str -> str.
Variable fs : Tools.filesystem.
Variable crew : Worker.Crew.
Variables query file_path : str.
Variable max_retries : Z.

Lemma read_financial_document_Returned path max_chars :
  exists text, Tools.read_financial_document fs path max_chars = Returned text.
Proof.
  unfold Tools.read_financial_document.
  destruct (Tools.read_body fs path max_chars); eauto.
Qed.

Lemma backoff_S base k :
  backoff base (S k) = backoff base k ++ [base * Z.of_nat (S k)].
Proof. unfold backoff. by rewrite seq_S, map_app. Qed.

Lemma length_backoff base k : length (backoff base k) = k.
Proof. unfold backoff. by rewrite length_map, length_seq. Qed.

Lemma retry_loop_step (remaining : nat) (attempt : Z) (tr : Main.Trace) :
  Main.retry_loop lower fs crew query file_path max_retries (S remaining)
    attempt tr =
  let continue :=
    Main.retry_loop lower fs crew query file_path max_retries remaining
      (attempt + 1) in
  match Tools.read_financial_document fs file_path 5000 with
  | Raised e => Main.handle lower max_retries attempt e tr continue
  | Returned document_content =>
      let inputs := Worker.mkInputs query file_path (Some document_content) in
      let tr' := Main.mkTrace (Main.calls tr ++ [inputs]) (Main.sleeps tr) in
      match crew (length (Main.calls tr)) inputs with
      | Returned result => (Return result, tr')
      | Raised e => Main.handle lower max_retries attempt e tr' continue
      end
  end.
Proof. reflexivity. Qed.

(** What a trace looks like when the loop has ended: one invocation more
    than sleeps, all on the same inputs. *)
Local Abbreviation finished_trace :=
  (fun (text : str) (bound : nat) (tr : Main.Trace) =>
     length (Main.calls tr) = S (length (Main.sleeps tr)) /\
     (length (Main.calls tr) <= bound)%nat /\
     Main.sleeps tr = backoff 15 (length (Main.sleeps tr)) /\
     Main.calls tr =
       replicate (length (Main.calls tr))
                 (Worker.mkInputs query file_path (Some text))).

Lemma retry_loop_shape (text : str) (remaining : nat) :
  Tools.read_financial_document fs file_path 5000 = Returned text ->
  forall (a : nat) (tr : Main.Trace),
    Z.of_nat a + Z.of_nat (S remaining) = max_retries ->
    Main.calls tr = replicate a (Worker.mkInputs query file_path (Some text)) ->
    Main.sleeps tr = backoff 15 a ->
    finished_trace text (a + S remaining)%nat
      (snd (Main.retry_loop lower fs crew query file_path max_retries
              (S remaining) (Z.of_nat a) tr)).
Proof.
  intros Hdoc. induction remaining as [|remaining IH];
    intros a tr Hmax Hcalls Hsleeps.
  - rewrite retry_loop_step. cbv zeta. rewrite Hdoc.
    assert (Hdone : finished_trace text (a + 1)%nat
              (Main.mkTrace
                 (Main.calls tr ++
                    [Worker.mkInputs query file_path (Some text)])
                 (Main.sleeps tr))).
    { cbn [Main.calls Main.sleeps].
      rewrite Hcalls, Hsleeps, length_app, length_replicate, length_backoff.
      simpl. replace (a + 1)%nat with (S a) by lia.
      repeat split; try lia. by rewrite replicate_S_end. }
    destruct (crew _ _) as [result|e]; [exact Hdone|].
    unfold Main.handle. destruct (Main.is_rate_limit lower e); [|exact Hdone].
    replace (Z.of_nat a <? max_retries - 1) with false
      by (symmetry; apply Z.ltb_ge; lia).
    exact Hdone.
  - rewrite retry_loop_step. cbv zeta. rewrite Hdoc.
    assert (Hdone : finished_trace text (a + S (S remaining))%nat
              (Main.mkTrace
                 (Main.calls tr ++
                    [Worker.mkInputs query file_path (Some text)])
                 (Main.sleeps tr))).
    { cbn [Main.calls Main.sleeps].
      rewrite Hcalls, Hsleeps, length_app, length_replicate, length_backoff.
      simpl. replace (a + 1)%nat with (S a) by lia.
      repeat split; try lia. by rewrite replicate_S_end. }
    destruct (crew _ _) as [result|e]; [exact Hdone|].
    unfold Main.handle. destruct (Main.is_rate_limit lower e); [|exact Hdone].
    replace (Z.of_nat a <? max_retries - 1) with true
      by (symmetry; apply Z.ltb_lt; lia).
    cbn [Main.calls Main.sleeps].
    replace (Z.of_nat a + 1) with (Z.of_nat (S a)) by lia.
    replace (a + S (S remaining))%nat with (S a + S remaining)%nat by lia.
    apply IH; cbn [Main.calls Main.sleeps].
    + lia.
    + by rewrite Hcalls, replicate_S_end.
    + by rewrite Hsleeps, backoff_S.
Qed.

(** X3. Whatever the work unit does, a call of
    [run_financial_crew_with_retry] with a positive [max_retries] invokes it
    at least once and at most [max_retries] times, always on the same inputs
    (the query, the path and the document text read with a limit of 5000),
    and sleeps once less than it invokes, for 15, 30, 45, ... With a
    [max_retries] that is not positive it invokes nothing and raises the
    500 answer. *)
Theorem retry_trace_shape :
  let run :=
    Main.run_financial_crew_with_retry lower fs crew query file_path
      max_retries in
  if 0 <? max_retries then
    exists text,
      Tools.read_financial_document fs file_path 5000 = Returned text /\
      length (Main.calls (snd run)) = S (length (Main.sleeps (snd run))) /\
      (length (Main.calls (snd run)) <= Z.to_nat max_retries)%nat /\
      Main.sleeps (snd run) = backoff 15 (length (Main.sleeps (snd run))) /\
      Main.calls (snd run) =
        replicate (length (Main.calls (snd run)))
                  (Worker.mkInputs query file_path (Some text))
  else
    run = (Raise (HTTPException 500 (py "Analysis failed after all retries")),
           Main.mkTrace [] []).
Proof.
  intros run. unfold run, Main.run_financial_crew_with_retry.
  destruct (0 <? max_retries) eqn:Hmax.
  - apply Z.ltb_lt in Hmax.
    destruct (read_financial_document_Returned file_path 5000) as [text Hdoc].
    exists text. split; [exact Hdoc|].
    replace (Z.to_nat max_retries) with (S (Z.to_nat max_retries - 1)) by lia.
    apply (retry_loop_shape text (Z.to_nat max_retries - 1) Hdoc 0%nat
             (Main.mkTrace [] [])); [lia|reflexivity|reflexivity].
  - apply Z.ltb_ge in Hmax.
    replace (Z.to_nat max_retries) with 0%nat by lia. reflexivity.
Qed.

End RetryShape.

Section RetryStop.

Import Spec.

Variable lower : str -> str.
Variable fs : Tools.filesystem.
Variable crew : Worker.Crew.
Variables query file_path text : str.
Variable max_retries : Z.

Hypothesis document :
  Tools.read_financial_document fs file_path 5000 = Returned text.

Local Abbreviation inputs := (Worker.mkInputs query file_path (Some text)).

(** X4. An error that is not a rate limit ends the loop at once: after [k]
    rate limited attempts, an attempt that raises another error is the last
    one, and the error is raised again as it is, with no sleep after it. *)
Theorem retry_stops_at_other_error (k : nat) (e : str) :
  (k < Z.to_nat max_retries)%nat ->
  Main.limited lower crew inputs 0 k ->
  crew k inputs = Raised e ->
  Main.is_rate_limit lower e = false ->
  Main.run_financial_crew_with_retry lower fs crew query file_path max_retries
  = (Raise (Exception e), Main.mkTrace (replicate (S k) inputs) (backoff 15 k)).
Proof.
  intros Hk Hlim Hraise He. unfold Main.run_financial_crew_with_retry.
  replace (Z.to_nat max_retries)
    with (k + S (Z.to_nat max_retries - S k))%nat by lia.
  rewrite (retry_loop_retries lower fs crew query file_path text max_retries
             document k _ 0%nat); [|done|done|lia].
  cbn [Main.retry_loop Main.calls Main.sleeps app].
  rewrite document, length_replicate. cbn [Nat.add]. rewrite Hraise.
  unfold Main.handle. rewrite He.
  unfold backoff. by rewrite replicate_S_end.
Qed.

End RetryStop.

Section RetryStopSample.

Lemma retry_stops_at_other_error_witness :
  exists tr,
    Main.run_financial_crew_with_retry Sample.lower Sample.fs
      (fun i _ => if (i <? 1)%nat then Raised Sample.rate_limited
                  else Raised (py "Invalid API key"))
      (py "revenue trend") (py "data/queue_job-1.pdf") 3 =
    (Raise (Exception (py "Invalid API key")), tr) /\
    length (Main.calls tr) = 2%nat /\ Main.sleeps tr = [15].
Proof.
  eexists. split.
  - apply (retry_stops_at_other_error Sample.lower Sample.fs _
             (py "revenue trend") (py "data/queue_job-1.pdf") _ 3
             sample_document 1%nat (py "Invalid API key"));
      [simpl; lia| |reflexivity|reflexivity].
    intros i Hi. exists Sample.rate_limited.
    destruct i as [|i]; [by split|lia].
  - split; reflexivity.
Defined.

End RetryStopSample.

(** ** The report and the character limit *)

Section Report.

Import Tools Document.



Lemma truthy_note (s : str) : truthy (s ++ truncation_note) = true.
Proof. by destruct s. Qed.




End Report.

Section ReportEdges.

Import Tools Document.

Lemma read_pages_stops pre rest max_chars :
  readable pre ->
  forall acc,
    pre <> [] ->
    max_chars <= len (acc ++ document_text pre) ->
    read_pages (pre ++ rest) max_chars acc = read_pages pre max_chars acc.
Proof.
  induction 1 as [|page pre [content ->] _ IH]; intros acc Hne Hlim; [done|].
  cbn [app read_pages].
  set (acc' := if truthy content
               then acc ++ (replace_nn content ++ [10%N]) else acc).
  assert (Hacc : acc' = acc ++ page_text (Returned content)).
  { unfold acc', page_text. destruct (truthy content); [done|].
    by rewrite app_nil_r. }
  destruct (len acc' >=? max_chars) eqn:Hbreak; [done|].
  assert (Hlt : len acc' < max_chars).
  { rewrite Z.geb_leb in Hbreak. apply Z.leb_gt in Hbreak. exact Hbreak. }
  unfold document_text in Hlim. cbn [map concat] in Hlim.
  rewrite app_assoc, <- Hacc in Hlim. apply IH; [|exact Hlim].
  intros ->. simpl in Hlim. rewrite app_nil_r in Hlim. lia.
Qed.

(** X6. Once the pages read give [max_chars] characters or more, the pages
    after them are not read: the answer for a document does not depend on the
    pages that follow, not even on pages whose text cannot be extracted. *)
Theorem read_financial_document_stops_at_limit (fs fs' : filesystem)
    (path : str) (max_chars : Z) (pre rest : list (attempt str)) :
  readable pre ->
  pre <> [] ->
  max_chars <= len (document_text pre) ->
  fs path = Some (Returned (pre ++ rest)) ->
  fs' path = Some (Returned pre) ->
  read_financial_document fs path max_chars =
  read_financial_document fs' path max_chars.
Proof.
  intros Hread Hne Hlim Hfs Hfs'.
  unfold read_financial_document, read_body. rewrite Hfs, Hfs'.
  by rewrite (read_pages_stops pre rest max_chars Hread []).
Qed.

Lemma read_financial_document_stops_at_limit_witness :
  read_financial_document
    (fun _ => Some (Returned [Returned (py "Revenue"); Raised (py "bad page")]))
    (py "a.pdf") 8 =
  Returned (py "Revenue" ++ [10%N]).
Proof.
  rewrite (read_financial_document_stops_at_limit _
             (fun _ => Some (Returned [Returned (py "Revenue")]))
             (py "a.pdf") 8 [Returned (py "Revenue")]
             [Raised (py "bad page")]).
  - reflexivity.
  - repeat constructor. eexists; reflexivity.
  - discriminate.
  - vm_compute. discriminate.
  - reflexivity.
  - reflexivity.
Defined.

(** X7. Whatever the file system holds, the string [read_financial_document]
    returns is not empty. *)
Theorem read_financial_document_not_empty (fs : filesystem) (path : str)
    (max_chars : Z) :
  exists c text,
    read_financial_document fs path max_chars = Returned (c :: text).
Proof.
  unfold read_financial_document, read_body.
  destruct (fs path) as [[pages|msg]|]; [|by eexists _, _|by eexists _, _].
  destruct (read_pages pages max_chars []) as [full|msg]; [|by eexists _, _].
  destruct (len full >? max_chars).
  - rewrite truthy_note.
    destruct (slice_to full max_chars); by eexists _, _.
  - destruct full; by eexists _, _.
Qed.

Lemma replace_nn_step (c c' : N) (rest : str) :
  replace_nn (c :: c' :: rest) =
  if ((c =? 10) && (c' =? 10))%N then 10%N :: replace_nn rest
  else c :: replace_nn (c' :: rest).
Proof. reflexivity. Qed.

Lemma contains_nn_step (c c' : N) (rest : str) :
  contains [10; 10]%N (c :: c' :: rest) =
  ((c =? 10) && (c' =? 10))%N || contains [10; 10]%N (c' :: rest).
Proof.
  change (contains [10; 10]%N (c :: c' :: rest))
    with (((10 =? c) && ((10 =? c') && true))%N ||
          contains [10; 10]%N (c' :: rest)).
  by rewrite (N.eqb_sym 10 c), (N.eqb_sym 10 c'), andb_true_r.
Qed.

Lemma replace_nn_facts (n : nat) :
  forall s : str, (length s <= n)%nat ->
    (length (replace_nn s) <= length s)%nat /\
    (contains [10; 10]%N s = false -> replace_nn s = s) /\
    (contains [10; 10]%N s = true ->
       (length (replace_nn s) < length s)%nat).
Proof.
  induction n as [|n IH]; intros s Hlen.
  - destruct s; [|simpl in Hlen; lia]. by repeat split.
  - destruct s as [|c [|c' rest]]; [by repeat split| |].
    { simpl. rewrite andb_false_r. repeat split; [lia|discriminate]. }
    rewrite replace_nn_step, contains_nn_step.
    destruct (IH rest) as (Hr1 & _ & _); [simpl in *; lia|].
    destruct (IH (c' :: rest)) as (Ht1 & Ht2 & Ht3); [simpl in *; lia|].
    destruct ((c =? 10)%N && (c' =? 10)%N) eqn:Hnn; cbn [orb].
    + split; [simpl; lia|]. split; [discriminate|]. intros _. simpl. lia.
    + split; [simpl in *; lia|]. split.
      * intros Hc. by rewrite Ht2.
      * intros Hc. specialize (Ht3 Hc). simpl in *. lia.
Qed.

(** X8. Replacing the double newlines of a page's text leaves a text without
    double newline as it is, and makes any other text strictly shorter. *)
Theorem replace_nn_shortens (s : str) :
  (contains [10; 10]%N s = false -> replace_nn s = s) /\
  (contains [10; 10]%N s = true -> (length (replace_nn s) < length s)%nat).
Proof.
  destruct (replace_nn_facts (length s) s) as (_ & H1 & H2); [lia|]. by split.
Qed.

Lemma replace_nn_shortens_witness :
  contains [10; 10]%N (py "a" ++ [10; 10; 10]%N ++ py "b") = true /\
  (length (replace_nn (py "a" ++ [10; 10; 10]%N ++ py "b")) < 5)%nat.
Proof.
  split; [reflexivity|].
  apply (proj2 (replace_nn_shortens (py "a" ++ [10; 10; 10]%N ++ py "b"))).
  reflexivity.
Defined.

End ReportEdges.

(** ** A run seen through the API *)

Section RunSeen.

Import System MainAsync.

Lemma set_completed_id now r :
  AnalysisRequest.request_id (Worker.set_completed now r) =
  AnalysisRequest.request_id r.
Proof. reflexivity. Qed.

Lemma set_failed_id msg now r :
  AnalysisRequest.request_id (Worker.set_failed msg now r) =
  AnalysisRequest.request_id r.
Proof. reflexivity. Qed.





(** X10. A run whose work unit raises, on a job that has a row, raises the
    same error again and leaves the error readable:
    [get_analysis_result] answers 500 with the message, and
    [get_analysis_status] reports failed with the message as [error]; no row
    is added to [analysis_results]. *)
Theorem run_then_get_error (integrity_error : str) (crew : Worker.Crew)
    (j : Worker.Job) (t0 t1 : Z) (d : DB) (r : AnalysisRequest.t) (e : str) :
  query_request (Worker.request_id j) d = Some r ->
  crew 0%nat (Worker.mkInputs (Worker.query j) (Worker.file_path j) None) =
    Raised e ->
  let run :=
    Worker.process_financial_document integrity_error crew j t0 t1 d in
  snd (fst run) = Raised e /\
  analysis_results (fst (fst run)) = analysis_results d /\
  fst (get_analysis_result (Worker.request_id j) (fst (fst run))) =
    Raise (HTTPException 500 (py "Analysis failed: " ++ e)) /\
  exists st,
    fst (get_analysis_status (Worker.request_id j) (fst (fst run))) =
      Return st /\
    st_status st = py "failed" /\
    st_error st = Some (Some e) /\
    st_started_at st = Some t0 /\
    st_completed_at st = Some t1.
Proof.
  intros Hr He run. unfold run.
  rewrite (worker_fails_at_once integrity_error crew j t0 t1 d r e Hr He).
  cbn [fst snd]. split; [reflexivity|]. split; [reflexivity|].
  assert (Hq : query_request (Worker.request_id j)
                 (update_request (Worker.request_id j)
                    (Worker.set_failed e t1)
                    (update_request (Worker.request_id j)
                       (Worker.set_processing t0) d)) =
               Some (Worker.set_failed e t1 (Worker.set_processing t0 r))).
  { rewrite query_request_update by apply set_failed_id.
    rewrite query_request_update by apply set_processing_id.
    by rewrite Hr. }
  split.
  - unfold get_analysis_result. cbn [fst]. by rewrite Hq.
  - unfold get_analysis_status. cbn [fst]. rewrite Hq.
    eexists. split; [reflexivity|]. by repeat split.
Qed.

Lemma run_then_get_error_witness :
  fst (get_analysis_result (py "job-1") (db (stores Sample.errored))) =
  Raise (HTTPException 500 (py "Analysis failed: boom")).
Proof.
  apply (run_then_get_error Sample.integrity_error
           (fun _ _ => Raised (py "boom")) Sample.job1 110 170
           (db (stores Sample.submitted))
           (AnalysisRequest.mk (py "job-1") (py "report.pdf") 4
              (py "revenue trend") pending 100 None None None)
           (py "boom") eq_refl eq_refl).
Defined.

End RunSeen.

(** ** What a run touches *)

Section RunTouches.

Import System MainAsync.

Lemma results_of_app k d res :
  AnalysisResult.request_id res <> k ->
  results_of k (mkDB (analysis_requests d) (analysis_results d ++ [res])) =
  results_of k d.
Proof.
  intros Hne. unfold results_of. simpl. rewrite List.filter_app. simpl.
  rewrite bool_decide_eq_false_2 by done. by rewrite app_nil_r.
Qed.

Lemma query_result_app k d res :
  AnalysisResult.request_id res <> k ->
  query_result k (mkDB (analysis_requests d) (analysis_results d ++ [res])) =
  query_result k d.
Proof.
  intros Hne. unfold query_result. simpl.
  pose proof (find_key_app AnalysisResult.request_id k (analysis_results d) res)
    as Happ.
  unfold has_key in Happ. rewrite Happ.
  rewrite bool_decide_eq_false_2 by done.
  by destruct (find _ (analysis_results d)).
Qed.

(** The three views of the stores for the request [k]. *)
Local Abbreviation same_for k d' d :=
  (query_request k d' = query_request k d /\
   query_result k d' = query_result k d /\
   results_of k d' = results_of k d).

Lemma update_request_other k id f d :
  (forall x, AnalysisRequest.request_id (f x) = AnalysisRequest.request_id x) ->
  k <> id -> same_for k (update_request id f d) d.
Proof.
  intros Hf Hne. split; [|by split].
  apply query_request_update_other; [exact Hf | congruence].
Qed.

Lemma on_exception_other k fr msg now d :
  k <> Worker.request_id (Worker.job fr) ->
  same_for k (fst (Worker.on_exception fr msg now d)) d.
Proof.
  intros Hne. unfold Worker.on_exception. cbn [fst].
  destruct (Worker.request fr); [|done].
  apply update_request_other; [apply set_failed_id | exact Hne].
Qed.

Lemma finish_other k integrity_error fr outcome now d :
  k <> Worker.request_id (Worker.job fr) ->
  same_for k (fst (Worker.finish integrity_error fr outcome now d)) d.
Proof.
  intros Hne. unfold Worker.finish.
  destruct outcome as [result|msg]; [|by apply on_exception_other].
  destruct (insert_result _ d) as [d'|] eqn:Hins;
    [|by apply on_exception_other].
  unfold insert_result in Hins. destruct (query_result _ d); [discriminate|].
  injection Hins as <-. cbn [fst].
  assert (Hd' : same_for k
            (mkDB (analysis_requests d)
               (analysis_results d ++
                  [AnalysisResult.mk (Worker.request_id (Worker.job fr))
                     result (now - Worker.start_time fr) now])) d).
  { split; [done|]. split.
    - apply query_result_app. simpl. congruence.
    - apply results_of_app. simpl. congruence. }
  destruct (Worker.request fr); [|exact Hd'].
  destruct Hd' as (H1 & H2 & H3).
  destruct (update_request_other k (Worker.request_id (Worker.job fr))
              (Worker.set_completed now)
              (mkDB (analysis_requests d)
                 (analysis_results d ++
                    [AnalysisResult.mk (Worker.request_id (Worker.job fr))
                       result (now - Worker.start_time fr) now]))
              (set_completed_id now) Hne) as (G1 & G2 & G3).
  split; [congruence|]. split; congruence.
Qed.

Lemma pickup_other k j now d :
  k <> Worker.request_id j -> same_for k (fst (Worker.pickup j now d)) d.
Proof.
  intros Hne. unfold Worker.pickup.
  destruct (query_request (Worker.request_id j) d); [|done]. cbn [fst].
  apply update_request_other; [apply set_processing_id | exact Hne].
Qed.

Lemma pickup_job j now d : Worker.job (snd (Worker.pickup j now d)) = j.
Proof.
  unfold Worker.pickup. by destruct (query_request (Worker.request_id j) d).
Qed.

(** X11. A run reads and writes the stores for its own [request_id] only:
    for every other request the row and the results are after the run what
    they were before, whatever the work unit does. *)
Theorem run_leaves_other_requests (integrity_error : str)
    (crew : Worker.Crew) (j : Worker.Job) (t0 t1 : Z) (d : DB) (k : str) :
  k <> Worker.request_id j ->
  let d' :=
    fst (fst (Worker.process_financial_document integrity_error crew j
                t0 t1 d)) in
  query_request k d' = query_request k d /\
  query_result k d' = query_result k d /\
  results_of k d' = results_of k d.
Proof.
  intros Hne d'. unfold d', Worker.process_financial_document.
  pose proof (pickup_other k j t0 d Hne) as (P1 & P2 & P3).
  pose proof (pickup_job j t0 d) as Hjob.
  destruct (Worker.pickup j t0 d) as [d1 fr]. cbn [fst snd] in *.
  pose proof (finish_other k integrity_error fr
                (crew 0%nat
                   (Worker.mkInputs (Worker.query j) (Worker.file_path j) None))
                t1 d1) as Hfin.
  destruct (Worker.finish _ _ _ _ _) as [d2 out]. cbn [fst] in *.
  destruct Hfin as (F1 & F2 & F3); [by rewrite Hjob|].
  split; [congruence|]. split; congruence.
Qed.

Lemma run_leaves_other_requests_witness :
  py "job-1" <> Worker.request_id Sample.job2 /\
  query_request (py "job-1")
    (fst (fst (Worker.process_financial_document Sample.integrity_error
                 (Sample.flaky 0) Sample.job2 200 260
                 (db (stores Sample.finished))))) =
  query_request (py "job-1") (db (stores Sample.finished)).
Proof.
  assert (H : py "job-1" <> Worker.request_id Sample.job2) by discriminate.
  split; [exact H|].
  apply (run_leaves_other_requests Sample.integrity_error (Sample.flaky 0)
           Sample.job2 200 260 (db (stores Sample.finished)) (py "job-1") H).
Defined.



End RunTouches.

(** ** What a submission leaves *)

Section SubmissionEdges.

Import System MainAsync.

Lemma query_request_app_old k d r x :
  query_request k d = Some r ->
  query_request k (mkDB (analysis_requests d ++ [x]) (analysis_results d)) =
  Some r.
Proof.
  intros Hr. unfold query_request in *. simpl.
  pose proof (find_key_app AnalysisRequest.request_id k (analysis_requests d) x)
    as Happ.
  unfold has_key in Happ. by rewrite Happ, Hr.
Qed.

(** X13. A submission only appends: whatever it answers, the rows of
    [analysis_results] are untouched, every request that could be read can
    still be read with the same row, and the stores gain at most one row,
    pending and with the generated id, and at most one job, with that
    id. *)
Theorem submit_only_appends (QUEUE_AVAILABLE : bool) (integrity_error : str)
    (file : UploadFile) (query : option str) (env : Env) (s : Stores) :
  let s' :=
    snd (analyze_document_async QUEUE_AVAILABLE integrity_error file query
           env s) in
  analysis_results (db s') = analysis_results (db s) /\
  (forall k r, query_request k (db s) = Some r ->
               query_request k (db s') = Some r) /\
  (analysis_requests (db s') = analysis_requests (db s) \/
   exists r, analysis_requests (db s') = analysis_requests (db s) ++ [r] /\
             AnalysisRequest.request_id r = uuid4 env /\
             AnalysisRequest.status r = pending) /\
  (task_queue s' = task_queue s \/
   exists j, task_queue s' = task_queue s ++ [j] /\
             Worker.request_id j = uuid4 env).
Proof.
  intros s'. unfold s', analyze_document_async.
  destruct QUEUE_AVAILABLE; cbn [negb]; [|by repeat split; try left].
  destruct (endswith _ _); cbn [negb]; [|by repeat split; try left].
  destruct (_ =? 0); [by repeat split; try left|].
  unfold insert_request. cbn [AnalysisRequest.request_id].
  destruct (query_request (uuid4 env) (db s)) eqn:Hq;
    [by repeat split; try left|].
  destruct (enqueue env); cbn [snd db task_queue analysis_results
                               analysis_requests].
  - split; [done|]. split; [intros k r; apply query_request_app_old|].
    split; right; eexists; by repeat split.
  - split; [done|]. split; [intros k r; apply query_request_app_old|].
    split; [right; eexists; by repeat split | by left].
Qed.

Lemma submit_only_appends_witness :
  query_request (py "job-1") (db (stores Sample.submitted)) =
    Some (AnalysisRequest.mk (py "job-1") (py "report.pdf") 4
            (py "revenue trend") pending 100 None None None) /\
  query_request (py "job-1")
    (db (snd (analyze_document_async true Sample.integrity_error Sample.report
                None (mkEnv (py "job-2") 120 (Returned tt))
                (stores Sample.submitted)))) =
    Some (AnalysisRequest.mk (py "job-1") (py "report.pdf") 4
            (py "revenue trend") pending 100 None None None).
Proof.
  split; [reflexivity|].
  apply (submit_only_appends true Sample.integrity_error Sample.report None
           (mkEnv (py "job-2") 120 (Returned tt)) (stores Sample.submitted)).
  reflexivity.
Defined.

(** X14. A submission whose generated id is already the id of a row is
    answered 500 with the database's message, and changes nothing: the row
    that has the id stays as it is and no job is enqueued. *)
Theorem submit_duplicate_id (integrity_error : str) (file : UploadFile)
    (query : option str) (env : Env) (s : Stores) (r : AnalysisRequest.t) :
  endswith (filename file) (py ".pdf") = true ->
  content file <> [] ->
  query_request (uuid4 env) (db s) = Some r ->
  analyze_document_async true integrity_error file query env s =
  (Raise (HTTPException 500
            (py "Error submitting document for analysis: " ++ integrity_error)),
   s).
Proof.
  intros Hpdf Hc Hr. unfold analyze_document_async. rewrite Hpdf. cbn [negb].
  destruct (content file) as [|b bs] eqn:E; [done|].
  replace (Z.of_nat (length (b :: bs)) =? 0) with false
    by (symmetry; apply Z.eqb_neq; simpl; lia).
  unfold insert_request. cbn [AnalysisRequest.request_id]. by rewrite Hr.
Qed.

Lemma submit_duplicate_id_witness :
  snd (analyze_document_async true Sample.integrity_error Sample.report
         (Some (py "other")) Sample.env1 (stores Sample.submitted)) =
  stores Sample.submitted.
Proof.
  rewrite (submit_duplicate_id Sample.integrity_error Sample.report
             (Some (py "other")) Sample.env1 (stores Sample.submitted)
             (AnalysisRequest.mk (py "job-1") (py "report.pdf") 4
                (py "revenue trend") pending 100 None None None)).
  - reflexivity.
  - reflexivity.
  - discriminate.
  - reflexivity.
Defined.

(** X15. When [task_queue.enqueue] raises, the submission is answered 500
    with the message, but the row committed just before stays: the request
    can be read, pending, although no job is in the queue and no id was
    returned. *)
Theorem submit_enqueue_failure (integrity_error : str) (file : UploadFile)
    (query : option str) (env : Env) (s : Stores) (msg : str) :
  endswith (filename file) (py ".pdf") = true ->
  content file <> [] ->
  uuid4 env ∉ request_ids (db s) ->
  enqueue env = Raised msg ->
  let answer :=
    analyze_document_async true integrity_error file query env s in
  fst answer =
    Raise (HTTPException 500
             (py "Error submitting document for analysis: " ++ msg)) /\
  task_queue (snd answer) = task_queue s /\
  exists st,
    fst (get_analysis_status (uuid4 env) (db (snd answer))) = Return st /\
    st_status st = py "pending" /\
    st_query st = clean_query (form_query query).
Proof.
  intros Hpdf Hc Hfresh Hq answer. unfold answer, analyze_document_async.
  rewrite Hpdf. cbn [negb].
  destruct (content file) as [|b bs] eqn:E; [done|].
  replace (Z.of_nat (length (b :: bs)) =? 0) with false
    by (symmetry; apply Z.eqb_neq; simpl; lia).
  apply query_request_None in Hfresh.
  unfold insert_request. cbn [AnalysisRequest.request_id].
  rewrite Hfresh, Hq. cbn [fst snd task_queue db].
  split; [reflexivity|]. split; [reflexivity|].
  unfold get_analysis_status. cbn [fst].
  match goal with
  | |- context [query_request _ (mkDB (_ ++ [?r]) _)] =>
      pose proof (query_request_new (db s) r Hfresh) as Hnew
  end.
  cbn [AnalysisRequest.request_id] in Hnew. rewrite Hnew.
  eexists. split; [reflexivity|]. by split.
Qed.

Lemma submit_enqueue_failure_witness :
  fst (analyze_document_async true Sample.integrity_error Sample.report None
         (mkEnv (py "job-3") 130 (Raised (py "Connection refused")))
         (stores initial)) =
  Raise (HTTPException 500
           (py "Error submitting document for analysis: Connection refused")).
Proof.
  apply (submit_enqueue_failure Sample.integrity_error Sample.report None
           (mkEnv (py "job-3") 130 (Raised (py "Connection refused")))
           (stores initial) (py "Connection refused")).
  - reflexivity.
  - discriminate.
  - intros H. inversion H.
  - reflexivity.
Defined.

(** X16. [/analyze/async] answers 503 exactly when [/health] reports that
    background processing is not available. *)
Theorem unavailable_iff_health (QUEUE_AVAILABLE : bool)
    (integrity_error : str) (file : UploadFile) (query : option str)
    (env : Env) (s : Stores) :
  (exists detail,
     fst (analyze_document_async QUEUE_AVAILABLE integrity_error file query
            env s) = Raise (HTTPException 503 detail)) <->
  Health.background_processing
    (Health.features (Health.health_check QUEUE_AVAILABLE)) = false.
Proof.
  cbn [Health.health_check Health.features Health.background_processing].
  unfold analyze_document_async. destruct QUEUE_AVAILABLE; cbn [negb].
  - split; [|discriminate]. intros [detail H]. exfalso. revert H.
    destruct (endswith _ _); cbn [negb]; [|discriminate].
    destruct (_ =? 0); [discriminate|].
    destruct (insert_request _ _); [|discriminate].
    destruct (enqueue env); discriminate.
  - split; [done|]. intros _. by eexists.
Qed.

End SubmissionEdges.

(** ** The two GET endpoints together *)

Section StatusAndResult.

Import System MainAsync.

(** X17. In every reachable state the two GET endpoints agree on a request:
    both answer 404 or neither does; the status carries [result_endpoint]
    exactly when the result endpoint returns the result, [error] exactly
    when it answers 500, and neither exactly when it answers 202. *)
Theorem status_and_result_agree (QUEUE_AVAILABLE : bool)
    (integrity_error : str) (s : State) (request_id : str) :
  reachable QUEUE_AVAILABLE integrity_error s ->
  let d := db (stores s) in
  let result := fst (get_analysis_result request_id d) in
  match fst (get_analysis_status request_id d) with
  | Raise e => e = not_found /\ result = Raise not_found
  | Return st =>
      (is_Some (st_result_endpoint st) <-> exists res, result = Return res) /\
      (is_Some (st_error st) <->
         exists detail, result = Raise (HTTPException 500 detail)) /\
      (st_result_endpoint st = None /\ st_error st = None <->
         exists detail, result = Raise (HTTPException 202 detail))
  end.
Proof.
  intros Hreach d result.
  apply reachable_invariant in Hreach as [I1 I2 I3 _ _ _ _ I8].
  fold d in I1, I2, I3, I8.
  unfold result, get_analysis_status, get_analysis_result. cbn [fst].
  destruct (query_request request_id d) as [request|] eqn:Hq; [|done].
  apply query_request_Some in Hq as [Hin Hid].
  destruct (I8 request Hin) as (_ & Hc & _).
  destruct (AnalysisRequest.status request) eqn:Hst; cbn [bool_decide];
    rewrite ?bool_decide_eq_true_2, ?bool_decide_eq_false_2 by done.
  - (* pending *)
    split; [split; [intros [? [=]]|intros [? [=]]]|].
    split; [split; [intros [? [=]]|intros [? [=]]]|].
    split; [by eexists | done].
  - (* processing *)
    split; [split; [intros [? [=]]|intros [? [=]]]|].
    split; [split; [intros [? [=]]|intros [? [=]]]|].
    split; [by eexists | done].
  - (* completed *)
    assert (Hres : request_id ∈ result_ids d).
    { apply I3. by exists request. }
    destruct (results_of_one _ _ I2 Hres) as [res Hone].
    rewrite (results_of_query _ _ _ Hone).
    destruct Hc as [_ Hc]. destruct Hc as [t Ht]; [by left|]. rewrite Ht.
    split; [split; [by eexists | by eexists]|].
    split; [split; [intros [? [=]]|intros [? [=]]]|].
    split; [intros [[=] _] | intros [? [=]]].
  - (* failed *)
    split; [split; [intros [? [=]]|intros [? [=]]]|].
    split; [split; [by eexists | by eexists]|].
    split; [intros [_ [=]] | intros [? [=]]].
Qed.

Lemma status_and_result_agree_witness :
  reachable true Sample.integrity_error Sample.finished /\
  exists res,
    fst (get_analysis_result (py "job-1") (db (stores Sample.finished))) =
    Return res.
Proof.
  split; [apply finished_reachable|].
  pose proof (status_and_result_agree true Sample.integrity_error
                Sample.finished (py "job-1") finished_reachable) as H.
  cbv zeta in H.
  change (fst (get_analysis_status (py "job-1") (db (stores Sample.finished))))
    with (@Return StatusResponse
            (mkStatus (py "job-1") (py "completed") (py "report.pdf")
               (py "revenue trend") 100 (Some 110) (Some 170) None
               (Some (py "/analyze/result/job-1")))) in H.
  destruct H as [[H _] _]. apply H. by eexists.
Defined.

End StatusAndResult.

(** ** Rows over the runs of the system *)

Section RowsOverRuns.

Import System MainAsync Runs.

Variable QUEUE_AVAILABLE : bool.
Variable integrity_error : str.

Local Abbreviation step := (step QUEUE_AVAILABLE integrity_error).
Local Abbreviation reachable := (reachable QUEUE_AVAILABLE integrity_error).
Local Abbreviation later := (later QUEUE_AVAILABLE integrity_error).

Lemma reachable_later s s' : reachable s -> later s s' -> reachable s'.
Proof.
  intros Hs. induction 1 as [|s s' s'' _ IH Hstep]; [done|].
  eapply reachable_step; [by apply IH | exact Hstep].
Qed.

(** The stores a submission leaves: those it found, or those with one more
    row, pending and under a fresh id, and perhaps the job of that row. *)
Lemma submit_cases file query env s :
  let s' :=
    snd (analyze_document_async QUEUE_AVAILABLE integrity_error file query
           env s) in
  s' = s \/
  exists r j,
    (uuid4 env ∉ request_ids (db s)) /\
    AnalysisRequest.status r = pending /\
    job_of_row j r /\ Worker.request_id j = uuid4 env /\
    (s' = mkStores (mkDB (analysis_requests (db s) ++ [r])
                         (analysis_results (db s))) (task_queue s) \/
     s' = mkStores (mkDB (analysis_requests (db s) ++ [r])
                         (analysis_results (db s))) (task_queue s ++ [j])).
Proof.
  intros s'. unfold s', analyze_document_async. destruct s as [d q].
  destruct QUEUE_AVAILABLE; cbn [negb]; [|by left].
  destruct (endswith _ _); cbn [negb]; [|by left].
  destruct (_ =? 0); [by left|].
  unfold insert_request. cbn [AnalysisRequest.request_id db task_queue].
  destruct (query_request (uuid4 env) d) eqn:Hq; [by left|].
  apply query_request_None in Hq. right.
  exists (AnalysisRequest.mk (uuid4 env) (filename file)
            (Z.of_nat (length (content file)))
            (clean_query (form_query query)) pending (utcnow env)
            None None None),
         (Worker.mkJob (uuid4 env) (py "data/queue_" ++ uuid4 env ++ py ".pdf")
            (clean_query (form_query query)) (filename file)
            (Z.of_nat (length (content file)))).
  split; [exact Hq|]. split; [reflexivity|].
  split; [by repeat split|]. split; [reflexivity|].
  destruct (enqueue env); cbn [snd]; [by right | by left].
Qed.

Lemma elem_of_update_other k f d r :
  r ∈ analysis_requests d -> AnalysisRequest.request_id r <> k ->
  r ∈ analysis_requests (update_request k f d).
Proof.
  intros Hr Hne. apply elem_of_update. exists r.
  by rewrite bool_decide_eq_false_2.
Qed.

Lemma pickup_rows j now d r :
  r ∈ analysis_requests d ->
  AnalysisRequest.request_id r <> Worker.request_id j ->
  r ∈ analysis_requests (fst (Worker.pickup j now d)).
Proof.
  intros Hr Hne. unfold Worker.pickup.
  destruct (query_request _ d); [|done]. cbn [fst].
  by apply elem_of_update_other.
Qed.

Lemma finish_rows fr outcome now d r :
  r ∈ analysis_requests d ->
  AnalysisRequest.request_id r <> Worker.request_id (Worker.job fr) ->
  r ∈ analysis_requests
        (fst (Worker.finish integrity_error fr outcome now d)).
Proof.
  intros Hr Hne.
  assert (Hexc : forall msg,
            r ∈ analysis_requests (fst (Worker.on_exception fr msg now d))).
  { intros msg. unfold Worker.on_exception. cbn [fst].
    destruct (Worker.request fr); [|done]. by apply elem_of_update_other. }
  unfold Worker.finish. destruct outcome as [result|msg]; [|apply Hexc].
  destruct (insert_result _ d) as [d'|] eqn:Hins; [|apply Hexc].
  unfold insert_result in Hins. destruct (query_result _ d); [discriminate|].
  injection Hins as <-. cbn [fst].
  destruct (Worker.request fr); [|done]. by apply elem_of_update_other.
Qed.

Lemma finish_results fr outcome now d res :
  res ∈ analysis_results d ->
  res ∈ analysis_results
          (fst (Worker.finish integrity_error fr outcome now d)).
Proof.
  intros Hres.
  assert (Hexc : forall msg,
            res ∈ analysis_results (fst (Worker.on_exception fr msg now d))).
  { intros msg. unfold Worker.on_exception. cbn [fst].
    by destruct (Worker.request fr). }
  unfold Worker.finish. destruct outcome as [result|msg]; [|apply Hexc].
  destruct (insert_result _ d) as [d'|] eqn:Hins; [|apply Hexc].
  unfold insert_result in Hins. destruct (query_result _ d); [discriminate|].
  injection Hins as <-. cbn [fst].
  assert (res ∈ analysis_results d ++
                 [AnalysisResult.mk (Worker.request_id (Worker.job fr)) result
                    (now - Worker.start_time fr) now])
    by (apply elem_of_app; by left).
  by destruct (Worker.request fr).
Qed.

(** A request is idle when no job of its id is queued or being run. *)
Local Abbreviation idle s r :=
  (r ∈ analysis_requests (db (stores s)) /\
   (AnalysisRequest.request_id r ∉ queued_ids s) /\
   (AnalysisRequest.request_id r ∉ running_ids s)).

Lemma idle_step s s' r : step s s' -> idle s r -> idle s' r.
Proof.
  intros Hstep (Hr & Hq & Hrun).
  destruct Hstep as [file query env s|j q now s Hqueue
                    |fr before after outcome now s Hrunning];
    unfold queued_ids, running_ids in *; cbn [stores db task_queue running] in *.
  - destruct (submit_cases file query env (stores s))
      as [->|(r0 & j & Hfresh & _ & _ & Hj & [->| ->])];
      cbn [db task_queue analysis_requests].
    + done.
    + split; [apply elem_of_app; by left|]. by split.
    + split; [apply elem_of_app; by left|]. split; [|done].
      rewrite map_app, elem_of_app. intros [H|H]; [done|].
      simpl in H. apply list_elem_of_singleton in H. apply Hfresh.
      rewrite <- Hj, <- H.
      by apply (list_elem_of_fmap_2 AnalysisRequest.request_id).
  - rewrite Hqueue in Hq. simpl in Hq. apply not_elem_of_cons in Hq as [Hne Hq].
    split; [by apply pickup_rows|]. split; [exact Hq|].
    simpl. rewrite pickup_job. apply not_elem_of_cons. by split.
  - rewrite Hrunning, map_app, elem_of_app in Hrun. simpl in Hrun.
    assert (Hne : AnalysisRequest.request_id r <>
                  Worker.request_id (Worker.job fr)).
    { intros E. apply Hrun. right. rewrite E. left. }
    split; [by apply finish_rows|]. split; [exact Hq|].
    rewrite map_app, elem_of_app. intros [H|H]; apply Hrun; [by left|].
    right. by right.
Qed.

Lemma idle_later s s' r : later s s' -> idle s r -> idle s' r.
Proof.
  induction 1 as [|s s' s'' _ IH Hstep]; [done|].
  intros Hidle. eapply idle_step; [exact Hstep | by apply IH].
Qed.

Lemma results_later s s' res :
  later s s' ->
  res ∈ analysis_results (db (stores s)) ->
  res ∈ analysis_results (db (stores s')).
Proof.
  induction 1 as [|s s' s'' _ IH Hstep]; [done|]. intros Hres.
  specialize (IH Hres).
  destruct Hstep as [file query env s'|j q now s' Hqueue
                    |fr before after outcome now s' Hrunning];
    cbn [stores db].
  - destruct (submit_cases file query env (stores s'))
      as [->|(r0 & j & _ & _ & _ & _ & [->| ->])]; done.
  - unfold Worker.pickup. by destruct (query_request _ _).
  - by apply finish_results.
Qed.

(** The row of a completed or failed request is idle. *)
Lemma terminal_idle s r :
  invariant s ->
  r ∈ analysis_requests (db (stores s)) ->
  AnalysisRequest.status r = completed \/ AnalysisRequest.status r = failed ->
  idle s r.
Proof.
  intros [I1 _ _ I4 _ I6 _ _] Hr Hst. split; [exact Hr|].
  assert (Hhas : has_status (db (stores s)) (AnalysisRequest.request_id r)
                            (AnalysisRequest.status r)) by (by exists r).
  split; intros Hin.
  - apply (list_elem_of_fmap_1 Worker.request_id) in Hin as (j & Hj & Hin).
    pose proof (I4 j Hin) as Hp. rewrite <- Hj in Hp.
    pose proof (has_status_unique _ _ _ _ I1 Hhas Hp) as E.
    destruct Hst as [H|H]; congruence.
  - apply (list_elem_of_fmap_1
             (fun fr => Worker.request_id (Worker.job fr))) in Hin
      as (fr & Hj & Hin).
    destruct (I6 fr Hin) as [_ Hp]. rewrite <- Hj in Hp.
    pose proof (has_status_unique _ _ _ _ I1 Hhas Hp) as E.
    destruct Hst as [H|H]; congruence.
Qed.

(** X18. Once [get_analysis_result] has returned a result for a request, or
    answered 500 for it, it gives the same answer in every later state of the
    system: the rows of completed and failed requests and the rows of
    [analysis_results] are never changed or removed. *)
Theorem result_is_final (s s' : State) (request_id : str)
    (answer : result ResultResponse) :
  reachable s ->
  later s s' ->
  fst (get_analysis_result request_id (db (stores s))) = answer ->
  (exists res, answer = Return res) \/
  (exists detail, answer = Raise (HTTPException 500 detail)) ->
  fst (get_analysis_result request_id (db (stores s'))) = answer.
Proof.
  intros Hreach Hlater Hanswer Hkind.
  pose proof (reachable_invariant _ _ _ Hreach) as Hinv.
  pose proof (reachable_invariant _ _ _ (reachable_later _ _ Hreach Hlater))
    as [I1' I2' _ _ _ _ _ _].
  unfold get_analysis_result in *. cbn [fst] in *.
  destruct (query_request request_id (db (stores s))) as [r|] eqn:Hq.
  2:{ subst answer. destruct Hkind as [[? [=]]|[? [=]]]. }
  apply query_request_Some in Hq as [Hr Hid].
  assert (Hterm : AnalysisRequest.status r = completed \/
                  AnalysisRequest.status r = failed).
  { destruct (AnalysisRequest.status r); subst answer;
      [destruct Hkind as [[? [=]]|[? [=]]]
      |destruct Hkind as [[? [=]]|[? [=]]]
      |by left|by right]. }
  destruct (idle_later s s' r Hlater (terminal_idle s r Hinv Hr Hterm))
    as [Hr' _].
  rewrite <- Hid, (query_request_unique _ _ I1' Hr'), Hid.
  destruct (AnalysisRequest.status r); try exact Hanswer.
  destruct (query_result request_id (db (stores s))) as [res|] eqn:Hres.
  2:{ subst answer. destruct Hkind as [[? [=]]|[? [=]]]. }
  apply query_result_Some in Hres as [Hin Hrid].
  pose proof (results_later s s' res Hlater Hin) as Hin'.
  assert (Hres' : query_result request_id (db (stores s')) = Some res).
  { rewrite <- Hrid.
    exact (find_key_NoDup AnalysisResult.request_id _ res I2' Hin'). }
  rewrite Hres'. exact Hanswer.
Qed.

(** X19. A request that has no job in the queue and none being run keeps
    its row: [get_analysis_status] gives the same answer for it in every later
    state. This holds for completed and failed requests, and for a pending
    request whose job could not be enqueued, which stays pending. *)
Theorem idle_request_keeps_status (s s' : State) (r : AnalysisRequest.t) :
  reachable s ->
  later s s' ->
  r ∈ analysis_requests (db (stores s)) ->
  AnalysisRequest.request_id r ∉ queued_ids s ->
  AnalysisRequest.request_id r ∉ running_ids s ->
  fst (get_analysis_status (AnalysisRequest.request_id r) (db (stores s'))) =
  fst (get_analysis_status (AnalysisRequest.request_id r) (db (stores s))).
Proof.
  intros Hreach Hlater Hr Hq Hrun.
  pose proof (reachable_invariant _ _ _ Hreach) as [I1 _ _ _ _ _ _ _].
  pose proof (reachable_invariant _ _ _ (reachable_later _ _ Hreach Hlater))
    as [I1' _ _ _ _ _ _ _].
  destruct (idle_later s s' r Hlater) as [Hr' _]; [by repeat split|].
  unfold get_analysis_status. cbn [fst].
  by rewrite (query_request_unique _ _ I1 Hr), (query_request_unique _ _ I1' Hr').
Qed.

(** X20. In every reachable state a request id stands at most once among
    the queued jobs and the jobs being run: no job is queued twice, run
    twice at a time, or queued while it is run. *)
Theorem one_run_per_job (s : State) :
  reachable s -> NoDup (queued_ids s ++ running_ids s).
Proof.
  intros Hreach.
  apply reachable_invariant in Hreach as [I1 _ _ I4 I5 I6 I7 _].
  apply NoDup_app. split; [exact I5|]. split; [|exact I7].
  intros x Hq Hrun.
  apply (list_elem_of_fmap_1 Worker.request_id) in Hq as (j & -> & Hj).
  apply (list_elem_of_fmap_1
           (fun fr => Worker.request_id (Worker.job fr))) in Hrun
    as (fr & Hid & Hfr).
  destruct (I6 fr Hfr) as [_ Hp]. rewrite <- Hid in Hp.
  by pose proof (has_status_unique _ _ _ _ I1 (I4 j Hj) Hp).
Qed.

(** X21. In every reachable state no two rows of [analysis_requests] have
    the same [request_id], no two rows of [analysis_results] either, so
    the query by [request_id] finds every row there is. *)
Theorem request_id_is_a_key (s : State) :
  reachable s ->
  let d := db (stores s) in
  NoDup (request_ids d) /\
  NoDup (result_ids d) /\
  (forall r, r ∈ analysis_requests d ->
             query_request (AnalysisRequest.request_id r) d = Some r) /\
  (forall res, res ∈ analysis_results d ->
               query_result (AnalysisResult.request_id res) d = Some res).
Proof.
  intros Hreach d.
  apply reachable_invariant in Hreach as [I1 I2 _ _ _ _ _ _]. fold d in I1, I2.
  repeat split; [exact I1 | exact I2 | |].
  - intros r Hr. by apply query_request_unique.
  - intros res Hres.
    exact (find_key_NoDup AnalysisResult.request_id _ res I2 Hres).
Qed.

(** The columns written at submission, kept from one database to another. *)
Local Abbreviation columns_kept d d' :=
  (forall j r, r ∈ analysis_requests d -> job_of_row j r ->
               exists r', r' ∈ analysis_requests d' /\ job_of_row j r').

Lemma columns_kept_update k f d :
  (forall x, AnalysisRequest.request_id (f x) = AnalysisRequest.request_id x) ->
  (forall x, AnalysisRequest.query (f x) = AnalysisRequest.query x) ->
  (forall x, AnalysisRequest.filename (f x) = AnalysisRequest.filename x) ->
  (forall x, AnalysisRequest.file_size_bytes (f x) =
             AnalysisRequest.file_size_bytes x) ->
  columns_kept d (update_request k f d).
Proof.
  intros H1 H2 H3 H4 j r Hr (J1 & J2 & J3 & J4 & J5).
  exists (if bool_decide (AnalysisRequest.request_id r = k) then f r else r).
  split; [apply elem_of_update; by exists r|].
  case_bool_decide; [|by repeat split].
  unfold job_of_row. by rewrite H1, H2, H3, H4.
Qed.

Lemma columns_kept_pickup j now d :
  columns_kept d (fst (Worker.pickup j now d)).
Proof.
  unfold Worker.pickup. destruct (query_request _ d); cbn [fst]; [|by eauto].
  by apply columns_kept_update.
Qed.

Lemma columns_kept_finish fr outcome now d :
  columns_kept d (fst (Worker.finish integrity_error fr outcome now d)).
Proof.
  assert (Hexc : forall msg,
            columns_kept d (fst (Worker.on_exception fr msg now d))).
  { intros msg. unfold Worker.on_exception. cbn [fst].
    destruct (Worker.request fr); [|by eauto].
    by apply columns_kept_update. }
  unfold Worker.finish. destruct outcome as [result|msg]; [|apply Hexc].
  destruct (insert_result _ d) as [d'|] eqn:Hins; [|apply Hexc].
  unfold insert_result in Hins. destruct (query_result _ d); [discriminate|].
  injection Hins as <-. cbn [fst].
  destruct (Worker.request fr); [|by eauto].
  exact (columns_kept_update _ (Worker.set_completed now)
           (mkDB (analysis_requests d) _)
           (fun _ => eq_refl) (fun _ => eq_refl) (fun _ => eq_refl)
           (fun _ => eq_refl)).
Qed.

(** X22. In every reachable state each job, queued or being run, has a row
    under its id, and carries the query, the file name and the size of that
    row and the path [data/queue_<id>.pdf]. *)
Theorem job_matches_row (s : State) :
  reachable s ->
  (forall j, j ∈ task_queue (stores s) ->
     exists r, r ∈ analysis_requests (db (stores s)) /\ job_of_row j r) /\
  (forall fr, fr ∈ running s ->
     exists r, r ∈ analysis_requests (db (stores s)) /\
               job_of_row (Worker.job fr) r).
Proof.
  induction 1 as [|s s' _ [IHq IHr] Hstep].
  - split; intros x Hx; inversion Hx.
  - destruct Hstep as [file query env s|j q now s Hqueue
                      |fr before after outcome now s Hrunning];
      cbn [stores db task_queue running] in *.
    + assert (Hkeep : forall x,
                columns_kept (db (stores s))
                  (mkDB (analysis_requests (db (stores s)) ++ [x])
                        (analysis_results (db (stores s))))).
      { intros x j r Hr Hj. exists r. split; [|done].
        simpl. apply elem_of_app. by left. }
      destruct (submit_cases file query env (stores s))
        as [->|(r0 & j0 & _ & _ & Hj0 & _ & [->| ->])];
        cbn [db task_queue].
      * by split.
      * split.
        -- intros j Hj. destruct (IHq j Hj) as (r & Hr & Hjr).
           by apply (Hkeep r0 j r).
        -- intros fr Hfr. destruct (IHr fr Hfr) as (r & Hr & Hjr).
           by apply (Hkeep r0 _ r).
      * split.
        -- intros j Hj. apply elem_of_app in Hj as [Hj|Hj].
           ++ destruct (IHq j Hj) as (r & Hr & Hjr). by apply (Hkeep r0 j r).
           ++ apply list_elem_of_singleton in Hj as ->. exists r0.
              split; [|done]. simpl. apply elem_of_app. right. left.
        -- intros fr Hfr. destruct (IHr fr Hfr) as (r & Hr & Hjr).
           by apply (Hkeep r0 _ r).
    + split.
      * intros j' Hj'. destruct (IHq j') as (r & Hr & Hjr);
          [rewrite Hqueue; by right|].
        by apply (columns_kept_pickup j now _ j' r).
      * intros fr Hfr. apply elem_of_cons in Hfr as [->|Hfr].
        -- rewrite pickup_job. destruct (IHq j) as (r & Hr & Hjr);
             [rewrite Hqueue; left|].
           by apply (columns_kept_pickup j now _ j r).
        -- destruct (IHr fr Hfr) as (r & Hr & Hjr).
           by apply (columns_kept_pickup j now _ _ r).
    + split.
      * intros j Hj. destruct (IHq j Hj) as (r & Hr & Hjr).
        by apply (columns_kept_finish fr outcome now _ j r).
      * intros fr' Hfr'. destruct (IHr fr') as (r & Hr & Hjr).
        { rewrite Hrunning. apply elem_of_app in Hfr' as [H|H];
            apply elem_of_app; [by left | right; by right]. }
        by apply (columns_kept_finish fr outcome now _ _ r).
Qed.

End RowsOverRuns.

Section RowsOverRunsSamples.

Import System MainAsync Runs.

Lemma finished_later :
  later true Sample.integrity_error Sample.picked Sample.finished.
Proof.
  eapply later_step; [apply later_now|].
  apply (step_finish true Sample.integrity_error Sample.frame1 [] []).
  reflexivity.
Qed.

Lemma errored_later :
  later true Sample.integrity_error Sample.submitted Sample.errored.
Proof.
  eapply later_step.
  - eapply later_step; [apply later_now|].
    apply (step_pickup true Sample.integrity_error Sample.job1 [] 110
             Sample.submitted). reflexivity.
  - apply (step_finish true Sample.integrity_error Sample.frame1 [] []).
    reflexivity.
Qed.

(** A later state of [finished]: another submission has come in. *)
Lemma finished_then_submitted :
  later true Sample.integrity_error Sample.finished
    (mkState
       (snd (analyze_document_async true Sample.integrity_error Sample.report
               None (mkEnv (py "job-2") 200 (Returned tt))
               (stores Sample.finished)))
       (running Sample.finished)).
Proof. eapply later_step; [apply later_now|]. apply step_submit. Qed.

Lemma result_is_final_witness :
  fst (get_analysis_result (py "job-1")
         (db (snd (analyze_document_async true Sample.integrity_error
                     Sample.report None (mkEnv (py "job-2") 200 (Returned tt))
                     (stores Sample.finished))))) =
  Return (mkResult (py "job-1") (py "revenue trend") (py "report.pdf")
                   (py "analysis") 60 170).
Proof.
  apply (result_is_final true Sample.integrity_error Sample.finished _
           (py "job-1") _ finished_reachable finished_then_submitted eq_refl).
  left. by eexists.
Defined.

Lemma idle_request_keeps_status_witness :
  fst (get_analysis_status (py "job-1")
         (db (snd (analyze_document_async true Sample.integrity_error
                     Sample.report None (mkEnv (py "job-2") 200 (Returned tt))
                     (stores Sample.finished))))) =
  fst (get_analysis_status (py "job-1") (db (stores Sample.finished))).
Proof.
  apply (idle_request_keeps_status true Sample.integrity_error Sample.finished
           _ (AnalysisRequest.mk (py "job-1") (py "report.pdf") 4
                (py "revenue trend") completed 100 (Some 110) (Some 170) None)
           finished_reachable finished_then_submitted).
  - vm_compute. left.
  - intros H. inversion H.
  - intros H. inversion H.
Defined.

Lemma one_run_per_job_witness :
  NoDup (queued_ids Sample.picked ++ running_ids Sample.picked).
Proof.
  apply (one_run_per_job true Sample.integrity_error Sample.picked
           picked_reachable).
Defined.

Lemma request_id_is_a_key_witness :
  NoDup (request_ids (db (stores Sample.finished))) /\
  NoDup (result_ids (db (stores Sample.finished))).
Proof.
  destruct (request_id_is_a_key true Sample.integrity_error Sample.finished
              finished_reachable) as (H1 & H2 & _).
  by split.
Defined.

Lemma job_matches_row_witness :
  exists r, r ∈ analysis_requests (db (stores Sample.submitted)) /\
            job_of_row Sample.job1 r.
Proof.
  apply (job_matches_row true Sample.integrity_error Sample.submitted
           submitted_reachable).
  vm_compute. left.
Defined.

End RowsOverRunsSamples.

(** ** The cleaned query *)

Section CleanedQuery.

Import Spec MainAsync.

Lemma lstrip_id (t : str) :
  (forall c t', t = c :: t' -> isspace c = false) -> lstrip t = t.
Proof.
  destruct t as [|c t']; [done|]. intros H. simpl.
  by rewrite (H c t' eq_refl).
Qed.

Lemma rstrip_id (t : str) :
  (forall c t', t = t' ++ [c] -> isspace c = false) -> rstrip t = t.
Proof.
  intros H. unfold rstrip. rewrite lstrip_id; [apply rev_involutive|].
  intros c u Hu. apply (H c (rev u)).
  rewrite <- (rev_involutive t), Hu. reflexivity.
Qed.

Lemma strip_idempotent (q : str) : strip (strip q) = strip q.
Proof.
  destruct (strip_stripped q) as (before & after & _ & _ & _ & Hhead & Hlast).
  unfold strip at 1. rewrite (lstrip_id (strip q) Hhead).
  by apply rstrip_id.
Qed.

Lemma strip_not_blank (q : str) : ~ blank q -> ~ blank (strip q).
Proof.
  intros Hq Hb.
  destruct (strip_stripped q) as (before & after & _ & _ & _ & Hhead & _).
  destruct (strip q) as [|c t] eqn:E.
  - by apply strip_nil in E.
  - inversion Hb as [|? ? Hc _]. rewrite (Hhead c t eq_refl) in Hc.
    discriminate.
Qed.

(** X23. The query a job is created with is never empty or blank, has no
    whitespace at either end, and cleaning it again gives it back: the query
    the worker receives is one the handler would accept as it is. *)
Theorem clean_query_is_clean (query : str) :
  let q := clean_query query in
  q <> [] /\ ~ blank q /\
  (forall c t, q = c :: t -> isspace c = false) /\
  (forall c t, q = t ++ [c] -> isspace c = false) /\
  clean_query q = q.
Proof.
  intros q. unfold q.
  assert (Hdefault : clean_query default_query = default_query)
    by (vm_compute; reflexivity).
  assert (Hnb : ~ blank default_query).
  { intros Hb. change default_query with (80%N :: tl default_query) in Hb.
    inversion Hb as [|? ? Hc _]. discriminate. }
  assert (Hcore : forall t, ~ blank t -> strip t = t ->
            t <> [] /\ ~ blank t /\
            (forall c t', t = c :: t' -> isspace c = false) /\
            (forall c t', t = t' ++ [c] -> isspace c = false) /\
            clean_query t = t).
  { intros t Ht Hs.
    destruct (strip_stripped t) as (b & a & _ & _ & _ & Hhead & Hlast).
    rewrite Hs in Hhead, Hlast.
    split; [intros ->; apply Ht; constructor|]. split; [exact Ht|].
    split; [exact Hhead|]. split; [exact Hlast|].
    by rewrite clean_query_strip. }
  destruct (decide (Forall (fun c => isspace c = true) query)) as [Hb|Hb].
  - rewrite (clean_query_blank query Hb). apply Hcore; [exact Hnb|].
    vm_compute. reflexivity.
  - rewrite (clean_query_strip query Hb).
    apply Hcore; [by apply strip_not_blank | apply strip_idempotent].
Qed.

End CleanedQuery.

Lemma clean_query_is_clean_witness :
  MainAsync.clean_query (py "  revenue trend ") = py "revenue trend" /\
  MainAsync.clean_query (MainAsync.clean_query (py "  revenue trend ")) =
  MainAsync.clean_query (py "  revenue trend ").
Proof.
  split; [reflexivity|].
  apply (clean_query_is_clean (py "  revenue trend ")).
Defined.

(** ** The uploaded files *)

Section Uploads.

Import MainAsync System.

Lemma remove_if_exists_lookup path dk p :
  Disk.remove_if_exists path dk p =
  if bool_decide (p = path) then None else dk p.
Proof.
  unfold Disk.remove_if_exists, Disk.remove.
  destruct (dk path) eqn:E; [done|].
  case_bool_decide as Hp; [by subst p | done].
Qed.

Lemma write_lookup path content dk p :
  Disk.write path content dk p =
  if bool_decide (p = path) then Some content else dk p.
Proof. reflexivity. Qed.

(** The handlers with files answer and store as the handlers without. *)
Lemma async_with_files QUEUE_AVAILABLE integrity_error file query env s dk :
  fst (Disk.analyze_document_async QUEUE_AVAILABLE integrity_error file query
         env s dk) =
  analyze_document_async QUEUE_AVAILABLE integrity_error file query env s.
Proof.
  unfold Disk.analyze_document_async, analyze_document_async.
  destruct QUEUE_AVAILABLE; cbn [negb]; [|done].
  destruct (endswith _ _); cbn [negb]; [|done].
  destruct (_ =? 0); [done|].
  destruct (insert_request _ _); [|done].
  by destruct (enqueue env).
Qed.

Lemma sync_with_files lower fs crew file query uuid dk :
  fst (Disk.analyze_document lower fs crew file query uuid dk) =
  Main.analyze_document lower fs crew file query uuid.
Proof.
  unfold Disk.analyze_document, Main.analyze_document.
  destruct (endswith _ _); cbn [negb]; [|done].
  destruct (_ =? 0); [done|].
  destruct (Main.run_financial_crew_with_retry _ _ _ _ _ _)
    as [[result|[code detail|e]] tr]; done.
Qed.

(** X24. What [/analyze/async] leaves at [data/queue_<id>.pdf], by its
    answer: the upload when the job is accepted; nothing when it answers
    500, the file saved being removed; the empty file when it answers 400
    for an empty upload, which is saved and not removed; and what was there
    when it answers 503 or refuses the file name. No other path is
    touched. *)
Theorem upload_by_answer (QUEUE_AVAILABLE : bool) (integrity_error : str)
    (file : UploadFile) (query : option str) (env : Env) (s : Stores)
    (dk : Disk.disk) :
  let answer :=
    Disk.analyze_document_async QUEUE_AVAILABLE integrity_error file query
      env s dk in
  let path := Disk.queue_path (uuid4 env) in
  (forall p, p <> path -> snd answer p = dk p) /\
  match fst (fst answer) with
  | Return _ => snd answer path = Some (content file) /\ content file <> []
  | Raise (HTTPException code detail) =>
      if code =? 500 then snd answer path = None
      else if (code =? 400) && endswith (filename file) (py ".pdf")
           then content file = [] /\ snd answer path = Some []
           else snd answer path = dk path
  | Raise (Exception _) => False
  end.
Proof.
  intros answer path0. unfold answer, path0, Disk.analyze_document_async,
    Disk.queue_path. clear answer path0.
  destruct QUEUE_AVAILABLE; cbn [negb]; [|by split].
  destruct (endswith _ _) eqn:Hpdf; cbn [negb fst snd]; [|by split].
  set (path := py "data/queue_" ++ uuid4 env ++ py ".pdf").
  assert (Hother : forall content p, p <> path ->
            Disk.remove_if_exists path (Disk.write path content dk) p = dk p).
  { intros c p Hp. rewrite remove_if_exists_lookup, write_lookup.
    by rewrite !bool_decide_eq_false_2. }
  assert (Hgone : forall content,
            Disk.remove_if_exists path (Disk.write path content dk) path = None).
  { intros c. rewrite remove_if_exists_lookup.
    by rewrite bool_decide_eq_true_2. }
  assert (Hwritten : forall content p, p <> path ->
            Disk.write path content dk p = dk p).
  { intros c p Hp. rewrite write_lookup. by rewrite bool_decide_eq_false_2. }
  assert (Hthere : forall content,
            Disk.write path content dk path = Some content).
  { intros c. rewrite write_lookup. by rewrite bool_decide_eq_true_2. }
  destruct (content file) as [|b bs] eqn:Hc.
  - change (Z.of_nat (length (@nil N)) =? 0) with true. cbn [fst snd].
    split; [apply Hwritten|]. cbn [Z.eqb Pos.eqb andb].
    split; [done | apply Hthere].
  - replace (Z.of_nat (length (b :: bs)) =? 0) with false
      by (symmetry; apply Z.eqb_neq; simpl; lia).
    destruct (insert_request _ _);
      [|cbn [fst snd]; split; [apply Hother | apply Hgone]].
    destruct (enqueue env); cbn [fst snd].
    + split; [apply Hwritten|]. split; [apply Hthere | done].
    + split; [apply Hother | apply Hgone].
Qed.

(** X25. The synchronous [/analyze] never leaves its upload on disk: when
    the file name is accepted, nothing is at
    [data/financial_document_<id>.pdf] after the call, whatever the answer,
    an empty upload included; no other path is touched, and a refused file
    name touches none. *)
Theorem sync_upload_removed (lower : str -> str) (fs : Tools.filesystem)
    (crew : Worker.Crew) (file : UploadFile) (query : option str)
    (uuid : str) (dk : Disk.disk) :
  let after :=
    snd (Disk.analyze_document lower fs crew file query uuid dk) in
  (forall p, p <> Disk.document_path uuid -> after p = dk p) /\
  after (Disk.document_path uuid) =
    if endswith (filename file) (py ".pdf") then None
    else dk (Disk.document_path uuid).
Proof.
  intros after. unfold after, Disk.analyze_document, Disk.document_path.
  destruct (endswith _ _); cbn [negb snd]; [|by split].
  set (path := py "data/financial_document_" ++ uuid ++ py ".pdf").
  assert (Hother : forall p, p <> path ->
            Disk.remove_if_exists path (Disk.write path (content file) dk) p
            = dk p).
  { intros p Hp. rewrite remove_if_exists_lookup, write_lookup.
    by rewrite !bool_decide_eq_false_2. }
  assert (Hgone : Disk.remove_if_exists path
                    (Disk.write path (content file) dk) path = None).
  { rewrite remove_if_exists_lookup. by rewrite bool_decide_eq_true_2. }
  destruct (_ =? 0); [by split|].
  destruct (Main.run_financial_crew_with_retry _ _ _ _ _ _)
    as [[result|[code detail|e]] tr]; cbn [snd]; by split.
Qed.

Lemma upload_by_answer_witness :
  snd (Disk.analyze_document_async true Sample.integrity_error
         Sample.empty_report None Sample.env1 (stores initial)
         (fun _ => None))
      (py "data/other.pdf") = None.
Proof.
  destruct (upload_by_answer true Sample.integrity_error Sample.empty_report
              None Sample.env1 (stores initial) (fun _ => None)) as [H _].
  apply (H (py "data/other.pdf")). discriminate.
Defined.

Lemma sync_upload_removed_witness :
  snd (Disk.analyze_document Sample.lower Sample.fs Sample.throttled
         Sample.report None (py "u1") (fun _ => None))
      (py "data/other.pdf") = None.
Proof.
  destruct (sync_upload_removed Sample.lower Sample.fs Sample.throttled
              Sample.report None (py "u1") (fun _ => None)) as [H _].
  apply (H (py "data/other.pdf")). discriminate.
Defined.

End Uploads.

(** ** The uploads over the runs of the system *)

Section UploadsOverRuns.

Import MainAsync System Runs.

Variable QUEUE_AVAILABLE : bool.
Variable integrity_error : str.
Variable dk0 : Disk.disk.

Local Abbreviation reachable := (Disk.reachable QUEUE_AVAILABLE integrity_error dk0).

Lemma queue_path_inj a b : Disk.queue_path a = Disk.queue_path b -> a = b.
Proof.
  unfold Disk.queue_path. intros H. apply app_inv_head in H.
  by apply app_inv_tail in H.
Qed.

Lemma queue_path_document_path a b :
  Disk.queue_path a <> Disk.document_path b.
Proof.
  unfold Disk.queue_path, Disk.document_path. intros H.
  change (py "data/queue_") with (py "data/" ++ py "queue_") in H.
  change (py "data/financial_document_")
    with (py "data/" ++ py "financial_document_") in H.
  rewrite <- !app_assoc in H. apply app_inv_head in H. discriminate.
Qed.

(** The system with files is the system, beside its files. *)
Lemma reachable_sys s :
  reachable s ->
  System.reachable QUEUE_AVAILABLE integrity_error (Disk.sys s).
Proof.
  induction 1 as [|s s' _ IH Hstep]; [apply System.reachable_initial|].
  destruct Hstep; cbn [Disk.sys].
  - rewrite async_with_files.
    eapply System.reachable_step; [exact IH | apply System.step_submit].
  - eapply System.reachable_step; [exact IH | by apply System.step_pickup].
  - eapply System.reachable_step; [exact IH | by eapply System.step_finish].
  - exact IH.
Qed.

(** What a submission does to the queue and to the files under
    [data/queue_]. *)
Lemma async_files_cases file query env s dk :
  let answer :=
    Disk.analyze_document_async QUEUE_AVAILABLE integrity_error file query
      env s dk in
  (task_queue (snd (fst answer)) = task_queue s /\
   forall id c, snd answer (Disk.queue_path id) = Some c ->
                c = [] \/ dk (Disk.queue_path id) = Some c) \/
  (exists j,
     task_queue (snd (fst answer)) = task_queue s ++ [j] /\
     Worker.file_path j = Disk.queue_path (Worker.request_id j) /\
     forall id c, snd answer (Disk.queue_path id) = Some c ->
                  id = Worker.request_id j \/ dk (Disk.queue_path id) = Some c).
Proof.
  intros answer. unfold answer, Disk.analyze_document_async.
  destruct QUEUE_AVAILABLE; cbn [negb]; [|left; split; [done|]; by right].
  destruct (endswith _ _); cbn [negb]; [|left; split; [done|]; by right].
  fold (Disk.queue_path (uuid4 env)).
  assert (Hremoved : forall content id c,
            Disk.remove_if_exists (Disk.queue_path (uuid4 env))
              (Disk.write (Disk.queue_path (uuid4 env)) content dk)
              (Disk.queue_path id) = Some c ->
            dk (Disk.queue_path id) = Some c).
  { intros content id c. rewrite remove_if_exists_lookup, write_lookup.
    by case_bool_decide. }
  destruct (content file) as [|b bs] eqn:Hc.
  - change (Z.of_nat (length (@nil N)) =? 0) with true. cbn [fst snd].
    left. split; [done|]. intros id c. rewrite write_lookup.
    case_bool_decide; [intros [= <-]; by left | by right].
  - replace (Z.of_nat (length (b :: bs)) =? 0) with false
      by (symmetry; apply Z.eqb_neq; simpl; lia).
    destruct (insert_request _ _).
    2:{ cbn [fst snd]. left. split; [done|]. intros id c H. right.
        by apply (Hremoved (b :: bs)). }
    destruct (enqueue env); cbn [fst snd task_queue].
    + right. eexists. split; [reflexivity|]. split; [reflexivity|].
      intros id c. rewrite write_lookup. cbn [Worker.request_id].
      case_bool_decide as Hp; [|by right].
      intros _. left. by apply queue_path_inj.
    + left. split; [done|]. intros id c H. right.
      by apply (Hremoved (b :: bs)).
Qed.

(** Every job carries the path of its upload, and every file under
    [data/queue_] is empty or the upload of a job queued or being run. *)
Local Abbreviation files_owned s :=
  ((forall j, j ∈ task_queue (stores (Disk.sys s)) ->
      Worker.file_path j = Disk.queue_path (Worker.request_id j)) /\
   (forall fr, fr ∈ running (Disk.sys s) ->
      Worker.file_path (Worker.job fr) =
      Disk.queue_path (Worker.request_id (Worker.job fr))) /\
   (forall id c, Disk.files s (Disk.queue_path id) = Some c ->
      c = [] \/ id ∈ queued_ids (Disk.sys s) \/ id ∈ running_ids (Disk.sys s))).

Lemma reachable_files_owned s :
  (forall id, dk0 (Disk.queue_path id) = None) ->
  reachable s -> files_owned s.
Proof.
  intros Hdk0. induction 1 as [|s s' _ (IHq & IHr & IHf) Hstep].
  - split; [intros j H; inversion H|]. split; [intros fr H; inversion H|].
    intros id c. cbn [Disk.files]. by rewrite Hdk0.
  - destruct Hstep as [file query env s|j q now s Hqueue
                      |fr before after outcome now s Hrunning
                      |lower fs crew file query uuid s];
      unfold queued_ids, running_ids in *;
      cbn [Disk.sys Disk.files stores running task_queue] in *.
    + destruct (async_files_cases file query env (stores (Disk.sys s))
                  (Disk.files s))
        as [[Hq Hf]|(j & Hq & Hj & Hf)]; cbv zeta in Hq, Hf; rewrite Hq.
      * split; [exact IHq|]. split; [exact IHr|].
        intros id c Hc. destruct (Hf id c Hc) as [->|Hold]; [by left|].
        by apply IHf.
      * split.
        { intros j' Hj'. apply elem_of_app in Hj' as [Hj'|Hj'];
            [by apply IHq|].
          by apply list_elem_of_singleton in Hj' as ->. }
        split; [exact IHr|].
        intros id c Hc. rewrite map_app, elem_of_app.
        destruct (Hf id c Hc) as [->|Hold].
        -- right. left. right. simpl. left.
        -- destruct (IHf id c Hold) as [?|[?|?]]; auto.
    + rewrite Hqueue in IHq, IHf. split; [intros j' Hj'; apply IHq; by right|].
      split.
      * intros fr Hfr. apply elem_of_cons in Hfr as [->|Hfr]; [|by apply IHr].
        rewrite pickup_job. apply IHq. left.
      * intros id c Hc. simpl. rewrite pickup_job.
        destruct (IHf id c Hc) as [?|[Hin|?]]; [by left| |].
        -- simpl in Hin. apply elem_of_cons in Hin as [->|Hin].
           ++ right. right. left.
           ++ right. by left.
        -- right. right. by right.
    + rewrite Hrunning in IHr, IHf. split; [exact IHq|]. split.
      * intros fr' Hfr'. apply IHr.
        apply elem_of_app in Hfr' as [H|H]; apply elem_of_app;
          [by left | right; by right].
      * intros id c. rewrite remove_if_exists_lookup.
        case_bool_decide as Hp; [discriminate|]. intros Hc.
        destruct (IHf id c Hc) as [?|[?|Hin]]; [by left|right; by left|].
        right. right. rewrite map_app, elem_of_app in Hin.
        rewrite map_app, elem_of_app. destruct Hin as [Hin|Hin]; [by left|].
        simpl in Hin. apply elem_of_cons in Hin as [->|Hin]; [|by right].
        exfalso. apply Hp. symmetry. apply IHr.
        apply elem_of_app. right. left.
    + split; [exact IHq|]. split; [exact IHr|].
      intros id c Hc. apply IHf. rewrite <- Hc. symmetry.
      unfold Disk.analyze_document.
      destruct (endswith _ _); cbn [negb snd]; [|done].
      fold (Disk.document_path uuid).
      assert (Hsame :
                Disk.remove_if_exists (Disk.document_path uuid)
                  (Disk.write (Disk.document_path uuid) (content file)
                     (Disk.files s)) (Disk.queue_path id) =
                Disk.files s (Disk.queue_path id)).
      { rewrite remove_if_exists_lookup, write_lookup.
        rewrite !bool_decide_eq_false_2; [done|..];
          apply queue_path_document_path. }
      destruct (_ =? 0); [exact Hsame|].
      destruct (Main.run_financial_crew_with_retry _ _ _ _ _ _)
        as [[result|[code detail|e]] tr]; exact Hsame.
Qed.

(** X26. Starting with no file under [data/queue_], in every reachable
    state a file [data/queue_<id>.pdf] that is not empty is the upload of a
    request that is pending or processing: the uploads of completed and
    failed requests are gone, and only refused empty uploads stay behind. *)
Theorem uploads_belong_to_live_requests (s : Disk.State) (id : str)
    (c : list N) :
  (forall id, dk0 (Disk.queue_path id) = None) ->
  reachable s ->
  Disk.files s (Disk.queue_path id) = Some c ->
  c <> [] ->
  has_status (db (stores (Disk.sys s))) id pending \/
  has_status (db (stores (Disk.sys s))) id processing.
Proof.
  intros Hdk0 Hreach Hc Hne.
  destruct (reachable_files_owned s Hdk0 Hreach) as (_ & _ & Hf).
  pose proof (reachable_invariant _ _ _ (reachable_sys s Hreach))
    as [_ _ _ I4 _ I6 _ _].
  destruct (Hf id c Hc) as [->|[Hin|Hin]]; [done| |].
  - left. apply (list_elem_of_fmap_1 Worker.request_id) in Hin as (j & -> & Hj).
    by apply I4.
  - right.
    apply (list_elem_of_fmap_1
             (fun fr => Worker.request_id (Worker.job fr))) in Hin
      as (fr & -> & Hfr).
    by apply I6.
Qed.

End UploadsOverRuns.

Section UploadsSamples.

Import MainAsync System.

Lemma uploads_belong_to_live_requests_witness :
  has_status
    (db (snd (fst (Disk.analyze_document_async true Sample.integrity_error
                     Sample.report None Sample.env1 (stores initial)
                     (fun _ => None)))))
    (py "job-1") pending \/
  has_status
    (db (snd (fst (Disk.analyze_document_async true Sample.integrity_error
                     Sample.report None Sample.env1 (stores initial)
                     (fun _ => None)))))
    (py "job-1") processing.
Proof.
  apply (uploads_belong_to_live_requests true Sample.integrity_error
           (fun _ => None)
           (Disk.mkState
              (mkState
                 (snd (fst (Disk.analyze_document_async true
                              Sample.integrity_error Sample.report None
                              Sample.env1 (stores initial) (fun _ => None))))
                 (running initial))
              (snd (Disk.analyze_document_async true Sample.integrity_error
                      Sample.report None Sample.env1 (stores initial)
                      (fun _ => None))))
           (py "job-1") [37; 80; 68; 70]%N).
  - reflexivity.
  - eapply Disk.reachable_step; [apply Disk.reachable_initial|].
    apply (Disk.step_submit true Sample.integrity_error Sample.report None
             Sample.env1 (Disk.mkState initial (fun _ => None))).
  - reflexivity.
  - discriminate.
Defined.

End UploadsSamples.

(** ** The answers of the synchronous path *)

Section SyncAnswers.

Import MainAsync.

(** X27. The synchronous [/analyze] invokes the work unit at most three
    times and never lets an exception through that is not an
    [HTTPException]. A refused file name and an empty upload are answered 400
    without any invocation; an analysis is returned only after at least one
    invocation, with the cleaned query, the file name and the size of the
    upload. *)
Theorem sync_answer_shape (lower : str -> str) (fs : Tools.filesystem)
    (crew : Worker.Crew) (file : UploadFile) (query : option str)
    (uuid : str) :
  let answer := Main.analyze_document lower fs crew file query uuid in
  (length (Main.calls (snd answer)) <= 3)%nat /\
  (forall e, fst answer <> Raise (Exception e)) /\
  (endswith (filename file) (py ".pdf") = false \/ content file = [] ->
   Main.calls (snd answer) = [] /\
   exists detail, fst answer = Raise (HTTPException 400 detail)) /\
  (forall res, fst answer = Return res ->
     (1 <= length (Main.calls (snd answer)))%nat /\
     Main.an_query res = clean_query (form_query query) /\
     Main.an_file_processed res = filename file /\
     Main.an_file_size_bytes res = Z.of_nat (length (content file))).
Proof.
  intros answer. unfold answer, Main.analyze_document.
  destruct (endswith _ _) eqn:Hpdf; cbn [negb fst snd].
  2:{ split; [simpl; lia|]. split; [discriminate|].
      split; [intros _; split; [done|by eexists] | discriminate]. }
  destruct (content file) as [|b bs] eqn:Hc.
  { change (Z.of_nat (length (@nil N)) =? 0) with true. cbn [fst snd].
    split; [simpl; lia|]. split; [discriminate|].
    split; [intros _; split; [done|by eexists] | discriminate]. }
  replace (Z.of_nat (length (b :: bs)) =? 0) with false
    by (symmetry; apply Z.eqb_neq; simpl; lia).
  set (path := py "data/financial_document_" ++ uuid ++ py ".pdf").
  set (q := clean_query (form_query query)).
  destruct (read_financial_document_Returned fs path 5000) as [text Hdoc].
  pose proof (retry_loop_shape lower fs crew q path 3 text 2 Hdoc 0%nat
                (Main.mkTrace [] []) eq_refl eq_refl eq_refl)
    as (Hcalls & Hbound & _ & _).
  change (Main.retry_loop lower fs crew q path 3 3 (Z.of_nat 0)
            (Main.mkTrace [] []))
    with (Main.run_financial_crew_with_retry lower fs crew q path 3)
    in Hcalls, Hbound.
  destruct (Main.run_financial_crew_with_retry lower fs crew q path 3)
    as [[result|[code detail|e]] tr]; cbn [fst snd] in *.
  - split; [exact Hbound|]. split; [discriminate|].
    split; [intros [[=]|[=]]|]. intros res [= <-]. split; [lia|done].
  - split; [exact Hbound|]. split; [discriminate|].
    split; [intros [[=]|[=]] | discriminate].
  - split; [exact Hbound|]. split; [discriminate|].
    split; [intros [[=]|[=]] | discriminate].
Qed.

Lemma sync_answer_shape_witness :
  fst (Main.analyze_document Sample.lower Sample.fs Sample.throttled
         Sample.empty_report None (py "u1")) =
  Raise (HTTPException 400 (py "Uploaded file is empty")) /\
  Main.calls (snd (Main.analyze_document Sample.lower Sample.fs
                     Sample.throttled Sample.empty_report None (py "u1"))) = [].
Proof.
  split; [reflexivity|].
  apply (sync_answer_shape Sample.lower Sample.fs Sample.throttled
           Sample.empty_report None (py "u1")).
  by right.
Defined.

End SyncAnswers.
